(** * terraform-state-migration: the migration engine, embedded and verified

    Shallow embedding of [internal/s3client/client.go] and
    [internal/migrator/migrator.go], with the Terraform Cloud client
    ([internal/terraform]), the configuration ([internal/config]) and the
    commands [migrate] and [list] ([cmd/migrator]) around them.  Go values
    are modelled as follows:
    - [int] is a 64-bit two's complement integer, a [Z] with [wrap] applied
      after every arithmetic operation;
    - [string] is a byte sequence, Rocq's [string] (a list of [ascii]);
    - [error] is a chain of messages built by [fmt.Errorf("...: %w", err)];
    - the S3 bucket is a finite map from keys to objects, kept with the
      list of the requests it has received;
    - what the program does not decide is a parameter: the answers of the
      Terraform Cloud API ([terraform.Client], and [tfe.API] below the
      client), the failures of the AWS SDK ([s3client.SDK]), what viper
      reads ([appconfig.Viper]), the clock and the Go scheduler
      ([migrator.Runtime]);
    - the goroutines of a batch are a transition system: a schedule names
      the goroutine that moves at each step, and the statements hold for
      every schedule;
    - sleeps, calls to the collaborators and the log entries that report
      results are appended to a trace. *)

From Stdlib Require Import ZArith String Ascii List Bool Lia QArith DecimalString.
From stdpp Require Import base list strings gmap.

Local Open Scope string_scope.
Local Open Scope Z_scope.

(** ** Go integers *)

Module GoInt.

Definition min_int : Z := - 2 ^ 63.
Definition max_int : Z := 2 ^ 63 - 1.

(** Two's complement wrap-around of a mathematical integer into [int]. *)
Definition wrap (z : Z) : Z := (z + 2 ^ 63) mod 2 ^ 64 - 2 ^ 63.

Definition add (a b : Z) : Z := wrap (a + b).
Definition sub (a b : Z) : Z := wrap (a - b).

(** Go's [/] truncates toward zero; the divisor is checked by the caller
    (division by zero is a run-time panic). *)
Definition quo (a b : Z) : Z := wrap (Z.quot a b).

End GoInt.

(** ** Go strings *)

Module GoStr.

Definition bytes (s : string) : list ascii := list_ascii_of_string s.
Definition str (l : list ascii) : string := string_of_list_ascii l.

(** [len(s)] *)
Definition len (s : string) : Z := Z.of_nat (String.length s).

(** [s[:n]] and [s[n:]].  Go panics when [n] is outside [0..len(s)]; the
    callers below are shown to stay inside that range. *)
Definition slice_to (s : string) (n : Z) : string := str (take (Z.to_nat n) (bytes s)).
Definition slice_from (s : string) (n : Z) : string := str (drop (Z.to_nat n) (bytes s)).

(** [strings.HasSuffix]:
    [len(s) >= len(suffix) && s[len(s)-len(suffix):] == suffix] *)
Definition HasSuffix (s suffix : string) : bool :=
  (len suffix <=? len s) && String.eqb (slice_from s (len s - len suffix)) suffix.

(** A byte below [utf8.RuneSelf]. *)
Definition isASCII (c : ascii) : bool := (nat_of_ascii c <? 128)%nat.

Definition isUpper (c : ascii) : bool :=
  (65 <=? nat_of_ascii c)%nat && (nat_of_ascii c <=? 90)%nat.

(** [c += 'a' - 'A'] on an upper-case ASCII letter. *)
Definition lowerByte (c : ascii) : ascii :=
  if isUpper c then ascii_of_nat (nat_of_ascii c + 32) else c.

(** The part of Go's [strings] package that depends on the Unicode tables:
    [mapLower s] is [strings.Map(unicode.ToLower, s)], which [ToLower] calls
    only for a string holding a byte >= 0x80.  [Map] turns every rune of the
    input (at least one byte) into one rune of the output, so a tail of the
    output made of ASCII bytes is never longer than the input. *)
Class Unicode := {
  mapLower : string -> string;
  mapLower_ascii_tail : forall s suffix : string,
    forallb isASCII (bytes suffix) = true ->
    HasSuffix (mapLower s) suffix = true ->
    len suffix <= len s
}.

(** [strings.ToLower]: the ASCII fast path, else the Unicode mapping. *)
Definition ToLower `{Unicode} (s : string) : string :=
  let isAscii := forallb isASCII (bytes s) in
  let hasUpper := existsb isUpper (bytes s) in
  if isAscii then
    if negb hasUpper then s else str (map lowerByte (bytes s))
  else mapLower s.

(** [filepath.Join] on a Unix path, by components: the non-empty elements
    are joined by [/] and the result is cleaned ([filepath.Clean]): empty
    and [.] components are dropped, [..] removes the component before it,
    a leading [/] is kept, and an empty result is [.]. *)
Fixpoint splitSlash (cur : list ascii) (l : list ascii) : list (list ascii) :=
  match l with
  | [] => [rev cur]
  | c :: l' =>
      if Ascii.eqb c "/"%char then rev cur :: splitSlash [] l'
      else splitSlash (c :: cur) l'
  end.

Definition isDot (c : list ascii) : bool := String.eqb (str c) ".".
Definition isDotDot (c : list ascii) : bool := String.eqb (str c) "..".

(** One step of [Clean]: [out] is the stack of components kept so far,
    innermost first. *)
Definition cleanStep (rooted : bool) (out : list (list ascii)) (c : list ascii)
  : list (list ascii) :=
  match c with
  | [] => out
  | _ =>
      if isDot c then out
      else if isDotDot c then
        match out with
        | [] => if rooted then [] else [c]
        | top :: out' => if isDotDot top then c :: out else out'
        end
      else c :: out
  end.

Fixpoint joinSlash (cs : list (list ascii)) : list ascii :=
  match cs with
  | [] => []
  | [c] => c
  | c :: cs' => (c ++ "/"%char :: joinSlash cs')%list
  end.

Definition Clean (path : string) : string :=
  match bytes path with
  | [] => "."
  | c0 :: _ =>
      let rooted := Ascii.eqb c0 "/"%char in
      let kept := rev (fold_left (cleanStep rooted) (splitSlash [] (bytes path)) []) in
      let body := joinSlash kept in
      if rooted then str ("/"%char :: body)
      else match body with [] => "." | _ => str body end
  end.

Fixpoint dropEmptyPrefix (elem : list string) : list string :=
  match elem with
  | [] => []
  | e :: rest => if String.eqb e "" then dropEmptyPrefix rest else elem
  end.

Definition Join (elem : list string) : string :=
  match dropEmptyPrefix elem with
  | [] => ""
  | rest => Clean (str (joinSlash (map bytes rest)))
  end.

(** A path element that [Clean] keeps as it is: not empty, without [/],
    and neither [.] nor [..]. *)
Definition plainElem (s : string) : bool :=
  negb (String.eqb s "")
  && forallb (fun c => negb (Ascii.eqb c "/"%char)) (bytes s)
  && negb (isDot (bytes s)) && negb (isDotDot (bytes s)).

(** [strconv.Itoa], as used by the [%d] verb. *)
Definition Itoa (z : Z) : string := DecimalString.NilZero.string_of_int (Z.to_int z).

End GoStr.

(** ** Go errors *)

Module GoErr.

(** [New msg] is [fmt.Errorf(msg)] without a wrapped cause;
    [Wrap msg cause] is [fmt.Errorf(msg + ": %w", cause)]. *)
Inductive error : Type :=
| New (msg : string)
| Wrap (msg : string) (cause : error).

(** [err.Error()] *)
Fixpoint Error (e : error) : string :=
  match e with
  | New msg => msg
  | Wrap msg cause => msg ++ ": " ++ Error cause
  end.

(** [errors.Unwrap] *)
Definition Unwrap (e : error) : option error :=
  match e with
  | New _ => None
  | Wrap _ cause => Some cause
  end.

End GoErr.

Export GoErr.

(** ** internal/s3client *)

Module s3client.
Import GoStr.

(** The value types of [map[string]interface{}] that the metadata holds. *)
Inductive jsonValue : Type :=
| JString (s : string)
| JInt (n : Z).

(** [s3.PutObjectInput] *)
Record PutObjectInput := {
  put_Bucket : string;
  put_Key : string;
  put_Body : string;
  put_ContentType : string;
  put_Metadata : list (string * string)
}.

(** What the bucket keeps of an object. *)
Record Object := {
  obj_Body : string;
  obj_ContentType : string;
  obj_Metadata : list (string * string)
}.

(** [UploadOptions] *)
Record UploadOptions := {
  Key : string;
  Content : string;
  ContentType : string;
  Metadata : list (string * string)
}.

(** The answers of [HeadObject] that [CheckStateExists] tells apart. *)
Inductive headResult : Type :=
| HeadFound
| HeadNotFound (e : error)
| HeadFailed (e : error).

(** The AWS SDK and [encoding/json], as the client uses them.  A request
    can fail for reasons outside the program: [putFault n] is the error of
    the [n]-th [PutObject] request of the run, if it fails, and
    [headFault key] the error of a [HeadObject] request that is not a plain
    "not found". *)
Record SDK := {
  putFault : nat -> option error;
  headFault : string -> option error;
  headBucket : option error;
  notFoundError : error;
  MarshalIndent : list (string * jsonValue) -> error + string
}.

(** The bucket and the requests it has seen, oldest first. *)
Record S3 := {
  objects : gmap string Object;
  putCount : nat;
  puts : list PutObjectInput;
  heads : list string
}.

Definition emptyS3 : S3 := {| objects := ∅; putCount := 0; puts := []; heads := [] |}.

(** [Client]: the fields that the methods read. *)
Record Client := {
  sdk : SDK;
  bucket : string;
  prefix : string
}.

(** [s3Client.PutObject]: the request is counted, then either fails and
    leaves the bucket alone or stores the object under its key. *)
Definition PutObject (c : Client) (input : PutObjectInput) (w : S3) : S3 * option error :=
  let w1 := {| objects := objects w; putCount := S (putCount w);
               puts := (puts w ++ [input])%list; heads := heads w |} in
  match putFault (sdk c) (putCount w) with
  | Some e => (w1, Some e)
  | None =>
      ({| objects := <[ put_Key input :=
                         {| obj_Body := put_Body input;
                            obj_ContentType := put_ContentType input;
                            obj_Metadata := put_Metadata input |} ]> (objects w);
          putCount := putCount w1; puts := puts w1; heads := heads w1 |}, None)
  end.

(** [s3Client.HeadObject]: a read, the bucket keeps its objects. *)
Definition HeadObject (c : Client) (key : string) (w : S3) : S3 * headResult :=
  let w1 := {| objects := objects w; putCount := putCount w;
               puts := puts w; heads := (heads w ++ [key])%list |} in
  match headFault (sdk c) key with
  | Some e => (w1, HeadFailed e)
  | None =>
      match objects w !! key with
      | Some _ => (w1, HeadFound)
      | None => (w1, HeadNotFound (notFoundError (sdk c)))
      end
  end.

(** [generateStateKey]: [filepath.Join(workspaceName, filename)]; neither
    the organization nor the client's prefix takes part. *)
Definition generateStateKey (c : Client) (organization workspaceName filename : string)
  : string :=
  Join [workspaceName; filename].

(** [uploadFile] *)
Definition uploadFile (c : Client) (options : UploadOptions) (w : S3) : S3 * option error :=
  let input := {| put_Bucket := bucket c;
                  put_Key := Key options;
                  put_Body := Content options;
                  put_ContentType := ContentType options;
                  put_Metadata :=
                    if (0 <? Z.of_nat (length (Metadata options)))
                    then Metadata options else [] |} in
  match PutObject c input w with
  | (w', Some err) => (w', Some (Wrap "erro ao fazer upload para S3" err))
  | (w', None) => (w', None)
  end.

(** [UploadState] *)
Definition UploadState (c : Client) (organization workspaceName : string)
    (stateContent : string) (metadata : list (string * jsonValue)) (w : S3)
  : S3 * option error :=
  let stateKey := generateStateKey c organization workspaceName "terraform.tfstate" in
  let metadataKey := generateStateKey c organization workspaceName "metadata.json" in
  match uploadFile c {| Key := stateKey;
                        Content := stateContent;
                        ContentType := "application/json";
                        Metadata := [("workspace", workspaceName);
                                     ("organization", organization);
                                     ("file-type", "terraform-state")] |} w with
  | (w1, Some err) =>
      (w1, Some (Wrap ("erro ao fazer upload do estado do workspace " ++ workspaceName) err))
  | (w1, None) =>
      match MarshalIndent (sdk c) metadata with
      | inl err =>
          (w1, Some (Wrap ("erro ao serializar metadados para workspace " ++ workspaceName) err))
      | inr metadataJSON =>
          match uploadFile c {| Key := metadataKey;
                                Content := metadataJSON;
                                ContentType := "application/json";
                                Metadata := [("workspace", workspaceName);
                                             ("organization", organization);
                                             ("file-type", "metadata")] |} w1 with
          | (w2, Some err) =>
              (w2, Some (Wrap ("erro ao fazer upload dos metadados do workspace "
                               ++ workspaceName) err))
          | (w2, None) => (w2, None)
          end
      end
  end.

(** [CheckStateExists] *)
Definition CheckStateExists (c : Client) (organization workspaceName : string) (w : S3)
  : S3 * (bool * option error) :=
  let stateKey := generateStateKey c organization workspaceName "terraform.tfstate" in
  match HeadObject c stateKey w with
  | (w', HeadFound) => (w', (true, None))
  | (w', HeadNotFound _) => (w', (false, None))
  | (w', HeadFailed err) =>
      (w', (false, Some (Wrap "erro ao verificar existência do estado" err)))
  end.

(** [ValidateConnection] *)
Definition ValidateConnection (c : Client) : option error :=
  match headBucket (sdk c) with
  | Some err =>
      Some (Wrap ("erro ao validar acesso ao bucket S3 '" ++ bucket c ++ "'") err)
  | None => None
  end.

End s3client.

(** ** internal/terraform: the values the migrator consumes *)

Module terraform.

Record Workspace := {
  ID : string;
  Name : string;
  Description : string;
  CurrentStateVersion : string;
  HasState : bool
}.

Record StateData := {
  WorkspaceName : string;
  StateContent : string;
  Version : Z;
  StateID : string;
  Metadata : list (string * s3client.jsonValue)
}.

(** The answers of the Terraform Cloud API to the four methods of
    [terraform.Client]. *)
Record Client := {
  ValidateConnection : option error;
  ListWorkspaces : error + list Workspace;
  GetWorkspaceByName : string -> error + Workspace;
  GetWorkspaceState : string -> error + StateData
}.

End terraform.

(** ** internal/config *)

Module config.

Record Config := {
  Organization : string;
  BatchSize : Z;
  ConcurrentUploads : Z;
  RetryAttempts : Z
}.

(** The two checks of [Validate] on the migration settings. *)
Definition Validate_migration (c : Config) : option error :=
  if BatchSize c <=? 0 then Some (New "batch_size deve ser maior que 0")
  else if ConcurrentUploads c <=? 0 then Some (New "concurrent_uploads deve ser maior que 0")
  else None.

End config.

(** ** internal/migrator *)

Module migrator.
Import GoStr.
Export terraform config.

Record Migrator := {
  tfClient : terraform.Client;
  s3Client : s3client.Client;
  config : Config
}.

Record MigrationOptions := {
  DryRun : bool;
  Projects : list string
}.

Record FailedMigration := {
  WorkspaceName : string;
  Error : string
}.

(** [time.Time] is the number of nanoseconds since the zero time, so that
    the zero value of the struct is [0]; [time.Duration] is a number of
    nanoseconds. *)
Record MigrationStats := {
  Total : Z;
  Successful : Z;
  Failed : Z;
  StartTime : Z;
  EndTime : Z;
  Duration : Z;
  FailedItems : list FailedMigration
}.

Definition Second : Z := 1000000000.

(** [t.Sub(u)]: the difference, saturated to the range of [Duration]. *)
Definition Sub (t u : Z) : Z := Z.max GoInt.min_int (Z.min GoInt.max_int (t - u)).

(** *** What a run does to the outside world *)

Inductive goroutine : Type :=
| Main
| Task (workspaceID : string).

Inductive logValue : Type :=
| VStr (s : string)
| VInt (n : Z)
| VBool (b : bool)
| VNames (l : list string)
| VDuration (d : Z)
| VPercent (q : Q).

Inductive level : Type := Info | Warn | ErrorLevel.

(** Calls to the collaborators with what they answered, sleeps, and the
    log entries that report results; the other log lines of the package
    are diagnostics that nothing reads and are left out. *)
Inductive Event : Type :=
| Sleep (g : goroutine) (d : Z)
| CallGetWorkspaceState (workspaceID : string) (ok : bool)
| CallUploadState (workspaceName : string) (attempt : Z) (result : option error)
| CallProcessBatch (batchNumber : Z) (batch : list Workspace)
| Log (lvl : level) (msg : string) (fields : list (string * logValue)).

Record World := {
  s3 : s3client.S3;
  trace : list Event;
  clockReads : nat
}.

Definition emit (e : Event) (w : World) : World :=
  {| s3 := s3 w; trace := (trace w ++ [e])%list; clockReads := clockReads w |}.

Definition withS3 (s : s3client.S3) (w : World) : World :=
  {| s3 := s; trace := trace w; clockReads := clockReads w |}.

(** The parts of a run that the program does not decide: the clock
    ([now k] is the answer of the [k]-th call of [time.Now]) and the Go
    scheduler ([schedule b] lists, for batch number [b], the task that
    moves at each step). *)
Record Runtime := {
  now : nat -> Z;
  schedule : Z -> list nat
}.

Definition Now (rt : Runtime) (w : World) : World * Z :=
  ({| s3 := s3 w; trace := trace w; clockReads := S (clockReads w) |},
   now rt (clockReads w)).

Section WithUnicode.
Context {U : Unicode}.

(** *** removeEnvironmentSuffix *)

Definition envSuffixes : list string :=
  ["-stg"; "-prd"; "-dev"; "-prod"; "-staging"; "-production"; "-test"; "-qa"; "-uat"].

(** The [for _, suffix := range envSuffixes] loop: the first suffix of
    the list that matches decides. *)
Fixpoint removeEnvironmentSuffix_loop (workspaceName : string) (suffixes : list string)
  : string :=
  match suffixes with
  | [] => workspaceName
  | suffix :: rest =>
      if HasSuffix (ToLower workspaceName) suffix
      then slice_to workspaceName (len workspaceName - len suffix)
      else removeEnvironmentSuffix_loop workspaceName rest
  end.

Definition removeEnvironmentSuffix (workspaceName : string) : string :=
  removeEnvironmentSuffix_loop workspaceName envSuffixes.




(** *** ValidateConnections *)

Definition ValidateConnections (m : Migrator) : option error :=
  match terraform.ValidateConnection (tfClient m) with
  | Some err => Some (Wrap "falha na validação do Terraform Cloud" err)
  | None =>
      match s3client.ValidateConnection (s3Client m) with
      | Some err => Some (Wrap "falha na validação do S3" err)
      | None => None
      end
  end.

(** *** migrateWorkspace *)

(** The retry loop [for attempt := 1; attempt <= RetryAttempts; attempt++].
    [fuel] bounds the number of iterations; [migrateWorkspace] gives it
    [RetryAttempts], which the loop never exceeds while [attempt++] does
    not overflow. *)
Fixpoint uploadLoop (m : Migrator) (workspace : Workspace) (stateName : string)
    (stateData : StateData) (fuel : nat) (attempt : Z) (uploadErr : option error)
    (w : World) : World * option error :=
  match fuel with
  | O => (w, uploadErr)
  | S fuel' =>
      if attempt <=? RetryAttempts (config m) then
        let '(s3', uploadErr') :=
          s3client.UploadState (s3Client m) (Organization (config m)) stateName
            (StateContent stateData) (terraform.Metadata stateData) (s3 w) in
        let w1 := emit (CallUploadState stateName attempt uploadErr') (withS3 s3' w) in
        match uploadErr' with
        | None => (w1, None)
        | Some _ =>
            let w2 :=
              if attempt <? RetryAttempts (config m) then
                let delay := GoInt.wrap (attempt * Second) in
                emit (Sleep (Task (ID workspace)) delay) w1
              else w1 in
            uploadLoop m workspace stateName stateData fuel' (GoInt.add attempt 1)
              uploadErr' w2
        end
      else (w, uploadErr)
  end.

Definition migrateWorkspace (m : Migrator) (workspace : Workspace) (dryRun : bool)
    (w : World) : World * option error :=
  match GetWorkspaceState (tfClient m) (ID workspace) with
  | inl err =>
      (emit (CallGetWorkspaceState (ID workspace) false) w,
       Some (Wrap "erro ao obter estado" err))
  | inr stateData =>
      let w0 := emit (CallGetWorkspaceState (ID workspace) true) w in
      if dryRun then (w0, None)
      else
        let stateName := removeEnvironmentSuffix (Name workspace) in
        let '(w1, uploadErr) :=
          uploadLoop m workspace stateName stateData
            (Z.to_nat (RetryAttempts (config m))) 1 None w0 in
        match uploadErr with
        | Some err =>
            (w1, Some (Wrap ("erro ao fazer upload após "
                             ++ Itoa (RetryAttempts (config m)) ++ " tentativas") err))
        | None => (w1, None)
        end
  end.

(** *** getWorkspacesToMigrate *)

(** The loop over [projectFilter]: a name that does not resolve is noted
    and skipped. *)
Fixpoint resolveProjects (m : Migrator) (projectFilter : list string)
    (workspaces : list Workspace) (notFoundProjects : list string)
  : list Workspace * list string :=
  match projectFilter with
  | [] => (workspaces, notFoundProjects)
  | projectName :: rest =>
      match GetWorkspaceByName (tfClient m) projectName with
      | inl _ => resolveProjects m rest workspaces (notFoundProjects ++ [projectName])%list
      | inr workspace => resolveProjects m rest (workspaces ++ [workspace])%list notFoundProjects
      end
  end.

(** The three lists that the filtering loop builds. *)
Record Analysis := {
  workspacesWithState : list Workspace;
  workspacesWithoutState : list string;
  existingStates : list string
}.

(** The loop [for _, ws := range workspaces] that sorts the workspaces.
    An error of [CheckStateExists] is only logged: [exists] is then
    [false] and the workspace is kept. *)
Fixpoint analyse (m : Migrator) (workspaces : list Workspace) (acc : Analysis) (w : World)
  : Analysis * World :=
  match workspaces with
  | [] => (acc, w)
  | ws :: rest =>
      if negb (HasState ws) then
        analyse m rest
          {| workspacesWithState := workspacesWithState acc;
             workspacesWithoutState := (workspacesWithoutState acc ++ [Name ws])%list;
             existingStates := existingStates acc |} w
      else
        let cleanName := removeEnvironmentSuffix (Name ws) in
        let '(s3', (exists_, _)) :=
          s3client.CheckStateExists (s3Client m) (Organization (config m)) cleanName (s3 w) in
        let w' := withS3 s3' w in
        if exists_ then
          analyse m rest
            {| workspacesWithState := workspacesWithState acc;
               workspacesWithoutState := workspacesWithoutState acc;
               existingStates := (existingStates acc ++ [Name ws])%list |} w'
        else
          analyse m rest
            {| workspacesWithState := (workspacesWithState acc ++ [ws])%list;
               workspacesWithoutState := workspacesWithoutState acc;
               existingStates := existingStates acc |} w'
  end.

Definition lenL {A : Type} (l : list A) : Z := Z.of_nat (length l).

(** The summary entry "Análise de workspaces concluída". *)
Definition analysisSummary (workspaces : list Workspace) (a : Analysis) : Event :=
  Log Info "Análise de workspaces concluída"
    [("total_found", VInt (lenL workspaces));
     ("with_state", VInt (lenL (workspacesWithState a)));
     ("without_state", VInt (lenL (workspacesWithoutState a)));
     ("already_migrated", VInt (lenL (existingStates a)));
     ("to_migrate", VInt (lenL (workspacesWithState a)))].

Definition getWorkspacesToMigrate (m : Migrator) (projectFilter : list string) (w : World)
  : World * (error + list Workspace) :=
  let found : error + list Workspace :=
    if 0 <? lenL projectFilter then
      inr (fst (resolveProjects m projectFilter [] []))
    else
      match ListWorkspaces (tfClient m) with
      | inl err => inl err
      | inr allWorkspaces => inr allWorkspaces
      end in
  match found with
  | inl err => (w, inl err)
  | inr workspaces =>
      let '(a, w1) :=
        analyse m workspaces
          {| workspacesWithState := []; workspacesWithoutState := [];
             existingStates := [] |} w in
      let w2 := emit (analysisSummary workspaces a) w1 in
      let w3 :=
        if 0 <? lenL (workspacesWithoutState a) then
          emit (Log Info "Workspaces sem estado do Terraform (serão ignorados)"
                  [("workspaces", VNames (workspacesWithoutState a))]) w2
        else w2 in
      let w4 :=
        if 0 <? lenL (existingStates a) then
          emit (Log Info "Workspaces já migrados anteriormente (serão pulados)"
                  [("workspaces", VNames (existingStates a))]) w3
        else w3 in
      (w4, inr (workspacesWithState a))
  end.

(** The value logged under [key] by the entries with message [msg]. *)
Definition logged (msg key : string) (tr : list Event) : list logValue :=
  flat_map (fun e =>
    match e with
    | Log _ msg' fields =>
        if String.eqb msg' msg then
          flat_map (fun kv => if String.eqb (fst kv) key then [snd kv] else []) fields
        else []
    | _ => []
    end) tr.

(** *** processBatch: the goroutines of one batch *)

(** Where the goroutine of a workspace stands:
    - [Spawned]: started, about to send on [sem];
    - [Holding]: the send went through, about to call [migrateWorkspace];
    - [Migrated err]: [migrateWorkspace] returned [err], about to lock [mu];
    - [Recorded err]: the statistics are updated and [mu] unlocked, the
      deferred calls are about to run;
    - [Finished err]: the deferred receive from [sem] and [wg.Done] have
      run; [err] is kept as the outcome the goroutine ended with. *)
Inductive pc : Type :=
| Spawned
| Holding
| Migrated (err : option error)
| Recorded (err : option error)
| Finished (err : option error).

(** [semLen] is the number of values buffered in [sem]; [stats] is the
    structure behind the shared pointer. *)
Record BatchState := {
  semLen : Z;
  tasks : list (Workspace * pc);
  stats : MigrationStats;
  world : World
}.

(** The critical section between [mu.Lock()] and [mu.Unlock()]. *)
Definition record (ws : Workspace) (err : option error) (st : MigrationStats)
  : MigrationStats :=
  match err with
  | Some e =>
      {| Total := Total st; Successful := Successful st;
         Failed := GoInt.add (Failed st) 1;
         StartTime := StartTime st; EndTime := EndTime st; Duration := Duration st;
         FailedItems := (FailedItems st ++
                         [{| WorkspaceName := Name ws; Error := GoErr.Error e |}])%list |}
  | None =>
      {| Total := Total st; Successful := GoInt.add (Successful st) 1;
         Failed := Failed st;
         StartTime := StartTime st; EndTime := EndTime st; Duration := Duration st;
         FailedItems := FailedItems st |}
  end.

(** One step of the goroutine of the [i]-th workspace of the batch.  A
    send on [sem] goes through only while fewer than [ConcurrentUploads]
    values are buffered; a goroutine that cannot move leaves the state as
    it is.  The calls of one [migrateWorkspace] are taken as one step, and
    so is the critical section, which the mutex makes atomic. *)
Definition step (m : Migrator) (dryRun : bool) (i : nat) (b : BatchState) : BatchState :=
  match tasks b !! i with
  | None => b
  | Some (ws, Spawned) =>
      if semLen b <? ConcurrentUploads (config m) then
        {| semLen := semLen b + 1; tasks := <[i := (ws, Holding)]> (tasks b);
           stats := stats b; world := world b |}
      else b
  | Some (ws, Holding) =>
      let '(w', err) := migrateWorkspace m ws dryRun (world b) in
      {| semLen := semLen b; tasks := <[i := (ws, Migrated err)]> (tasks b);
         stats := stats b; world := w' |}
  | Some (ws, Migrated err) =>
      {| semLen := semLen b; tasks := <[i := (ws, Recorded err)]> (tasks b);
         stats := record ws err (stats b); world := world b |}
  | Some (ws, Recorded err) =>
      {| semLen := semLen b - 1; tasks := <[i := (ws, Finished err)]> (tasks b);
         stats := stats b; world := world b |}
  | Some (ws, Finished _) => b
  end.

Definition runSchedule (m : Migrator) (dryRun : bool) (sched : list nat) (b : BatchState)
  : BatchState :=
  fold_left (fun b i => step m dryRun i b) sched b.

Definition isFinished (t : Workspace * pc) : bool :=
  match snd t with Finished _ => true | _ => false end.

(** A goroutine between its send on [sem] and its receive from it. *)
Definition inFlight (t : Workspace * pc) : bool :=
  match snd t with Holding | Migrated _ | Recorded _ => true | _ => false end.

Definition spawn (batch : list Workspace) (st : MigrationStats) (w : World) : BatchState :=
  {| semLen := 0; tasks := map (fun ws => (ws, Spawned)) batch; stats := st; world := w |}.

(** How far a call has come. *)
Inductive Run (A : Type) : Type :=
| Returned (a : A)
| Panicked (msg : string)
| Joining (b : BatchState)
| OutOfFuel.
#[global] Arguments Returned {A} a.
#[global] Arguments Panicked {A} msg.
#[global] Arguments Joining {A} b.
#[global] Arguments OutOfFuel {A}.

(** [processBatch] under the schedule [sched]: once every goroutine has
    called [wg.Done], [wg.Wait] returns and so does the call (its error
    is always [nil]); until then the call is [Joining]. *)
Definition processBatch (m : Migrator) (batch : list Workspace) (options : MigrationOptions)
    (st : MigrationStats) (w : World) (sched : list nat) : Run (MigrationStats * World) :=
  if ConcurrentUploads (config m) <? 0 then Panicked "makechan: size out of range"
  else
    let b := runSchedule m (DryRun options) sched (spawn batch st w) in
    if forallb isFinished (tasks b) then Returned (stats b, world b)
    else Joining b.

(** *** processBatches *)

(** The loop [for i := 0; i < len(workspaces); i += batchSize].  [fuel]
    bounds the number of iterations; [processBatches] gives it
    [len(workspaces)]. *)
Fixpoint processBatches_loop (m : Migrator) (rt : Runtime) (workspaces : list Workspace)
    (options : MigrationOptions) (totalBatches : Z) (fuel : nat) (i : Z)
    (st : MigrationStats) (w : World) : Run (MigrationStats * World) :=
  let batchSize := BatchSize (config m) in
  if i <? lenL workspaces then
    match fuel with
    | O => OutOfFuel
    | S fuel' =>
        let end_ := GoInt.add i batchSize in
        let end_ := if end_ >? lenL workspaces then lenL workspaces else end_ in
        if (i <? 0) || (end_ <? i) then Panicked "slice bounds out of range"
        else
          let batch := take (Z.to_nat (end_ - i)) (drop (Z.to_nat i) workspaces) in
          let batchNumber := GoInt.add (GoInt.quo i batchSize) 1 in
          let w1 := emit (CallProcessBatch batchNumber batch) w in
          match processBatch m batch options st w1 (schedule rt batchNumber) with
          | Returned (st', w2) =>
              let w3 :=
                if batchNumber <? totalBatches
                then emit (Sleep Main (1 * Second)) w2
                else w2 in
              processBatches_loop m rt workspaces options totalBatches fuel'
                (GoInt.add i batchSize) st' w3
          | Panicked msg => Panicked msg
          | Joining b => Joining b
          | OutOfFuel => OutOfFuel
          end
    end
  else Returned (st, w).

Definition processBatches (m : Migrator) (rt : Runtime) (workspaces : list Workspace)
    (options : MigrationOptions) (st : MigrationStats) (w : World)
  : Run (MigrationStats * World) :=
  let batchSize := BatchSize (config m) in
  if batchSize =? 0 then Panicked "integer divide by zero"
  else
    let totalBatches :=
      GoInt.quo (GoInt.sub (GoInt.add (lenL workspaces) batchSize) 1) batchSize in
    processBatches_loop m rt workspaces options totalBatches (length workspaces) 0 st w.

(** *** logFinalStats *)

Definition failureEntry (failed : FailedMigration) : Event :=
  Log ErrorLevel "Falha na migração"
    [("workspace", VStr (WorkspaceName failed)); ("error", VStr (Error failed))].

(** The rate [float64(Successful) / float64(Total) * 100], as a rational:
    the rounding of [float64] is not modelled. *)
Definition successRate (st : MigrationStats) : Q :=
  (inject_Z (Successful st) / inject_Z (Total st) * 100)%Q.

Definition logFinalStats (st : MigrationStats) (dryRun : bool) (w : World) : World :=
  let mode := if dryRun then "Dry run" else "Migração" in
  let w1 :=
    emit (Log Info "Migração finalizada"
            [("mode", VStr mode); ("total", VInt (Total st));
             ("successful", VInt (Successful st)); ("failed", VInt (Failed st));
             ("duration", VDuration (Duration st))]) w in
  let w2 :=
    if 0 <? lenL (FailedItems st) then
      fold_left (fun w failed => emit (failureEntry failed) w) (FailedItems st)
        (emit (Log ErrorLevel "Workspaces que falharam:" []) w1)
    else w1 in
  if 0 <? Total st then
    emit (Log Info "Taxa de sucesso" [("success_rate", VPercent (successRate st))]) w2
  else w2.

(** *** Migrate *)

(** What [Migrate] leaves behind: the error it returns, the statistics
    structure it built ([None] when it returned before building one), and
    the world. *)
Record Outcome := {
  result : option error;
  runStats : option MigrationStats;
  after : World
}.

Definition withTotal (n : Z) (st : MigrationStats) : MigrationStats :=
  {| Total := n; Successful := Successful st; Failed := Failed st;
     StartTime := StartTime st; EndTime := EndTime st; Duration := Duration st;
     FailedItems := FailedItems st |}.

Definition withEnd (t : Z) (st : MigrationStats) : MigrationStats :=
  {| Total := Total st; Successful := Successful st; Failed := Failed st;
     StartTime := StartTime st; EndTime := t; Duration := Sub t (StartTime st);
     FailedItems := FailedItems st |}.

Definition Migrate (m : Migrator) (rt : Runtime) (options : MigrationOptions) (w : World)
  : Run Outcome :=
  match ValidateConnections m with
  | Some err => Returned {| result := Some err; runStats := None; after := w |}
  | None =>
      let '(w0, t0) := Now rt w in
      let st0 := {| Total := 0; Successful := 0; Failed := 0; StartTime := t0;
                    EndTime := 0; Duration := 0; FailedItems := [] |} in
      match getWorkspacesToMigrate m (Projects options) w0 with
      | (w1, inl err) =>
          Returned {| result := Some (Wrap "erro ao obter lista de workspaces" err);
                      runStats := Some st0; after := w1 |}
      | (w1, inr workspaces) =>
          let st1 := withTotal (lenL workspaces) st0 in
          if Total st1 =? 0 then
            Returned {| result := None; runStats := Some st1;
                        after := emit (Log Warn "Nenhum workspace encontrado para migração" [])
                                   w1 |}
          else
            match processBatches m rt workspaces options st1 w1 with
            | Returned (st2, w2) =>
                let '(w3, t1) := Now rt w2 in
                let st3 := withEnd t1 st2 in
                let w4 := logFinalStats st3 (DryRun options) w3 in
                if Failed st3 >? 0 then
                  Returned {| result := Some (New ("migração concluída com "
                                                   ++ Itoa (Failed st3) ++ " falhas"));
                              runStats := Some st3; after := w4 |}
                else Returned {| result := None; runStats := Some st3; after := w4 |}
            | Panicked msg => Panicked msg
            | Joining b => Joining b
            | OutOfFuel => OutOfFuel
            end
      end
  end.

(** The goroutines whose outcome has been added to the statistics, as a
    success and as a failure. *)
Definition countedOk (t : Workspace * pc) : bool :=
  match snd t with Recorded None | Finished None => true | _ => false end.

Definition countedFailed (t : Workspace * pc) : bool :=
  match snd t with Recorded (Some _) | Finished (Some _) => true | _ => false end.

(** The events of the control goroutine. *)
Definition isMainEvent (e : Event) : bool :=
  match e with
  | Sleep Main _ | CallProcessBatch _ _ => true
  | _ => false
  end.

Definition isUpload (e : Event) : bool :=
  match e with CallUploadState _ _ _ => true | _ => false end.

(** The description of the scheduler: the batches are the consecutive
    chunks of [size] workspaces, numbered from [k], with the pacing sleep
    of one second between two batches. *)
Fixpoint chunks_aux {A : Type} (fuel : nat) (size : nat) (l : list A) : list (list A) :=
  match fuel with
  | O => []
  | S fuel' =>
      match l with
      | [] => []
      | _ => take size l :: chunks_aux fuel' size (drop size l)
      end
  end.

Definition chunks {A : Type} (size : nat) (l : list A) : list (list A) :=
  chunks_aux (length l) size l.

Fixpoint paced (k : Z) (batches : list (list Workspace)) : list Event :=
  match batches with
  | [] => []
  | [b] => [CallProcessBatch k b]
  | b :: rest => CallProcessBatch k b :: Sleep Main (1 * Second) :: paced (k + 1) rest
  end.

(** A schedule that lets the goroutines of a batch of [n] workspaces run
    one after the other, four steps each. *)
Definition sequential (n : nat) : list nat :=
  flat_map (fun i => [i; i; i; i]) (seq 0 n).

End WithUnicode.
End migrator.

(** ** internal/terraform: the client *)

(** The values of [github.com/hashicorp/go-tfe] that the client reads. *)
Module tfe.

Record StateVersion := {
  sv_ID : string;
  Serial : Z;
  DownloadURL : string;
  CreatedAt : Z;
  TerraformVersion : string;
  VCSCommitSHA : string
}.

(** [CurrentStateVersion] is a pointer: [None] is [nil]. *)
Record Workspace := {
  ws_ID : string;
  ws_Name : string;
  ws_Description : string;
  CurrentStateVersion : option StateVersion
}.

Record WorkspaceListOptions := {
  PageNumber : Z;
  PageSize : Z
}.

Record WorkspaceList := {
  Items : list Workspace;
  NextPage : Z
}.

(** The calls that the client makes, with what they answer: the services
    of [tfe.Client], [http.Get] followed by [io.ReadAll] on the body of
    the response, and [time.Time.Format]. *)
Record API := {
  Workspaces_List : string -> WorkspaceListOptions -> error + WorkspaceList;
  Workspaces_Read : string -> string -> error + Workspace;
  Workspaces_ReadByID : string -> error + Workspace;
  StateVersions_ReadCurrent : string -> error + StateVersion;
  Organizations_Read : string -> option error;
  http_Get : string -> error + (error + string);
  Format : Z -> string -> string
}.

End tfe.

Module terraformClient.
Import terraform.

Record Client := {
  client : tfe.API;
  organization : string
}.

(** [NewClient]; [newTfe] is [tfe.NewClient] on a configuration holding
    the token. *)
Definition NewClient (newTfe : string -> error + tfe.API) (token organization : string)
  : error + Client :=
  match newTfe token with
  | inl err => inl (Wrap "erro ao criar client do Terraform Cloud" err)
  | inr client => inr {| client := client; organization := organization |}
  end.

(** The loop [for { ... }] of [ListWorkspaces]: one request per page,
    until a page reports no next page.  [fuel] bounds the number of
    requests; [None] is a loop that is still running when it is used up. *)
Fixpoint ListWorkspaces_loop (c : Client) (fuel : nat) (options : tfe.WorkspaceListOptions)
    (allWorkspaces : list Workspace) : option (error + list Workspace) :=
  match fuel with
  | O => None
  | S fuel' =>
      match tfe.Workspaces_List (client c) (organization c) options with
      | inl err => Some (inl (Wrap "erro ao listar workspaces" err))
      | inr workspaces =>
          let allWorkspaces :=
            fold_left
              (fun all ws =>
                 let workspace :=
                   {| ID := tfe.ws_ID ws;
                      Name := tfe.ws_Name ws;
                      Description := tfe.ws_Description ws;
                      CurrentStateVersion :=
                        match tfe.CurrentStateVersion ws with
                        | Some sv => tfe.sv_ID sv
                        | None => ""
                        end;
                      HasState :=
                        match tfe.CurrentStateVersion ws with
                        | Some _ => true
                        | None => false
                        end |} in
                 (all ++ [workspace])%list)
              (tfe.Items workspaces) allWorkspaces in
          if tfe.NextPage workspaces =? 0 then Some (inr allWorkspaces)
          else
            ListWorkspaces_loop c fuel'
              {| tfe.PageNumber := tfe.NextPage workspaces;
                 tfe.PageSize := tfe.PageSize options |}
              allWorkspaces
      end
  end.

Definition ListWorkspaces (c : Client) (fuel : nat) : option (error + list Workspace) :=
  ListWorkspaces_loop c fuel {| tfe.PageNumber := 0; tfe.PageSize := 100 |} [].

(** [GetWorkspaceState] *)
Definition GetWorkspaceState (c : Client) (workspaceID : string) : error + StateData :=
  match tfe.Workspaces_ReadByID (client c) workspaceID with
  | inl err => inl (Wrap ("erro ao ler workspace " ++ workspaceID) err)
  | inr workspace =>
      match tfe.CurrentStateVersion workspace with
      | None =>
          inl (New ("workspace " ++ tfe.ws_Name workspace ++ " não possui estado atual"))
      | Some _ =>
          match tfe.StateVersions_ReadCurrent (client c) workspaceID with
          | inl err =>
              inl (Wrap ("erro ao ler versão do estado para workspace "
                         ++ tfe.ws_Name workspace) err)
          | inr stateVersion =>
              let stateURL := tfe.DownloadURL stateVersion in
              if String.eqb stateURL "" then
                inl (New ("URL de download não disponível para o estado do workspace "
                          ++ tfe.ws_Name workspace))
              else
                match tfe.http_Get (client c) stateURL with
                | inl err =>
                    inl (Wrap ("erro ao fazer download do estado do workspace "
                               ++ tfe.ws_Name workspace) err)
                | inr (inl err) =>
                    inl (Wrap ("erro ao ler conteúdo do estado do workspace "
                               ++ tfe.ws_Name workspace) err)
                | inr (inr stateContent) =>
                    let metadata :=
                      [("workspace_id", s3client.JString (tfe.ws_ID workspace));
                       ("workspace_name", s3client.JString (tfe.ws_Name workspace));
                       ("organization", s3client.JString (organization c));
                       ("state_version_id", s3client.JString (tfe.sv_ID stateVersion));
                       ("serial", s3client.JInt (tfe.Serial stateVersion));
                       ("created_at",
                        s3client.JString
                          (tfe.Format (client c) (tfe.CreatedAt stateVersion)
                             "2006-01-02T15:04:05Z"));
                       ("terraform_version",
                        s3client.JString (tfe.TerraformVersion stateVersion));
                       ("source", s3client.JString "terraform_cloud")] in
                    let metadata :=
                      if negb (String.eqb (tfe.VCSCommitSHA stateVersion) "") then
                        (metadata ++ [("vcs_commit_sha",
                                       s3client.JString (tfe.VCSCommitSHA stateVersion))])%list
                      else metadata in
                    inr {| WorkspaceName := tfe.ws_Name workspace;
                           StateContent := stateContent;
                           Version := tfe.Serial stateVersion;
                           StateID := tfe.sv_ID stateVersion;
                           Metadata := metadata |}
                end
          end
      end
  end.

(** [GetWorkspaceByName] *)
Definition GetWorkspaceByName (c : Client) (name : string) : error + Workspace :=
  match tfe.Workspaces_Read (client c) (organization c) name with
  | inl err => inl (Wrap ("erro ao buscar workspace " ++ name) err)
  | inr workspace =>
      inr {| ID := tfe.ws_ID workspace;
             Name := tfe.ws_Name workspace;
             Description := tfe.ws_Description workspace;
             CurrentStateVersion :=
               match tfe.CurrentStateVersion workspace with
               | Some sv => tfe.sv_ID sv
               | None => ""
               end;
             HasState :=
               match tfe.CurrentStateVersion workspace with
               | Some _ => true
               | None => false
               end |}
  end.

(** [ValidateConnection] *)
Definition ValidateConnection (c : Client) : option error :=
  match tfe.Organizations_Read (client c) (organization c) with
  | Some err => Some (Wrap "erro ao validar conexão com Terraform Cloud" err)
  | None => None
  end.

(** The answers that the migrator gets from the client [c], once the
    listing has returned [listing]. *)
Definition answers (c : Client) (listing : error + list Workspace) : terraform.Client :=
  {| terraform.ValidateConnection := ValidateConnection c;
     terraform.ListWorkspaces := listing;
     terraform.GetWorkspaceByName := GetWorkspaceByName c;
     terraform.GetWorkspaceState := GetWorkspaceState c |}.

End terraformClient.

(** ** More of Go's [strings] package *)

Module GoStrings.
Import GoStr.

(** The table [asciiSpace]: tab, line feed, vertical tab, form feed,
    carriage return and space. *)
Definition asciiSpace (c : ascii) : bool :=
  let n := nat_of_ascii c in
  (Nat.eqb n 9 || Nat.eqb n 10 || Nat.eqb n 11 || Nat.eqb n 12 || Nat.eqb n 13
   || Nat.eqb n 32)%bool.

(** The two calls that [TrimSpace] makes when it meets a byte >= 0x80:
    [strings.TrimFunc(s, unicode.IsSpace)] and
    [strings.TrimRightFunc(s, unicode.IsSpace)]. *)
Class UnicodeSpace := {
  TrimFunc_IsSpace : string -> string;
  TrimRightFunc_IsSpace : string -> string
}.

(** The first loop of [TrimSpace], over the bytes from the start: [inl l]
    when it stops in front of [l] at a byte that is not a space or at the
    end, [inr l] when the first byte of [l] is not ASCII. *)
Fixpoint trimScan (l : list ascii) : list ascii + list ascii :=
  match l with
  | [] => inl []
  | c :: l' =>
      if negb (isASCII c) then inr l
      else if asciiSpace c then trimScan l'
      else inl l
  end.

(** [strings.TrimSpace]; the second loop is the first one on the bytes
    taken from the end. *)
Definition TrimSpace `{UnicodeSpace} (s : string) : string :=
  match trimScan (bytes s) with
  | inr rest => TrimFunc_IsSpace (str rest)
  | inl rest =>
      match trimScan (rev rest) with
      | inr kept => TrimRightFunc_IsSpace (str (rev kept))
      | inl kept => str (rev kept)
      end
  end.

(** [strings.Split(s, sep)] for a separator [sep] of one byte: the pieces
    of [s] between the occurrences of [sep], one more than there are
    occurrences. *)
Fixpoint Split_from (sep : ascii) (cur : list ascii) (l : list ascii) : list string :=
  match l with
  | [] => [str (rev cur)]
  | c :: l' =>
      if Ascii.eqb c sep then str (rev cur) :: Split_from sep [] l'
      else Split_from sep (c :: cur) l'
  end.

Definition Split (s : string) (sep : ascii) : list string := Split_from sep [] (bytes s).

End GoStrings.

(** ** internal/config: the whole configuration *)

Module appconfig.

Record TerraformCloudConfig := {
  Token : string;
  Organization : string
}.

Record AWSConfig := {
  Region : string;
  Bucket : string;
  Prefix : string;
  Profile : string
}.

Record MigrationConfig := {
  BatchSize : Z;
  ConcurrentUploads : Z;
  RetryAttempts : Z
}.

Record LoggingConfig := {
  Level : string;
  File : string
}.

Record Config := {
  TerraformCloud : TerraformCloudConfig;
  AWS : AWSConfig;
  Migration : MigrationConfig;
  Logging : LoggingConfig
}.

(** [Validate] *)
Definition Validate (c : Config) : option error :=
  if String.eqb (Token (TerraformCloud c)) "" then
    Some (New "token do Terraform Cloud é obrigatório")
  else if String.eqb (Organization (TerraformCloud c)) "" then
    Some (New "organização do Terraform Cloud é obrigatória")
  else if String.eqb (Bucket (AWS c)) "" then
    Some (New "bucket S3 é obrigatório")
  else if BatchSize (Migration c) <=? 0 then
    Some (New "batch_size deve ser maior que 0")
  else if ConcurrentUploads (Migration c) <=? 0 then
    Some (New "concurrent_uploads deve ser maior que 0")
  else None.

(** What [viper] answers to [LoadConfig]: [ReadInConfig] returns nil, a
    [ConfigFileNotFoundError] ([inl]) or another error ([inr]);
    [Unmarshal] gives the configuration read from the file and the
    environment over the defaults, or fails. *)
Record Viper := {
  ReadInConfig : option (error + error);
  Unmarshal : error + Config
}.

(** [LoadConfig] *)
Definition LoadConfig (viper : Viper) : error + Config :=
  match ReadInConfig viper with
  | Some (inr err) => inl (Wrap "erro ao ler arquivo de configuração" err)
  | _ =>
      match Unmarshal viper with
      | inl err => inl (Wrap "erro ao deserializar configuração" err)
      | inr config =>
          match Validate config with
          | Some err => inl err
          | None => inr config
          end
      end
  end.

(** The settings that the migrator reads from the configuration. *)
Definition migration (c : Config) : config.Config :=
  {| config.Organization := Organization (TerraformCloud c);
     config.BatchSize := BatchSize (Migration c);
     config.ConcurrentUploads := ConcurrentUploads (Migration c);
     config.RetryAttempts := RetryAttempts (Migration c) |}.

End appconfig.

(** ** internal/migrator: construction and listing *)

Module migratorSetup.
Import migrator.

(** The constructors of the two clients, which reach for the network and
    the AWS configuration: [terraform.NewClient] on the token and the
    organization, and [s3client.NewClient] on the fields of the AWS
    section.  The Terraform Cloud client comes with the answers it will
    give. *)
Record Constructors := {
  terraform_NewClient : string -> string -> error + terraform.Client;
  s3client_NewClient : appconfig.AWSConfig -> error + s3client.Client
}.

(** [NewMigrator] *)
Definition NewMigrator (k : Constructors) (cfg : appconfig.Config) : error + Migrator :=
  match terraform_NewClient k (appconfig.Token (appconfig.TerraformCloud cfg))
          (appconfig.Organization (appconfig.TerraformCloud cfg)) with
  | inl err => inl (Wrap "erro ao criar client do Terraform Cloud" err)
  | inr tfClient =>
      match s3client_NewClient k (appconfig.AWS cfg) with
      | inl err => inl (Wrap "erro ao criar client do S3" err)
      | inr s3Client =>
          inr {| tfClient := tfClient; s3Client := s3Client;
                 config := appconfig.migration cfg |}
      end
  end.

(** [Migrator.ListWorkspaces] *)
Definition ListWorkspaces (m : Migrator) : error + list Workspace :=
  match ValidateConnections m with
  | Some err => inl err
  | None => terraform.ListWorkspaces (tfClient m)
  end.

End migratorSetup.

(** ** cmd/migrator *)

Module cmd.
Import GoStr GoStrings migrator.

(** The flags of the command line. *)
Record Flags := {
  cfgFile : string;
  batchSize : Z;
  dryRun : bool;
  projects : string;
  logLevel : string
}.

(** What the commands get from outside. *)
Record Env := {
  viper : appconfig.Viper;
  constructors : migratorSetup.Constructors
}.

(** The block of [runMigrate] that prepares the list of projects. *)
Definition projectList `{UnicodeSpace} (projects : string) : list string :=
  if negb (String.eqb projects "") then
    map TrimSpace (Split projects ","%char)
  else [].

(** [runMigrate].  [setupLogging] and the log entries of the command do
    not touch what the migrator works on and are left out. *)
Definition runMigrate `{Unicode} `{UnicodeSpace} (fl : Flags) (env : Env) (rt : Runtime)
    (w : World) : Run (option error * World) :=
  match appconfig.LoadConfig (viper env) with
  | inl err => Returned (Some (Wrap "erro ao carregar configuração" err), w)
  | inr cfg =>
      let cfg :=
        if batchSize fl >? 0 then
          {| appconfig.TerraformCloud := appconfig.TerraformCloud cfg;
             appconfig.AWS := appconfig.AWS cfg;
             appconfig.Migration :=
               {| appconfig.BatchSize := batchSize fl;
                  appconfig.ConcurrentUploads :=
                    appconfig.ConcurrentUploads (appconfig.Migration cfg);
                  appconfig.RetryAttempts :=
                    appconfig.RetryAttempts (appconfig.Migration cfg) |};
             appconfig.Logging := appconfig.Logging cfg |}
        else cfg in
      let cfg :=
        if negb (String.eqb (logLevel fl) "") then
          {| appconfig.TerraformCloud := appconfig.TerraformCloud cfg;
             appconfig.AWS := appconfig.AWS cfg;
             appconfig.Migration := appconfig.Migration cfg;
             appconfig.Logging :=
               {| appconfig.Level := logLevel fl;
                  appconfig.File := appconfig.File (appconfig.Logging cfg) |} |}
        else cfg in
      match migratorSetup.NewMigrator (constructors env) cfg with
      | inl err => Returned (Some (Wrap "erro ao criar migrator" err), w)
      | inr m =>
          let options := {| DryRun := dryRun fl; Projects := projectList (projects fl) |} in
          match Migrate m rt options w with
          | Returned o =>
              match result o with
              | Some err => Returned (Some (Wrap "erro durante a migração" err), after o)
              | None => Returned (None, after o)
              end
          | Panicked msg => Panicked msg
          | Joining b => Joining b
          | OutOfFuel => OutOfFuel
          end
      end
  end.

(** The loop of [runList] that counts the workspaces by category; the
    result is the pair of [withState] and [withoutState]. *)
Definition countWorkspaces (workspaces : list Workspace) : Z * Z :=
  fold_left
    (fun '(withState, withoutState) ws =>
       if HasState ws then (GoInt.add withState 1, withoutState)
       else (withState, GoInt.add withoutState 1))
    workspaces (0, 0).

End cmd.

(** * The vocabulary of the statements *)

Section Vocabulary.
Import GoStr s3client migrator.

(** How many elements of [l] satisfy [p]. *)
Fixpoint countZ {A : Type} (p : A -> bool) (l : list A) : Z :=
  match l with
  | [] => 0
  | x :: l' => Z.b2z (p x) + countZ p l'
  end.

(** The events of the control goroutine in a trace, and the calls of
    [UploadState] in it. *)
Definition mainEvents (tr : list Event) : list Event := List.filter isMainEvent tr.
Definition uploadEvents (tr : list Event) : list Event := List.filter isUpload tr.

(** Whether the state of [ws] can be fetched. *)
Definition fetchOk (m : Migrator) (ws : Workspace) : bool :=
  match GetWorkspaceState (tfClient m) (ID ws) with
  | inr _ => true
  | inl _ => false
  end.

(** [err == nil] and [err != nil]. *)
Definition isNil (e : option error) : bool :=
  match e with None => true | Some _ => false end.

Definition isErr (e : option error) : bool :=
  match e with None => false | Some _ => true end.

(** The outcome that a goroutine holds once [migrateWorkspace] returned. *)
Definition outcomeOf (p : pc) : option (option error) :=
  match p with
  | Migrated e | Recorded e | Finished e => Some e
  | Spawned | Holding => None
  end.

(** The outcome a finished goroutine ended with. *)
Definition finalOutcome (t : Workspace * pc) : option error :=
  match snd t with
  | Finished e => e
  | _ => None
  end.

(** The events of the failed attempts numbered from [a] that are followed
    by another attempt: the call with its error, then the backoff of
    [attempt] seconds. *)
Fixpoint failedAttempts (id name : string) (a : Z) (errs : list error) : list Event :=
  match errs with
  | [] => []
  | e :: errs' =>
      CallUploadState name a (Some e)
      :: Sleep (Task id) (a * Second)
      :: failedAttempts id name (a + 1) errs'
  end.

(** The largest number of attempts whose backoff, in nanoseconds, fits
    [time.Duration]. *)
Definition maxRetry : Z := 9223372036.

(** A bound on [len(workspaces)] far above what fits in memory; below it
    the index arithmetic of the scheduler does not overflow. *)
Definition maxLen : Z := 2 ^ 62.

(** The two objects that [UploadState] stores. *)
Definition stateObject (organization workspaceName stateContent : string) : Object :=
  {| obj_Body := stateContent;
     obj_ContentType := "application/json";
     obj_Metadata := [("workspace", workspaceName); ("organization", organization);
                      ("file-type", "terraform-state")] |}.

Definition metadataObject (organization workspaceName json : string) : Object :=
  {| obj_Body := json;
     obj_ContentType := "application/json";
     obj_Metadata := [("workspace", workspaceName); ("organization", organization);
                      ("file-type", "metadata")] |}.

(** The destination in [w'] is as [w] left it: same objects, same
    [PutObject] requests, same calls of [UploadState] in the trace. *)
Definition sameDestination (w w' : World) : Prop :=
  s3client.objects (s3 w') = s3client.objects (s3 w)
  /\ s3client.puts (s3 w') = s3client.puts (s3 w)
  /\ s3client.putCount (s3 w') = s3client.putCount (s3 w)
  /\ uploadEvents (trace w') = uploadEvents (trace w).

(** The entries of the final summary. *)
Definition finalEvents (st : MigrationStats) (dryRun : bool) : list Event :=
  ([Log Info "Migração finalizada"
      [("mode", VStr (if dryRun then "Dry run" else "Migração"));
       ("total", VInt (Total st));
       ("successful", VInt (Successful st)); ("failed", VInt (Failed st));
       ("duration", VDuration (Duration st))]]
   ++ (if 0 <? lenL (FailedItems st)
       then Log ErrorLevel "Workspaces que falharam:" [] :: map failureEntry (FailedItems st)
       else [])
   ++ (if 0 <? Total st
       then [Log Info "Taxa de sucesso" [("success_rate", VPercent (successRate st))]]
       else []))%list.

End Vocabulary.

(** ** The plan and the bucket *)

Section PlanVocabulary.
Import GoStr s3client migrator.
Context {U : Unicode}.

(** The key under which the state of [ws] is looked for and stored. *)
Definition stateKeyOf (m : Migrator) (ws : Workspace) : string :=
  generateStateKey (s3Client m) (Organization (config m))
    (removeEnvironmentSuffix (Name ws)) "terraform.tfstate".

(** The existence check finds the state of [ws] in the bucket [b]: the
    request does not fail and the key holds an object. *)
Definition foundInBucket (m : Migrator) (b : S3) (ws : Workspace) : bool :=
  match headFault (sdk (s3Client m)) (stateKeyOf m ws) with
  | Some _ => false
  | None => match objects b !! stateKeyOf m ws with Some _ => true | None => false end
  end.

(** The workspaces that planning keeps. *)
Definition toMigrate (m : Migrator) (b : S3) (ws : Workspace) : bool :=
  HasState ws && negb (foundInBucket m b ws).

(** The workspaces that the names of a project filter resolve to. *)
Definition resolved (m : Migrator) (names : list string) : list Workspace :=
  flat_map (fun n => match GetWorkspaceByName (tfClient m) n with
                     | inr ws => [ws]
                     | inl _ => []
                     end) names.

(** The name under which the state of [ws] is stored. *)
Definition cleanName (ws : Workspace) : string := removeEnvironmentSuffix (Name ws).

Definition metadataKeyOf (m : Migrator) (ws : Workspace) : string :=
  generateStateKey (s3Client m) (Organization (config m))
    (removeEnvironmentSuffix (Name ws)) "metadata.json".

(** The bucket [b] holds the state of [ws] as Terraform Cloud serves it,
    and its metadata, under the clean name of [ws]. *)
Definition Stored (m : Migrator) (ws : Workspace) (b : S3) : Prop :=
  exists sd json,
    GetWorkspaceState (tfClient m) (ID ws) = inr sd
    /\ MarshalIndent (sdk (s3Client m)) (terraform.Metadata sd) = inr json
    /\ objects b !! (cleanName ws ++ "/terraform.tfstate")%string
       = Some (stateObject (Organization (config m)) (cleanName ws) (StateContent sd))
    /\ objects b !! (cleanName ws ++ "/metadata.json")%string
       = Some (metadataObject (Organization (config m)) (cleanName ws) json).

(** A [PutObject] request that belongs to the migration of one of
    [workspaces]: to the configured bucket, with the JSON content type,
    for the state key or the metadata key of the workspace. *)
Definition plannedRequest (m : Migrator) (workspaces : list Workspace) (p : PutObjectInput)
  : Prop :=
  put_Bucket p = bucket (s3Client m)
  /\ put_ContentType p = "application/json"
  /\ exists ws, ws ∈ workspaces
                /\ (put_Key p = stateKeyOf m ws \/ put_Key p = metadataKeyOf m ws).

End PlanVocabulary.

(** ** The Terraform Cloud client *)

Section ClientVocabulary.
Import terraform terraformClient.

(** The workspace that the client reports for a workspace of the API. *)
Definition reported (ws : tfe.Workspace) : Workspace :=
  {| ID := tfe.ws_ID ws;
     Name := tfe.ws_Name ws;
     Description := tfe.ws_Description ws;
     CurrentStateVersion :=
       match tfe.CurrentStateVersion ws with Some sv => tfe.sv_ID sv | None => "" end;
     HasState := match tfe.CurrentStateVersion ws with Some _ => true | None => false end |}.

(** The request for page [p]. *)
Definition pageRequest (p : Z) : tfe.WorkspaceListOptions :=
  {| tfe.PageNumber := p; tfe.PageSize := 100 |}.

(** [Walk c p pages r]: following the next-page numbers from page [p],
    the API serves the pages [pages]; then either the last of them
    announces no next page ([r = None]) or the next request fails with
    [e] ([r = Some e]). *)
Inductive Walk (c : Client) : Z -> list (list tfe.Workspace) -> option error -> Prop :=
| walk_last (p : Z) (l : tfe.WorkspaceList) :
    tfe.Workspaces_List (client c) (organization c) (pageRequest p) = inr l ->
    tfe.NextPage l = 0 ->
    Walk c p [tfe.Items l] None
| walk_fail (p : Z) (e : error) :
    tfe.Workspaces_List (client c) (organization c) (pageRequest p) = inl e ->
    Walk c p [] (Some e)
| walk_next (p : Z) (l : tfe.WorkspaceList) (pages : list (list tfe.Workspace))
    (r : option error) :
    tfe.Workspaces_List (client c) (organization c) (pageRequest p) = inr l ->
    tfe.NextPage l <> 0 ->
    Walk c (tfe.NextPage l) pages r ->
    Walk c p (tfe.Items l :: pages) r.

(** The keys that the metadata of a state always has. *)
Definition metadataKeys : list string :=
  ["workspace_id"; "workspace_name"; "organization"; "state_version_id"; "serial";
   "created_at"; "terraform_version"; "source"].

(** The value under [key] in a metadata mapping. *)
Fixpoint metadataValue (key : string) (md : list (string * s3client.jsonValue))
  : option s3client.jsonValue :=
  match md with
  | [] => None
  | (k, v) :: md' => if String.eqb k key then Some v else metadataValue key md'
  end.

End ClientVocabulary.

(** ** The command line *)

Section CmdVocabulary.
Import GoStr GoStrings.

(** A name that the flag [--projects] carries unchanged: not empty,
    without a comma, and with a first and a last byte that are ASCII and
    not spaces. *)
Definition edgeByte (c : ascii) : bool := isASCII c && negb (asciiSpace c).

Definition plainName (n : string) : bool :=
  forallb (fun c => negb (Ascii.eqb c ","%char)) (bytes n)
  && match bytes n with
     | [] => false
     | c :: _ => edgeByte c
     end
  && match rev (bytes n) with
     | [] => false
     | c :: _ => edgeByte c
     end.

(** [strings.Join(names, ",")] *)
Definition joinComma (names : list string) : string := String.concat "," names.

(** The number of commas in a string. *)
Definition commas (s : string) : nat :=
  length (List.filter (fun c => Ascii.eqb c ","%char) (bytes s)).

End CmdVocabulary.

(** * Sample inputs *)

(** The stand-in for the Unicode tables used to run the code on ASCII
    inputs: it leaves the string as it is. *)
#[local] Instance asciiOnly : GoStr.Unicode :=
  {| GoStr.mapLower := fun s => s;
     GoStr.mapLower_ascii_tail := fun s suffix _ E =>
       proj1 (Z.leb_le _ _) (proj1 (andb_prop _ _ E)) |}.

(** Collaborators that never fail, for running the code on examples. *)
Module Samples.
Import s3client.

Definition sdkOk : SDK :=
  {| putFault := fun _ => None;
     headFault := fun _ => None;
     headBucket := None;
     notFoundError := New "NotFound";
     MarshalIndent := fun _ => inr "{}" |}.

Definition client : Client :=
  {| sdk := sdkOk; bucket := "states"; prefix := "terraform-states/" |}.

End Samples.

Module TaskSamples.
Import s3client migrator.

(** An SDK whose every [PutObject] fails. *)
Definition sdkDown : SDK :=
  {| putFault := fun _ => Some (New "timeout");
     headFault := fun _ => None;
     headBucket := None;
     notFoundError := New "NotFound";
     MarshalIndent := fun _ => inr "{}" |}.

Definition ws (id name : string) (hasState : bool) : Workspace :=
  {| ID := id; Name := name; Description := ""; CurrentStateVersion := "sv-1";
     HasState := hasState |}.

Definition stateOf (name : string) : StateData :=
  {| terraform.WorkspaceName := name; StateContent := "{}"; Version := 1;
     StateID := "sv-1"; terraform.Metadata := [("serial", JInt 1)] |}.

(** Terraform Cloud with the workspaces [l]; the state of the workspace
    with id "ws-bad" cannot be fetched. *)
Definition tfc (l : list Workspace) : terraform.Client :=
  {| ValidateConnection := None;
     ListWorkspaces := inr l;
     GetWorkspaceByName := fun n =>
       match find (fun w => String.eqb (Name w) n) l with
       | Some w => inr w
       | None => inl (New "not found")
       end;
     GetWorkspaceState := fun id =>
       if String.eqb id "ws-bad" then inl (New "no current state")
       else inr (stateOf id) |}.

Definition cfg (batch conc retry : Z) : Config :=
  {| Organization := "acme"; BatchSize := batch; ConcurrentUploads := conc;
     RetryAttempts := retry |}.

Definition mig (sdk_ : SDK) (l : list Workspace) (c : Config) : Migrator :=
  {| tfClient := tfc l;
     s3Client := {| sdk := sdk_; bucket := "states"; prefix := "terraform-states/" |};
     config := c |}.

Definition world0 : World := {| s3 := emptyS3; trace := []; clockReads := 0 |}.

End TaskSamples.

Module PlanSamples.
Import s3client migrator TaskSamples.

(** A bucket that already holds the state of "billing". *)
Definition seeded : World :=
  {| s3 := fst (UploadState Samples.client "acme" "billing" "{}" [] emptyS3);
     trace := []; clockReads := 0 |}.

Definition inventory : list Workspace :=
  [ws "ws-1" "billing-prod" true; ws "ws-2" "web" true; ws "ws-3" "scratch" false].

Definition planner : Migrator := mig Samples.sdkOk inventory (cfg 5 3 3).

End PlanSamples.

Module BatchSamples.
Import migrator TaskSamples.

Definition seven : list Workspace :=
  [ws "ws-1" "a-prod" true; ws "ws-2" "b-prod" true; ws "ws-3" "c-prod" true;
   ws "ws-4" "d-prod" true; ws "ws-bad" "e-prod" true; ws "ws-6" "f-prod" true;
   ws "ws-7" "g-prod" true].

(** A clock that advances by one second per reading, and the sequential
    schedule for batches of up to seven workspaces. *)
Definition runtime : Runtime :=
  {| now := fun k => 1000 + Z.of_nat k * Second; schedule := fun _ => sequential 7 |}.

Definition fresh : MigrationStats :=
  {| Total := 7; Successful := 0; Failed := 0; StartTime := 1000; EndTime := 0;
     Duration := 0; FailedItems := [] |}.

Definition real : MigrationOptions := {| DryRun := false; Projects := [] |}.
Definition simulated : MigrationOptions := {| DryRun := true; Projects := [] |}.

Definition engine : Migrator := mig Samples.sdkOk seven (cfg 3 2 3).

End BatchSamples.

Module RunSamples.
Import migrator TaskSamples BatchSamples.

(** Seven workspaces, one of which ("ws-bad") cannot be fetched. *)
Definition run (options : MigrationOptions) : Run Outcome :=
  Migrate engine runtime options world0.

(** An organisation whose only workspace has no state. *)
Definition idle : Migrator := mig Samples.sdkOk [ws "ws-1" "scratch" false] (cfg 3 2 3).

End RunSamples.

Module RunWitness.
Import migrator TaskSamples BatchSamples.

(** The world after planning, for the real and for the simulated run. *)
Definition planWorld : World :=
  fst (getWorkspacesToMigrate engine [] (fst (Now runtime world0))).

End RunWitness.

(** The stand-in for the Unicode tables of [TrimSpace], for names made of
    ASCII bytes. *)
#[local] Instance asciiSpaces : GoStrings.UnicodeSpace :=
  {| GoStrings.TrimFunc_IsSpace := fun s => s;
     GoStrings.TrimRightFunc_IsSpace := fun s => s |}.

Module PartialSamples.
Import s3client.

(** An SDK whose second [PutObject] request fails. *)
Definition sdkSecondPutFails : SDK :=
  {| putFault := fun n => if Nat.eqb n 1 then Some (New "timeout") else None;
     headFault := fun _ => None;
     headBucket := None;
     notFoundError := New "NotFound";
     MarshalIndent := fun _ => inr "{}" |}.

Definition client : Client :=
  {| sdk := sdkSecondPutFails; bucket := "states"; prefix := "terraform-states/" |}.

End PartialSamples.

(** The Terraform Cloud API serving three workspaces on two pages. *)
Module ClientSamples.
Import terraform terraformClient.

Definition version (id : string) : tfe.StateVersion :=
  {| tfe.sv_ID := id; tfe.Serial := 7; tfe.DownloadURL := "https://archivist/" ++ id;
     tfe.CreatedAt := 0; tfe.TerraformVersion := "1.5.0"; tfe.VCSCommitSHA := "" |}.

Definition remote (id name : string) (hasState : bool) : tfe.Workspace :=
  {| tfe.ws_ID := id; tfe.ws_Name := name; tfe.ws_Description := "";
     tfe.CurrentStateVersion := if hasState then Some (version ("sv-" ++ id)) else None |}.

Definition page0 : list tfe.Workspace := [remote "ws-1" "billing-prod" true; remote "ws-2" "web" true].
Definition page2 : list tfe.Workspace := [remote "ws-3" "scratch" false].

(** Two pages of workspaces: page 0 announces page 2, which is the last. *)
Definition api : tfe.API :=
  {| tfe.Workspaces_List := fun _ o =>
       if tfe.PageNumber o =? 0 then inr {| tfe.Items := page0; tfe.NextPage := 2 |}
       else if tfe.PageNumber o =? 2 then inr {| tfe.Items := page2; tfe.NextPage := 0 |}
       else inl (New "no such page");
     tfe.Workspaces_Read := fun _ name =>
       match find (fun ws => String.eqb (tfe.ws_Name ws) name) (page0 ++ page2)%list with
       | Some ws => inr ws
       | None => inl (New "not found")
       end;
     tfe.Workspaces_ReadByID := fun id =>
       match find (fun ws => String.eqb (tfe.ws_ID ws) id) (page0 ++ page2)%list with
       | Some ws => inr ws
       | None => inl (New "not found")
       end;
     tfe.StateVersions_ReadCurrent := fun id => inr (version ("sv-" ++ id));
     tfe.Organizations_Read := fun _ => None;
     tfe.http_Get := fun url => inr (inr ("state at " ++ url));
     tfe.Format := fun _ _ => "1970-01-01T00:00:00Z" |}.

Definition cloud : Client := {| client := api; organization := "acme" |}.

(** A migrator that talks to [cloud]. *)
Definition mig : migrator.Migrator :=
  {| migrator.tfClient := answers cloud (inr (map reported (page0 ++ page2)%list));
     migrator.s3Client := Samples.client;
     migrator.config := TaskSamples.cfg 5 3 3 |}.

End ClientSamples.

(** The run of [RunSamples] on a bucket and a planner that make every task
    succeed. *)
Module CleanRun.
Import migrator TaskSamples.

Definition planned : list Workspace := [ws "ws-1" "billing-prod" true; ws "ws-2" "web" true].

Definition planWorld : World :=
  fst (getWorkspacesToMigrate PlanSamples.planner [] (fst (Now BatchSamples.runtime world0))).

Definition run : Run Outcome :=
  Migrate PlanSamples.planner BatchSamples.runtime BatchSamples.real world0.

End CleanRun.

(** Migrators with unusual settings. *)
Module EdgeSamples.
Import s3client migrator TaskSamples.

Definition unknown : MigrationOptions := {| DryRun := false; Projects := ["nowhere"; "ghost"] |}.

(** The engine of [BatchSamples] with other migration settings. *)
Definition engineWith (batch conc retry : Z) : Migrator :=
  mig Samples.sdkOk BatchSamples.seven (cfg batch conc retry).

Definition planWorld (m : Migrator) : World :=
  fst (getWorkspacesToMigrate m [] (fst (Now BatchSamples.runtime world0))).

(** Terraform Cloud serving, for every workspace, a state that consists
    of the workspace id. *)
Definition tfcById : terraform.Client :=
  {| ValidateConnection := None;
     ListWorkspaces := inr [];
     GetWorkspaceByName := fun _ => inl (New "not found");
     GetWorkspaceState := fun id =>
       inr {| terraform.WorkspaceName := id; StateContent := id; Version := 1;
              StateID := "sv-1"; terraform.Metadata := [] |} |}.

Definition twin : Migrator :=
  {| tfClient := tfcById; s3Client := Samples.client; config := cfg 5 3 3 |}.

End EdgeSamples.

(** A command line and its environment. *)
Module SafetySamples.
Import migrator.

Definition loaded : appconfig.Config :=
  {| appconfig.TerraformCloud := {| appconfig.Token := "t0ken"; appconfig.Organization := "acme" |};
     appconfig.AWS := {| appconfig.Region := "us-east-1"; appconfig.Bucket := "states";
                         appconfig.Prefix := "terraform-states/"; appconfig.Profile := "" |};
     appconfig.Migration := {| appconfig.BatchSize := 5; appconfig.ConcurrentUploads := 3;
                               appconfig.RetryAttempts := 3 |};
     appconfig.Logging := {| appconfig.Level := "info"; appconfig.File := "migration.log" |} |}.

(** No configuration file, the defaults and the environment only. *)
Definition env : cmd.Env :=
  {| cmd.viper := {| appconfig.ReadInConfig := Some (inl (New "Config File Not Found"));
                     appconfig.Unmarshal := inr loaded |};
     cmd.constructors :=
       {| migratorSetup.terraform_NewClient := fun _ _ => inr (TaskSamples.tfc BatchSamples.seven);
          migratorSetup.s3client_NewClient := fun _ => inr Samples.client |} |}.

(** [migrate --batch-size -4 --projects a-prod,e-prod] *)
Definition flags : cmd.Flags :=
  {| cmd.cfgFile := ""; cmd.batchSize := -4; cmd.dryRun := false;
     cmd.projects := "a-prod,e-prod"; cmd.logLevel := "" |}.

End SafetySamples.

Module LoopingSamples.

(** An API whose every page announces page 1 as the next one. *)
Definition api : tfe.API :=
  {| tfe.Workspaces_List := fun _ o =>
       inr {| tfe.Items := []; tfe.NextPage := 1 |};
     tfe.Workspaces_Read := fun _ _ => inl (New "not found");
     tfe.Workspaces_ReadByID := fun _ => inl (New "not found");
     tfe.StateVersions_ReadCurrent := fun _ => inl (New "not found");
     tfe.Organizations_Read := fun _ => None;
     tfe.http_Get := fun _ => inl (New "unreachable");
     tfe.Format := fun _ _ => "" |}.

End LoopingSamples.

Module FairSamples.
Import migrator.

(** A scheduler that first lets the goroutines 2, 0 and 1 move in turns
    and then runs two sequential rounds. *)
Definition runtime : Runtime :=
  {| now := fun k => 1000 + Z.of_nat k * Second;
     schedule := fun _ => ([2; 0; 1; 2; 0; 0; 1; 2]%nat ++ sequential 7 ++ sequential 7)%list |}.

End FairSamples.


(** * Proofs *)

(** ** Strings *)

Section StringFacts.
Import GoStr.

Lemma bytes_str (l : list ascii) : bytes (str l) = l.
Proof. apply list_ascii_of_string_of_list_ascii. Qed.

Lemma str_bytes (s : string) : str (bytes s) = s.
Proof. apply string_of_list_ascii_of_string. Qed.

Lemma bytes_inj (s t : string) : bytes s = bytes t -> s = t.
Proof. intros E. rewrite <- (str_bytes s), <- (str_bytes t). now rewrite E. Qed.

Lemma length_bytes (s : string) : length (bytes s) = String.length s.
Proof. unfold bytes. induction s as [|c s IH]; simpl; [reflexivity | now rewrite IH]. Qed.

Lemma len_bytes (s : string) : len s = Z.of_nat (length (bytes s)).
Proof. unfold len. now rewrite length_bytes. Qed.


Lemma str_app (l k : list ascii) : str (l ++ k)%list = (str l ++ str k)%string.
Proof. unfold str. induction l as [|c l IH]; simpl; [reflexivity | now rewrite IH]. Qed.

Lemma bytes_app (s t : string) : bytes (s ++ t)%string = (bytes s ++ bytes t)%list.
Proof. unfold bytes. induction s as [|c s IH]; simpl; [reflexivity | now rewrite IH]. Qed.

(** [strings.HasSuffix] decides the suffix relation on the bytes. *)
Lemma HasSuffix_suffix (s suffix : string) :
  HasSuffix s suffix = true <-> bytes suffix `suffix_of` bytes s.
Proof.
  unfold HasSuffix, slice_from. rewrite andb_true_iff, Z.leb_le, String.eqb_eq, !len_bytes.
  split.
  - intros [Hle E]. apply (f_equal bytes) in E. rewrite bytes_str in E.
    rewrite <- E. apply suffix_drop.
  - intros [k E]. rewrite E, length_app. split; [lia |].
    apply bytes_inj. rewrite bytes_str.
    replace (Z.to_nat _) with (length k) by lia. apply drop_app_length.
Qed.


Lemma lowerByte_no_upper (l : list ascii) :
  existsb isUpper l = false -> map lowerByte l = l.
Proof.
  induction l as [|c l IH]; simpl; [reflexivity |].
  rewrite orb_false_iff. intros [Hc Hl]. unfold lowerByte at 1. now rewrite Hc, IH.
Qed.

(** On a string of ASCII bytes [ToLower] works byte by byte. *)
Lemma ToLower_ascii `{Unicode} (s : string) :
  forallb isASCII (bytes s) = true -> ToLower s = str (map lowerByte (bytes s)).
Proof.
  intros Ha. unfold ToLower. rewrite Ha.
  destruct (existsb isUpper (bytes s)) eqn:Hu; simpl; [reflexivity |].
  now rewrite lowerByte_no_upper, str_bytes.
Qed.


End StringFacts.


(** ** The name normalizer *)

Section Normalizer.
Import GoStr migrator.
Context {U : Unicode}.

(** No configured suffix is the tail of another one. *)
Lemma envSuffixes_apart (s1 s2 : string) :
  s1 ∈ envSuffixes -> s2 ∈ envSuffixes -> HasSuffix s2 s1 = true -> s1 = s2.
Proof.
  unfold envSuffixes. rewrite !elem_of_cons, !elem_of_nil.
  intros H1 H2 E.
  repeat (destruct H1 as [-> | H1]; [| ]);
    try contradiction;
    repeat (destruct H2 as [-> | H2]; [| ]);
    try contradiction; try reflexivity; vm_compute in E; discriminate.
Qed.

(** So at most one of them is the tail of a given string. *)
Lemma match_unique (x s1 s2 : string) :
  s1 ∈ envSuffixes -> s2 ∈ envSuffixes ->
  HasSuffix x s1 = true -> HasSuffix x s2 = true -> s1 = s2.
Proof.
  intros I1 I2 E1 E2. apply HasSuffix_suffix in E1, E2.
  destruct (suffix_weak_total _ _ _ E1 E2) as [S | S]; apply HasSuffix_suffix in S.
  - now apply envSuffixes_apart.
  - symmetry. now apply envSuffixes_apart.
Qed.

Lemma envSuffixes_NoDup : NoDup envSuffixes.
Proof. unfold envSuffixes. apply (bool_decide_unpack _). vm_compute. exact I. Qed.

Lemma matching_at_most_one (x : string) :
  filter (fun s => HasSuffix x s = true) envSuffixes = [] \/
  exists s, filter (fun s => HasSuffix x s = true) envSuffixes = [s].
Proof.
  pose proof (NoDup_filter (fun s => HasSuffix x s = true) _ envSuffixes_NoDup) as ND.
  assert (Hin : forall s, s ∈ filter (fun s => HasSuffix x s = true) envSuffixes ->
                          HasSuffix x s = true /\ s ∈ envSuffixes).
  { intros s. now rewrite list_elem_of_filter. }
  destruct (filter _ envSuffixes) as [|a [|b r]]; [now left | right; now exists a |].
  exfalso.
  destruct (Hin a) as [Ea Ia]; [left |].
  destruct (Hin b) as [Eb Ib]; [right; left |].
  assert (a = b) by now apply (match_unique x).
  subst b. apply NoDup_cons in ND as [ND _]. apply ND. left.
Qed.

Lemma loop_first_match (name : string) (l : list string) :
  removeEnvironmentSuffix_loop name l =
  match filter (fun s => HasSuffix (ToLower name) s = true) l with
  | [] => name
  | s :: _ => slice_to name (len name - len s)
  end.
Proof.
  induction l as [|s l IH]; simpl; [reflexivity |].
  rewrite filter_cons. case_decide as E.
  - now rewrite E.
  - apply not_true_is_false in E. now rewrite E.
Qed.


Lemma envSuffixes_ascii (s : string) : s ∈ envSuffixes -> forallb isASCII (bytes s) = true.
Proof.
  unfold envSuffixes. rewrite !elem_of_cons, !elem_of_nil.
  intros H. repeat (destruct H as [-> | H]; [reflexivity |]). contradiction.
Qed.



End Normalizer.

Section NormalizerSpec.
Import GoStr migrator.
Context {U : Unicode}.


End NormalizerSpec.


(** ** The S3 client *)

Section PathFacts.
Import GoStr.

Lemma splitSlash_no_slash (cur l : list ascii) :
  forallb (fun c => negb (Ascii.eqb c "/"%char)) l = true ->
  splitSlash cur l = [(rev cur ++ l)%list].
Proof.
  revert cur. induction l as [|c l IH]; intros cur; simpl.
  - now rewrite app_nil_r.
  - rewrite andb_true_iff, negb_true_iff. intros [Hc Hl]. rewrite Hc, IH by assumption.
    simpl. now rewrite <- app_assoc.
Qed.

Lemma splitSlash_one_slash (cur l r : list ascii) :
  forallb (fun c => negb (Ascii.eqb c "/"%char)) l = true ->
  splitSlash cur (l ++ "/"%char :: r)%list = (rev cur ++ l)%list :: splitSlash [] r.
Proof.
  revert cur. induction l as [|c l IH]; intros cur; simpl.
  - now rewrite app_nil_r.
  - rewrite andb_true_iff, negb_true_iff. intros [Hc Hl]. rewrite Hc, IH by assumption.
    simpl. now rewrite <- app_assoc.
Qed.

Lemma cleanStep_plain (rooted : bool) (out : list (list ascii)) (s : string) :
  plainElem s = true -> cleanStep rooted out (bytes s) = bytes s :: out.
Proof.
  unfold plainElem. rewrite !andb_true_iff, !negb_true_iff.
  intros [[[Hne _] Hd] Hdd]. unfold cleanStep. rewrite Hd, Hdd.
  destruct (bytes s) eqn:E; [| reflexivity].
  apply (f_equal str) in E. rewrite str_bytes in E. subst s. discriminate.
Qed.

(** Joining two plain elements puts one [/] between them. *)
Lemma Join_plain (name file : string) :
  plainElem name = true -> plainElem file = true ->
  Join [name; file] = (name ++ "/" ++ file)%string.
Proof.
  intros Hn Hf.
  pose proof Hn as Hn'. pose proof Hf as Hf'.
  unfold plainElem in Hn', Hf'. rewrite !andb_true_iff, !negb_true_iff in Hn', Hf'.
  destruct Hn' as [[[Hne Hns] _] _]. destruct Hf' as [[[Hfe Hfs] _] _].
  unfold Join. simpl dropEmptyPrefix. rewrite Hne. simpl map. simpl joinSlash.
  unfold Clean. rewrite bytes_str.
  destruct (bytes name) as [|c0 rest] eqn:E.
  { apply (f_equal str) in E. rewrite str_bytes in E. subst name. discriminate. }
  assert (R : Ascii.eqb c0 "/"%char = false).
  { simpl in Hns. rewrite andb_true_iff, negb_true_iff in Hns. tauto. }
  cbn [app]. rewrite R.
  change (c0 :: (rest ++ "/"%char :: bytes file))%list
    with ((c0 :: rest) ++ "/"%char :: bytes file)%list.
  rewrite splitSlash_one_slash by assumption. rewrite <- E in *.
  rewrite splitSlash_no_slash by assumption. simpl.
  rewrite !cleanStep_plain by assumption. simpl.
  destruct (bytes name ++ "/"%char :: bytes file)%list eqn:B.
  { rewrite E in B. discriminate. }
  rewrite <- B, str_app. simpl. now rewrite !str_bytes.
Qed.

End PathFacts.


Section S3Client.
Import GoStr s3client.


Lemma generateStateKey_plain (c : Client) (organization workspaceName filename : string) :
  plainElem workspaceName = true -> plainElem filename = true ->
  generateStateKey c organization workspaceName filename
  = (workspaceName ++ "/" ++ filename)%string.
Proof. intros. unfold generateStateKey. now apply Join_plain. Qed.

Lemma state_metadata_keys_differ (workspaceName : string) :
  (workspaceName ++ "/terraform.tfstate")%string
  <> (workspaceName ++ "/metadata.json")%string.
Proof.
  induction workspaceName as [|ch n IH]; simpl; [discriminate |].
  intros [= E]. now apply IH.
Qed.


End S3Client.



(** ** Integers in range *)

Section IntFacts.
Import GoInt.

Lemma wrap_id (z : Z) : min_int <= z <= max_int -> wrap z = z.
Proof.
  unfold wrap, min_int, max_int. intros H.
  rewrite Z.mod_small by lia. lia.
Qed.

Lemma add_id (a b : Z) : min_int <= a + b <= max_int -> add a b = a + b.
Proof. apply wrap_id. Qed.

Lemma sub_id (a b : Z) : min_int <= a - b <= max_int -> sub a b = a - b.
Proof. apply wrap_id. Qed.

Lemma wrap_range (z : Z) : min_int <= wrap z <= max_int.
Proof.
  unfold wrap, min_int, max_int.
  pose proof (Z.mod_pos_bound (z + 2 ^ 63) (2 ^ 64)). lia.
Qed.

End IntFacts.

(** ** The configuration *)

(** A configuration that passes [Validate] has a positive batch size and a
    positive number of concurrent uploads: the two bounds that the
    statements about batches assume. *)
Lemma Validate_migration_positive (c : config.Config) :
  config.Validate_migration c = None ->
  0 < config.BatchSize c /\ 0 < config.ConcurrentUploads c.
Proof.
  unfold config.Validate_migration. intros H.
  destruct (config.BatchSize c <=? 0) eqn:B; [discriminate |].
  destruct (config.ConcurrentUploads c <=? 0) eqn:C; [discriminate |].
  apply Z.leb_gt in B, C. now split.
Qed.

(** ** The per-workspace task *)


Section Task.
Import GoStr migrator.
Context {U : Unicode}.

Lemma trace_emit (e : Event) (w : World) : trace (emit e w) = (trace w ++ [e])%list.
Proof. reflexivity. Qed.

Lemma trace_withS3 (s : s3client.S3) (w : World) : trace (withS3 s w) = trace w.
Proof. reflexivity. Qed.


Lemma uploadLoop_trace (m : Migrator) (workspace : Workspace) (stateName : string)
    (stateData : StateData) (fuel : nat) (a : Z) (e0 : option error) (w : World) :
  1 <= a <= RetryAttempts (config m) -> RetryAttempts (config m) <= maxRetry ->
  Z.of_nat fuel = RetryAttempts (config m) - a + 1 ->
  exists errs last,
    trace (fst (uploadLoop m workspace stateName stateData fuel a e0 w))
    = (trace w ++ failedAttempts (ID workspace) stateName a errs
         ++ [CallUploadState stateName (a + lenL errs) last])%list
    /\ a + lenL errs <= RetryAttempts (config m)
    /\ snd (uploadLoop m workspace stateName stateData fuel a e0 w) = last
    /\ (last <> None -> a + lenL errs = RetryAttempts (config m)).
Proof.
  unfold maxRetry. revert a e0 w. induction fuel as [|fuel IH]; intros a e0 w Ha HR Hf; [lia |].
  cbn [uploadLoop]. destruct (Z.leb_spec a (RetryAttempts (config m))) as [_ | ?]; [| lia].
  destruct (s3client.UploadState _ _ _ _ _ _) as [s3' [e |]] eqn:Up.
  - destruct (Z.ltb_spec a (RetryAttempts (config m))) as [Hlt | Hge].
    + rewrite add_id by (unfold GoInt.min_int, GoInt.max_int; lia).
      rewrite wrap_id by (unfold GoInt.min_int, GoInt.max_int, Second; lia).
      edestruct (IH (a + 1) (Some e)) as (errs & last & T & B & Hres & L);
        [lia | assumption | lia | ].
      exists (e :: errs), last. rewrite T, Hres. unfold lenL in *. cbn [length failedAttempts].
      rewrite !trace_emit, trace_withS3, <- !app_assoc. cbn [app].
      replace (a + 1 + Z.of_nat (length errs)) with (a + Z.of_nat (S (length errs))) by lia.
      split; [reflexivity | split; [lia | split; [reflexivity |]]].
      intros N. specialize (L N). lia.
    + assert (fuel = O) by lia. subst fuel. cbn [uploadLoop].
      exists [], (Some e). unfold lenL. cbn [length failedAttempts app fst snd].
      rewrite Z.add_0_r, trace_emit, trace_withS3.
      split; [reflexivity | split; [lia | split; [reflexivity | intros _; lia]]].
  - exists [], None. unfold lenL. cbn [length failedAttempts app fst snd].
    rewrite Z.add_0_r, trace_emit, trace_withS3.
    split; [reflexivity | split; [lia | split; [reflexivity | congruence]]].
Qed.

(** More fuel than [RetryAttempts] changes nothing: the bound on the
    iterations is the loop's own. *)
Lemma uploadLoop_fuel (m : Migrator) (workspace : Workspace) (stateName : string)
    (stateData : StateData) (fuel extra : nat) (a : Z) (e0 : option error) (w : World) :
  1 <= a -> RetryAttempts (config m) < GoInt.max_int ->
  RetryAttempts (config m) - a + 1 <= Z.of_nat fuel ->
  uploadLoop m workspace stateName stateData (fuel + extra) a e0 w
  = uploadLoop m workspace stateName stateData fuel a e0 w.
Proof.
  revert a e0 w. induction fuel as [|fuel IH]; intros a e0 w Ha HR Hf.
  - destruct extra; [reflexivity |]. cbn [Nat.add uploadLoop].
    destruct (Z.leb_spec a (RetryAttempts (config m))); [lia | reflexivity].
  - cbn [Nat.add uploadLoop].
    destruct (Z.leb_spec a (RetryAttempts (config m))); [| reflexivity].
    destruct (s3client.UploadState _ _ _ _ _ _) as [s3' [e |]]; [| reflexivity].
    rewrite add_id by (unfold GoInt.min_int, GoInt.max_int in *; lia).
    apply IH; lia.
Qed.

(** C4. A task that is not a simulation and whose state fetch succeeds
    calls [UploadState] for attempts 1, 2, ..., k with k <= RetryAttempts.
    Every attempt before the k-th failed and was followed by a sleep of
    [attempt] seconds; nothing follows the k-th.  If the k-th attempt
    succeeded the task returns nil; if it failed then k = RetryAttempts and
    the task returns an error that wraps the error of that last attempt
    under a message naming RetryAttempts. *)
Theorem migrateWorkspace_retry (m : Migrator) (workspace : Workspace) (stateData : StateData)
    (w : World) :
  GetWorkspaceState (tfClient m) (ID workspace) = inr stateData ->
  1 <= RetryAttempts (config m) <= maxRetry ->
  let stateName := removeEnvironmentSuffix (Name workspace) in
  let r := migrateWorkspace m workspace false w in
  exists errs last,
    trace (fst r)
    = (trace w ++ [CallGetWorkspaceState (ID workspace) true]
         ++ failedAttempts (ID workspace) stateName 1 errs
         ++ [CallUploadState stateName (1 + lenL errs) last])%list
    /\ 1 + lenL errs <= RetryAttempts (config m)
    /\ (last = None -> snd r = None)
    /\ (forall e, last = Some e ->
          1 + lenL errs = RetryAttempts (config m)
          /\ snd r = Some (Wrap ("erro ao fazer upload após "
                                 ++ Itoa (RetryAttempts (config m)) ++ " tentativas") e)
          /\ Unwrap (Wrap ("erro ao fazer upload após "
                           ++ Itoa (RetryAttempts (config m)) ++ " tentativas") e) = Some e).
Proof.
  intros Hs HR stateName r. subst r. unfold migrateWorkspace. rewrite Hs.
  edestruct (uploadLoop_trace m workspace stateName stateData
               (Z.to_nat (RetryAttempts (config m))) 1 None
               (emit (CallGetWorkspaceState (ID workspace) true) w))
    as (errs & last & T & B & Hres & L); [lia | lia | lia |].
  fold stateName.
  destruct (uploadLoop _ _ _ _ _ _ _ _) as [w1 res] eqn:E. cbn [fst snd] in *.
  exists errs, last. subst res.
  split; [| split; [exact B | split]].
  - destruct last; cbn [fst]; rewrite T, trace_emit, <- app_assoc; reflexivity.
  - intros ->. reflexivity.
  - intros e ->. split; [apply L; discriminate | split; reflexivity].
Qed.

End Task.

Lemma migrateWorkspace_retry_witness :
  let m := TaskSamples.mig TaskSamples.sdkDown [] (TaskSamples.cfg 5 3 3) in
  let workspace := TaskSamples.ws "ws-1" "billing-prod" true in
  let r := migrator.migrateWorkspace m workspace false TaskSamples.world0 in
  snd r
  = Some (Wrap "erro ao fazer upload após 3 tentativas"
            (Wrap "erro ao fazer upload do estado do workspace billing"
               (Wrap "erro ao fazer upload para S3" (New "timeout"))))
  /\ migrator.trace (fst r)
  = [migrator.CallGetWorkspaceState "ws-1" true;
     migrator.CallUploadState "billing" 1
       (Some (Wrap "erro ao fazer upload do estado do workspace billing"
                (Wrap "erro ao fazer upload para S3" (New "timeout"))));
     migrator.Sleep (migrator.Task "ws-1") (1 * migrator.Second);
     migrator.CallUploadState "billing" 2
       (Some (Wrap "erro ao fazer upload do estado do workspace billing"
                (Wrap "erro ao fazer upload para S3" (New "timeout"))));
     migrator.Sleep (migrator.Task "ws-1") (2 * migrator.Second);
     migrator.CallUploadState "billing" 3
       (Some (Wrap "erro ao fazer upload do estado do workspace billing"
                (Wrap "erro ao fazer upload para S3" (New "timeout"))))]
  /\ exists errs last,
       1 + migrator.lenL errs <= 3
       /\ migrator.trace (fst r)
          = ([migrator.CallGetWorkspaceState "ws-1" true]
               ++ failedAttempts "ws-1" "billing" 1 errs
               ++ [migrator.CallUploadState "billing" (1 + migrator.lenL errs) last])%list.
Proof.
  intros m workspace r. split; [reflexivity |]. split; [reflexivity |].
  destruct (migrateWorkspace_retry (U := asciiOnly) m workspace
              (TaskSamples.stateOf "ws-1") TaskSamples.world0)
    as (errs & last & T & B & _).
  - reflexivity.
  - unfold maxRetry. simpl. lia.
  - exists errs, last. split; [exact B | exact T].
Defined.

(** ** The planner *)


Section Planner.
Import GoStr migrator.
Context {U : Unicode}.

(** Every workspace goes to exactly one of the three lists. *)
Lemma analyse_partition (m : Migrator) (workspaces : list Workspace) (acc : Analysis)
    (w : World) :
  let a := fst (analyse m workspaces acc w) in
  lenL (workspacesWithState a) + lenL (workspacesWithoutState a) + lenL (existingStates a)
  = lenL (workspacesWithState acc) + lenL (workspacesWithoutState acc)
    + lenL (existingStates acc) + lenL workspaces.
Proof.
  revert acc w. induction workspaces as [|ws rest IH]; intros acc w; cbn [analyse].
  - unfold lenL. simpl. lia.
  - destruct (HasState ws); cbn [negb].
    + destruct (s3client.CheckStateExists _ _ _ _) as [s3' [[|] err]];
        cbv zeta; rewrite IH; cbn [workspacesWithState workspacesWithoutState existingStates];
        unfold lenL; rewrite ?length_app; simpl; lia.
    + cbv zeta. rewrite IH. cbn [workspacesWithState workspacesWithoutState existingStates].
      unfold lenL. rewrite ?length_app. simpl. lia.
Qed.

(** What the summary entry reports: the same number under "with_state"
    and "to_migrate", the size of the migration set, so that
    total_found = with_state + without_state + already_migrated. *)
Lemma analysisSummary_counts (m : Migrator) (workspaces : list Workspace) (w : World) :
  let a := fst (analyse m workspaces
                  {| workspacesWithState := []; workspacesWithoutState := [];
                     existingStates := [] |} w) in
  exists total withState without already toMigrate,
    analysisSummary workspaces a
    = Log Info "Análise de workspaces concluída"
        [("total_found", VInt total); ("with_state", VInt withState);
         ("without_state", VInt without); ("already_migrated", VInt already);
         ("to_migrate", VInt toMigrate)]
    /\ withState = toMigrate
    /\ toMigrate = lenL (workspacesWithState a)
    /\ total = withState + without + already.
Proof.
  intros a. unfold analysisSummary. do 5 eexists. split; [reflexivity |].
  split; [reflexivity | split; [reflexivity |]].
  pose proof (analyse_partition m workspaces
                {| workspacesWithState := []; workspacesWithoutState := [];
                   existingStates := [] |} w) as P.
  cbv zeta in P. fold a in P. cbn in P. unfold lenL in *. simpl in P. lia.
Qed.

End Planner.

(** C8, on a run.  Three workspaces are found: "billing-prod", whose
    state is already in the bucket, "web", which has a state to migrate,
    and "scratch", which has none.  The summary reports total_found = 3,
    without_state = 1, already_migrated = 1, to_migrate = 1 and
    with_state = 1: the count of workspaces with a state leaves out the
    one already migrated, where total found minus without-state is 2. *)
Theorem planning_summary_with_state :
  let r := migrator.getWorkspacesToMigrate PlanSamples.planner [] PlanSamples.seeded in
  let tr := migrator.trace (fst r) in
  let msg := "Análise de workspaces concluída" in
  snd r = inr [TaskSamples.ws "ws-2" "web" true]
  /\ migrator.logged msg "total_found" tr = [migrator.VInt 3]
  /\ migrator.logged msg "without_state" tr = [migrator.VInt 1]
  /\ migrator.logged msg "already_migrated" tr = [migrator.VInt 1]
  /\ migrator.logged msg "to_migrate" tr = [migrator.VInt 1]
  /\ migrator.logged msg "with_state" tr = [migrator.VInt 1]
  /\ migrator.logged msg "with_state" tr <> [migrator.VInt (3 - 1)].
Proof.
  cbv zeta. repeat (split; [vm_compute; reflexivity |]).
  intros E. vm_compute in E. discriminate E.
Qed.

(** ** The goroutines of a batch *)

Section Counting.
Context {A : Type}.


Lemma countZ_bounds (p : A -> bool) (l : list A) : 0 <= countZ p l <= migrator.lenL l.
Proof.
  unfold migrator.lenL. induction l as [|x l IH]; simpl length; cbn [countZ]; [lia |].
  destruct (p x); simpl Z.b2z; lia.
Qed.

Lemma countZ_insert (p : A -> bool) (l : list A) (i : nat) (x y : A) :
  l !! i = Some x ->
  countZ p (<[i := y]> l) = countZ p l - Z.b2z (p x) + Z.b2z (p y).
Proof.
  revert i. induction l as [|z l IH]; intros [|i] H; try discriminate.
  - injection H as ->. cbn [countZ]. simpl. lia.
  - cbn [countZ]. simpl. rewrite (IH i H). lia.
Qed.

Lemma countZ_all (p : A -> bool) (l : list A) :
  forallb p l = true -> countZ p l = migrator.lenL l.
Proof.
  unfold migrator.lenL. induction l as [|x l IH]; [reflexivity |].
  simpl forallb. rewrite andb_true_iff. intros [Hx Hl].
  cbn [countZ]. rewrite Hx, (IH Hl). simpl length. simpl Z.b2z. lia.
Qed.

Lemma countZ_none (p : A -> bool) (l : list A) :
  (forall x, x ∈ l -> p x = false) -> countZ p l = 0.
Proof.
  induction l as [|x l IH]; intros H; [reflexivity |].
  cbn [countZ]. rewrite (H x) by left. rewrite IH; [reflexivity |].
  intros y Hy. apply H. now right.
Qed.

End Counting.

Lemma countZ_map {A B : Type} (f : B -> A) (p : A -> bool) (l : list B) :
  countZ p (map f l) = countZ (fun x => p (f x)) l.
Proof. induction l as [|x l IH]; [reflexivity |]. cbn [map countZ]. now rewrite IH. Qed.

Lemma countZ_ext {A : Type} (p q : A -> bool) (l : list A) :
  (forall x, x ∈ l -> p x = q x) -> countZ p l = countZ q l.
Proof.
  induction l as [|x l IH]; intros H; [reflexivity |].
  cbn [countZ]. rewrite (H x) by left. rewrite IH; [reflexivity |].
  intros y Hy. apply H. now right.
Qed.

Lemma map_fst_insert {A B : Type} (l : list (A * B)) (i : nat) (a : A) (b b' : B) :
  l !! i = Some (a, b) -> map fst (<[i := (a, b')]> l) = map fst l.
Proof.
  revert i. induction l as [|z l IH]; intros [|i] H; try discriminate.
  - injection H as ->. reflexivity.
  - simpl. f_equal. now apply IH.
Qed.

Lemma length_tasks (batch : list terraform.Workspace) (b : migrator.BatchState) :
  map fst (migrator.tasks b) = batch -> migrator.lenL (migrator.tasks b) = migrator.lenL batch.
Proof. intros <-. unfold migrator.lenL. now rewrite length_map. Qed.

Section Batch.
Import GoStr migrator.
Context {U : Unicode}.
Variable m : Migrator.
Variable dryRun : bool.


(** What holds of a batch at every moment.  [Q] is any property of the
    results of [migrateWorkspace] and [WI] any property of the world that
    [migrateWorkspace] preserves. *)
Record Inv (batch : list Workspace) (st0 : MigrationStats)
    (Q : Workspace -> option error -> Prop) (WI : World -> Prop) (b : BatchState) : Prop := {
  inv_ws : map fst (tasks b) = batch;
  inv_sem : semLen b = countZ inFlight (tasks b);
  inv_cap : semLen b <= Z.max 0 (ConcurrentUploads (config m));
  inv_ok : Successful (stats b) = Successful st0 + countZ countedOk (tasks b);
  inv_failed : Failed (stats b) = Failed st0 + countZ countedFailed (tasks b);
  inv_total : Total (stats b) = Total st0;
  inv_start : StartTime (stats b) = StartTime st0;
  inv_items : lenL (FailedItems (stats b))
              = lenL (FailedItems st0) + countZ countedFailed (tasks b);
  inv_names : Forall (fun f => f ∈ FailedItems st0
                               \/ exists ws e, ws ∈ batch
                                    /\ f = {| WorkspaceName := Name ws;
                                              Error := GoErr.Error e |})
                (FailedItems (stats b));
  inv_out : Forall (fun t => forall e, outcomeOf (snd t) = Some e -> Q (fst t) e) (tasks b);
  inv_world : WI (world b)
}.

Variable batch : list Workspace.
Variable st0 : MigrationStats.
Variable Q : Workspace -> option error -> Prop.
Variable WI : World -> Prop.

Hypothesis st0_ok : 0 <= Successful st0.
Hypothesis st0_failed : 0 <= Failed st0.
Hypothesis st0_room : Successful st0 + Failed st0 + lenL batch <= GoInt.max_int.
Hypothesis Q_holds : forall ws w, ws ∈ batch -> Q ws (snd (migrateWorkspace m ws dryRun w)).
Hypothesis WI_kept : forall ws w, WI w -> WI (fst (migrateWorkspace m ws dryRun w)).

Lemma spawn_inv (w : World) : WI w -> Inv batch st0 Q WI (spawn batch st0 w).
Proof.
  intros Hw. unfold spawn.
  assert (Z0 : forall p : Workspace * pc -> bool,
             (forall ws, p (ws, Spawned) = false) ->
             countZ p (map (fun ws => (ws, Spawned)) batch) = 0).
  { intros p Hp. rewrite countZ_map. apply countZ_none. intros x _. apply Hp. }
  constructor; cbn [semLen tasks stats world].
  - rewrite map_map. simpl. apply map_id.
  - now rewrite Z0.
  - lia.
  - rewrite Z0 by reflexivity. lia.
  - rewrite Z0 by reflexivity. lia.
  - reflexivity.
  - reflexivity.
  - rewrite Z0 by reflexivity. lia.
  - apply Forall_forall. intros f Hf. now left.
  - apply Forall_forall. intros t Ht e. apply list_elem_of_In, in_map_iff in Ht.
    destruct Ht as (ws & <- & _). discriminate.
  - exact Hw.
Qed.

Lemma step_inv (i : nat) (b : BatchState) :
  Inv batch st0 Q WI b -> Inv batch st0 Q WI (step m dryRun i b).
Proof.
  intros I. unfold step.
  destruct (tasks b !! i) as [[ws p] |] eqn:L; [| exact I].
  pose proof (length_tasks batch b (inv_ws _ _ _ _ _ I)) as Hlen.
  assert (Hws : forall p', map fst (<[i := (ws, p')]> (tasks b)) = batch).
  { intros p'. rewrite (map_fst_insert _ _ _ _ _ L). apply I. }
  assert (Hin : ws ∈ batch).
  { rewrite <- (inv_ws _ _ _ _ _ I). apply list_elem_of_In, in_map_iff.
    exists (ws, p). split; [reflexivity |].
    apply list_elem_of_In, list_elem_of_lookup. eauto. }
  assert (Hout : forall p',
             (forall e, outcomeOf p' = Some e -> Q ws e) ->
             Forall (fun t => forall e, outcomeOf (snd t) = Some e -> Q (fst t) e)
               (<[i := (ws, p')]> (tasks b))).
  { intros p' Hp'. apply Forall_insert; [apply I | exact Hp']. }
  pose proof (Forall_lookup_1 _ _ _ _ (inv_out _ _ _ _ _ I) L) as Qold. cbn [fst snd] in Qold.
  destruct p as [| | err | err | err].
  - (* the send on sem *)
    destruct (Z.ltb_spec (semLen b) (ConcurrentUploads (config m))) as [Hlt | _]; [| exact I].
    destruct I. constructor; cbn [semLen tasks stats world];
      rewrite ?(countZ_insert _ _ _ _ _ L); cbn [inFlight countedOk countedFailed snd Z.b2z];
      try assumption; try apply Hws; try lia.
    apply Hout. discriminate.
  - (* migrateWorkspace *)
    pose proof (Q_holds ws (world b) Hin) as Hq. pose proof (WI_kept ws (world b)) as Hw.
    destruct (migrateWorkspace m ws dryRun (world b)) as [w' err]. cbn [fst snd] in *.
    destruct I. constructor; cbn [semLen tasks stats world];
      rewrite ?(countZ_insert _ _ _ _ _ L); cbn [inFlight countedOk countedFailed snd Z.b2z];
      try assumption; try apply Hws; try lia; try (now apply Hw).
    apply Hout. intros e [= <-]. exact Hq.
  - (* the critical section *)
    pose proof (countZ_bounds countedOk (<[i := (ws, Recorded err)]> (tasks b))) as Bo.
    pose proof (countZ_bounds countedFailed (<[i := (ws, Recorded err)]> (tasks b))) as Bf.
    pose proof (countZ_bounds countedOk (tasks b)) as Bo'.
    pose proof (countZ_bounds countedFailed (tasks b)) as Bf'.
    unfold lenL in Bo, Bf. rewrite length_insert in Bo, Bf. fold (lenL (tasks b)) in Bo, Bf.
    rewrite (countZ_insert countedOk _ _ _ _ L) in Bo.
    rewrite (countZ_insert countedFailed _ _ _ _ L) in Bf.
    cbn [inFlight countedOk countedFailed snd Z.b2z] in Bo, Bf.
    destruct I. destruct err as [e |]; cbn [record];
      constructor; cbn [semLen tasks stats world Successful Failed Total StartTime FailedItems];
      rewrite ?(countZ_insert _ _ _ _ _ L); cbn [inFlight countedOk countedFailed snd Z.b2z];
      try assumption; try apply Hws; try lia.
    + rewrite add_id by (unfold GoInt.min_int; simpl in Bf; lia). lia.
    + unfold lenL in *. rewrite length_app. simpl. lia.
    + apply Forall_app. split; [assumption |]. apply Forall_singleton. right. eauto.
    + apply Hout. intros e' [= <-]. now apply Qold.
    + rewrite add_id by (unfold GoInt.min_int; simpl in Bo; lia). lia.
    + apply Hout. intros e' [= <-]. now apply Qold.
  - (* the deferred receive from sem and wg.Done *)
    destruct I. constructor; cbn [semLen tasks stats world];
      rewrite ?(countZ_insert _ _ _ _ _ L); cbn [inFlight countedOk countedFailed snd Z.b2z];
      try assumption; try apply Hws; try lia.
    apply Hout. intros e' [= <-]. now apply Qold.
  - exact I.
Qed.

Lemma runSchedule_inv (sched : list nat) (b : BatchState) :
  Inv batch st0 Q WI b -> Inv batch st0 Q WI (runSchedule m dryRun sched b).
Proof.
  unfold runSchedule. revert b. induction sched as [|i sched IH]; intros b I; [exact I |].
  simpl. apply IH. now apply step_inv.
Qed.

End Batch.

(** ** What a task does to the world *)

Section TaskWorld.
Import GoStr migrator.
Context {U : Unicode}.


Lemma mainEvents_app (tr1 tr2 : list Event) :
  mainEvents (tr1 ++ tr2) = (mainEvents tr1 ++ mainEvents tr2)%list.
Proof. apply List.filter_app. Qed.

Lemma uploadEvents_app (tr1 tr2 : list Event) :
  uploadEvents (tr1 ++ tr2) = (uploadEvents tr1 ++ uploadEvents tr2)%list.
Proof. apply List.filter_app. Qed.

(** The retry loop touches neither the events of the control goroutine
    nor the clock. *)
Lemma uploadLoop_frame (m : Migrator) (workspace : Workspace) (stateName : string)
    (stateData : StateData) (fuel : nat) (a : Z) (e0 : option error) (w : World) :
  let w' := fst (uploadLoop m workspace stateName stateData fuel a e0 w) in
  mainEvents (trace w') = mainEvents (trace w) /\ clockReads w' = clockReads w.
Proof.
  revert a e0 w. induction fuel as [|fuel IH]; intros a e0 w; cbn [uploadLoop]; [now split |].
  destruct (a <=? RetryAttempts (config m)); [| now split].
  destruct (s3client.UploadState _ _ _ _ _ _) as [s3' [e |]].
  - cbv zeta.
    lazymatch goal with
    | |- context [uploadLoop _ _ _ _ fuel ?a' ?e' ?w'] =>
        destruct (IH a' e' w') as [T C]; rewrite T, C
    end.
    destruct (a <? RetryAttempts (config m)); cbn [trace clockReads emit withS3];
      rewrite ?mainEvents_app; cbn [mainEvents List.filter isMainEvent];
      rewrite ?app_nil_r; now split.
  - cbn [fst trace clockReads emit withS3]. rewrite mainEvents_app.
    cbn [mainEvents List.filter isMainEvent]. rewrite app_nil_r. now split.
Qed.

Lemma migrateWorkspace_frame (m : Migrator) (ws : Workspace) (dryRun : bool) (w : World) :
  let w' := fst (migrateWorkspace m ws dryRun w) in
  mainEvents (trace w') = mainEvents (trace w) /\ clockReads w' = clockReads w.
Proof.
  unfold migrateWorkspace.
  destruct (GetWorkspaceState (tfClient m) (ID ws)) as [err | sd].
  - cbn [fst trace clockReads emit]. rewrite mainEvents_app.
    cbn [mainEvents List.filter isMainEvent]. rewrite app_nil_r. now split.
  - destruct dryRun.
    + cbn [fst trace clockReads emit]. rewrite mainEvents_app.
      cbn [mainEvents List.filter isMainEvent]. rewrite app_nil_r. now split.
    + pose proof (uploadLoop_frame m ws (removeEnvironmentSuffix (Name ws)) sd
                    (Z.to_nat (RetryAttempts (config m))) 1 None
                    (emit (CallGetWorkspaceState (ID ws) true) w)) as [T C].
      destruct (uploadLoop _ _ _ _ _ _ _ _) as [w1 [e |]]; cbn [fst] in *;
        rewrite T, C; cbn [trace clockReads emit]; rewrite mainEvents_app;
        cbn [mainEvents List.filter isMainEvent]; rewrite app_nil_r; now split.
Qed.

(** A simulated task fetches the state and stops there: the bucket and
    the list of upload calls stay as they were, and the task succeeds
    exactly when the fetch does. *)
Lemma migrateWorkspace_dry (m : Migrator) (ws : Workspace) (w : World) :
  let r := migrateWorkspace m ws true w in
  s3 (fst r) = s3 w
  /\ uploadEvents (trace (fst r)) = uploadEvents (trace w)
  /\ isNil (snd r) = fetchOk m ws.
Proof.
  unfold migrateWorkspace, fetchOk.
  destruct (GetWorkspaceState (tfClient m) (ID ws)) as [err | sd];
    cbn [fst snd s3 trace emit isNil]; rewrite uploadEvents_app;
    cbn [uploadEvents List.filter isUpload]; rewrite app_nil_r; now repeat split.
Qed.

End TaskWorld.

(** ** A batch from start to join *)

Section BatchJoin.
Import GoStr migrator.
Context {U : Unicode}.
Variable m : Migrator.
Variable dryRun : bool.

Lemma step_beyond (i : nat) (b : BatchState) :
  (length (tasks b) <= i)%nat -> step m dryRun i b = b.
Proof. intros H. unfold step. now rewrite lookup_ge_None_2. Qed.

Lemma length_tasks_step (i : nat) (b : BatchState) :
  length (tasks (step m dryRun i b)) = length (tasks b).
Proof.
  unfold step. destruct (tasks b !! i) as [[ws [| | e | e | e]] |]; try reflexivity;
    repeat match goal with
    | |- context [if ?c then _ else _] => destruct c
    | |- context [migrateWorkspace ?a ?b ?c ?d] => destruct (migrateWorkspace a b c d)
    end; cbn [tasks]; rewrite ?length_insert; reflexivity.
Qed.

Lemma length_tasks_run (sched : list nat) (b : BatchState) :
  length (tasks (runSchedule m dryRun sched b)) = length (tasks b).
Proof.
  unfold runSchedule. revert b. induction sched as [|i sched IH]; intros b; [reflexivity |].
  simpl. now rewrite IH, length_tasks_step.
Qed.

Lemma runSchedule_app (s1 s2 : list nat) (b : BatchState) :
  runSchedule m dryRun (s1 ++ s2) b = runSchedule m dryRun s2 (runSchedule m dryRun s1 b).
Proof. unfold runSchedule. apply fold_left_app. Qed.

Lemma runSchedule_beyond (sched : list nat) (b : BatchState) :
  Forall (fun i => (length (tasks b) <= i)%nat) sched -> runSchedule m dryRun sched b = b.
Proof.
  unfold runSchedule. induction 1 as [|i sched Hi _ IH]; [reflexivity |].
  simpl. now rewrite step_beyond.
Qed.

Lemma insert_middle {A : Type} (l1 l2 : list A) (x y : A) :
  <[List.length l1 := y]> (l1 ++ x :: l2)%list = (l1 ++ y :: l2)%list.
Proof. rewrite insert_app_r_alt by lia. now rewrite Nat.sub_diag. Qed.

(** The step of the goroutine that stands after [done] in the list. *)
Lemma step_middle (b : BatchState) (done rest : list (Workspace * pc)) (ws : Workspace)
    (p : pc) :
  tasks b = (done ++ (ws, p) :: rest)%list ->
  step m dryRun (List.length done) b =
  match p with
  | Spawned =>
      if semLen b <? ConcurrentUploads (config m) then
        {| semLen := semLen b + 1; tasks := (done ++ (ws, Holding) :: rest)%list;
           stats := stats b; world := world b |}
      else b
  | Holding =>
      let '(w', err) := migrateWorkspace m ws dryRun (world b) in
      {| semLen := semLen b; tasks := (done ++ (ws, Migrated err) :: rest)%list;
         stats := stats b; world := w' |}
  | Migrated err =>
      {| semLen := semLen b; tasks := (done ++ (ws, Recorded err) :: rest)%list;
         stats := record ws err (stats b); world := world b |}
  | Recorded err =>
      {| semLen := semLen b - 1; tasks := (done ++ (ws, Finished err) :: rest)%list;
         stats := stats b; world := world b |}
  | Finished _ => b
  end.
Proof.
  intros Ht. unfold step. rewrite Ht, list_lookup_middle by reflexivity.
  destruct p; rewrite ?insert_middle; try reflexivity.
  destruct (migrateWorkspace m ws dryRun (world b)). now rewrite insert_middle.
Qed.

(** With room for one goroutine, four steps take a spawned goroutine to
    its end and give the slot back. *)
Lemma four_steps (b : BatchState) (done rest : list (Workspace * pc)) (ws : Workspace) :
  1 <= ConcurrentUploads (config m) -> semLen b = 0 ->
  tasks b = (done ++ (ws, Spawned) :: rest)%list ->
  let k := List.length done in
  let b' := runSchedule m dryRun [k; k; k; k] b in
  semLen b' = 0 /\ exists e, tasks b' = (done ++ (ws, Finished e) :: rest)%list.
Proof.
  intros Hcap Hsem Ht k b'. subst b' k. unfold runSchedule. cbn [fold_left].
  rewrite (step_middle b done rest ws Spawned Ht), Hsem.
  destruct (Z.ltb_spec 0 (ConcurrentUploads (config m))); [| lia].
  repeat match goal with
  | |- context [step m dryRun _ ?x] =>
      lazymatch x with
      | context [step] => fail
      | _ => rewrite (step_middle x done rest ws _ eq_refl); cbn [world semLen stats tasks]
      end
  | |- context [migrateWorkspace m ws dryRun (world b)] =>
      destruct (migrateWorkspace m ws dryRun (world b)) as [w' e]
  end.
  split; [reflexivity | eexists; reflexivity].
Qed.

Lemma sequential_from (rest : list Workspace) (done : list (Workspace * pc))
    (b : BatchState) :
  1 <= ConcurrentUploads (config m) -> semLen b = 0 ->
  tasks b = (done ++ map (fun ws => (ws, Spawned)) rest)%list ->
  forallb isFinished done = true ->
  forallb isFinished
    (tasks (runSchedule m dryRun
              (flat_map (fun i => [i; i; i; i]) (seq (length done) (length rest))) b)) = true.
Proof.
  intros Hcap. revert done b. induction rest as [|ws rest IH]; intros done b Hsem Ht Hd.
  - simpl in *. rewrite Ht, app_nil_r. exact Hd.
  - cbn [length seq flat_map map] in *.
    change ([length done; length done; length done; length done]
              ++ flat_map (fun i => [i; i; i; i]) (seq (S (length done)) (length rest)))%list
      with ([length done; length done; length done; length done]
              ++ flat_map (fun i => [i; i; i; i]) (seq (S (length done)) (length rest)))%list.
    rewrite runSchedule_app.
    destruct (four_steps b done (map (fun ws => (ws, Spawned)) rest) ws Hcap Hsem Ht)
      as [Hsem' [e Ht']].
    replace (S (length done)) with (length (done ++ [(ws, Finished e)])%list)
      by (rewrite length_app; simpl; lia).
    apply IH.
    + exact Hsem'.
    + rewrite Ht', <- app_assoc. reflexivity.
    + rewrite forallb_app, Hd. reflexivity.
Qed.

(** Under the sequential schedule every goroutine of the batch ends. *)
Lemma sequential_completes (n : nat) (batch : list Workspace) (st : MigrationStats)
    (w : World) :
  1 <= ConcurrentUploads (config m) -> (length batch <= n)%nat ->
  forallb isFinished (tasks (runSchedule m dryRun (sequential n) (spawn batch st w))) = true.
Proof.
  intros Hcap Hn. unfold sequential.
  replace n with (length batch + (n - length batch))%nat by lia.
  rewrite seq_app, flat_map_app, runSchedule_app.
  rewrite runSchedule_beyond.
  - apply (sequential_from batch [] (spawn batch st w)); auto.
  - rewrite length_tasks_run. unfold spawn. cbn [tasks]. rewrite length_map.
    apply Forall_forall. intros i Hi. apply list_elem_of_In, in_flat_map in Hi.
    destruct Hi as (j & Hj & Hi). apply in_seq in Hj.
    simpl in Hi. intuition lia.
Qed.


Lemma finished_outcomes (Q : Workspace -> option error -> Prop)
    (ts : list (Workspace * pc)) :
  forallb isFinished ts = true ->
  Forall (fun t => forall e, outcomeOf (snd t) = Some e -> Q (fst t) e) ts ->
  Forall2 Q (map fst ts) (map finalOutcome ts)
  /\ countZ countedOk ts = countZ isNil (map finalOutcome ts)
  /\ countZ countedFailed ts = countZ isErr (map finalOutcome ts).
Proof.
  induction ts as [|[ws p] ts IH]; intros Hf Ha.
  - repeat split. constructor.
  - simpl in Hf. apply andb_true_iff in Hf as [Hp Hf].
    apply Forall_cons in Ha as [Hq Ha]. destruct (IH Hf Ha) as (F & Co & Ce).
    destruct p as [| | e | e | e]; try discriminate.
    cbn [map countZ fst]. rewrite Co, Ce. split; [| split].
    + constructor; [| exact F]. apply Hq. reflexivity.
    + destruct e; reflexivity.
    + destruct e; reflexivity.
Qed.

(** What the statistics and the world are when [processBatch] returns,
    and what holds while it waits for its goroutines. *)
Lemma processBatch_spec (batch : list Workspace) (options : MigrationOptions)
    (st : MigrationStats) (w : World) (sched : list nat)
    (Q : Workspace -> option error -> Prop) (WI : World -> Prop) :
  DryRun options = dryRun ->
  0 <= Successful st -> 0 <= Failed st ->
  Successful st + Failed st + lenL batch <= GoInt.max_int ->
  (forall ws w, ws ∈ batch -> Q ws (snd (migrateWorkspace m ws dryRun w))) ->
  (forall ws w, WI w -> WI (fst (migrateWorkspace m ws dryRun w))) ->
  WI w ->
  match processBatch m batch options st w sched with
  | Returned (st', w') =>
      exists outs,
        Forall2 Q batch outs
        /\ Successful st' = Successful st + countZ isNil outs
        /\ Failed st' = Failed st + countZ isErr outs
        /\ Total st' = Total st
        /\ StartTime st' = StartTime st
        /\ lenL (FailedItems st') = lenL (FailedItems st) + countZ isErr outs
        /\ Forall (fun f => f ∈ FailedItems st
                            \/ exists ws e, ws ∈ batch
                                 /\ f = {| WorkspaceName := Name ws;
                                           Error := GoErr.Error e |})
             (FailedItems st')
        /\ WI w'
  | Joining b =>
      Inv m batch st Q WI b /\ 0 <= ConcurrentUploads (config m)
      /\ b = runSchedule m dryRun sched (spawn batch st w)
      /\ forallb isFinished (tasks b) = false
  | Panicked _ => ConcurrentUploads (config m) < 0
  | OutOfFuel => False
  end.
Proof.
  intros Hd H1 H2 H3 HQ HW Hw. unfold processBatch. rewrite Hd.
  destruct (Z.ltb_spec (ConcurrentUploads (config m)) 0) as [Hc | Hc]; [exact Hc |].
  pose proof (runSchedule_inv m dryRun batch st Q WI H1 H2 H3 HQ HW sched _
                (spawn_inv m batch st Q WI w Hw)) as I.
  destruct (forallb isFinished _) eqn:Hf;
    [| split; [exact I | split; [exact Hc | split; [reflexivity | exact Hf]]]].
  destruct (finished_outcomes Q _ Hf (inv_out _ _ _ _ _ _ I)) as (F & Co & Ce).
  exists (map finalOutcome (tasks (runSchedule m dryRun sched (spawn batch st w)))).
  destruct I. rewrite inv_ws0 in F. rewrite <- Co, <- Ce.
  repeat split; assumption.
Qed.

End BatchJoin.

(** ** The batch scheduler *)


Section SchedulerArith.
Import GoInt.

Lemma wrap_sub_wrap (a b : Z) : wrap (wrap a - b) = wrap (a - b).
Proof.
  unfold wrap. f_equal.
  replace ((a + 2 ^ 63) mod 2 ^ 64 - 2 ^ 63 - b + 2 ^ 63)
    with ((a + 2 ^ 63) mod 2 ^ 64 - b) by lia.
  rewrite Zminus_mod_idemp_l. f_equal. lia.
Qed.

Lemma wrap_high (z : Z) : max_int < z <= max_int + 2 ^ 63 -> wrap z = z - 2 ^ 64.
Proof.
  unfold wrap, max_int. intros H.
  replace (z + 2 ^ 63) with ((z + 2 ^ 63 - 2 ^ 64) + 1 * 2 ^ 64) by lia.
  rewrite Z.mod_add by lia. rewrite Z.mod_small by lia. lia.
Qed.

Lemma quot_neg_range (x b : Z) : x <= 0 -> 0 < b -> x <= Z.quot x b <= 0.
Proof.
  intros Hx Hb. replace x with (- (- x)) by lia.
  rewrite Z.quot_opp_l by lia. rewrite Z.quot_div_nonneg by lia.
  pose proof (Z.div_pos (- x) b ltac:(lia) Hb).
  assert (- x / b <= - x) by (apply Z.div_le_upper_bound; nia). lia.
Qed.

(** [batchNumber < totalBatches] holds exactly when workspaces remain
    after the batch, whatever the batch size. *)
Lemma pacing_test (n b j : Z) :
  0 <= n <= maxLen -> 0 < b <= max_int -> 0 <= j -> j * b < n ->
  (j + 1 <? quo (sub (add n b) 1) b) = ((j + 1) * b <? n).
Proof.
  unfold maxLen, quo, sub, add. intros Hn Hb Hj Hi.
  rewrite wrap_sub_wrap.
  destruct (Z.le_gt_cases (n + b - 1) max_int) as [Hfit | Hover].
  - rewrite (wrap_id (n + b - 1)) by (unfold min_int, max_int in *; lia).
    rewrite Z.quot_div_nonneg by lia.
    assert (0 <= (n + b - 1) / b) by (apply Z.div_pos; lia).
    assert ((n + b - 1) / b <= n + b - 1) by (apply Z.div_le_upper_bound; nia).
    rewrite wrap_id by (unfold min_int, max_int in *; lia).
    destruct (Z.ltb_spec ((j + 1) * b) n) as [Hlt | Hge].
    + apply Z.ltb_lt.
      assert (j + 2 <= (n + b - 1) / b) by (apply Z.div_le_lower_bound; nia). lia.
    + apply Z.ltb_ge.
      assert ((n + b - 1) / b < j + 2) by (apply Z.div_lt_upper_bound; nia). lia.
  - assert (Hb' : n < b) by (unfold max_int in *; lia).
    assert (j = 0) by nia. subst j.
    rewrite (wrap_high (n + b - 1)) by (unfold max_int in *; lia).
    pose proof (quot_neg_range (n + b - 1 - 2 ^ 64) b
                  ltac:(unfold max_int in *; lia) ltac:(lia)) as Q.
    rewrite wrap_id by (unfold min_int, max_int in *; lia).
    destruct (Z.ltb_spec ((0 + 1) * b) n); [lia |]. apply Z.ltb_ge. lia.
Qed.

End SchedulerArith.

Section ListFacts.
Context {A : Type}.

Lemma countZ_app (p : A -> bool) (l k : list A) :
  countZ p (l ++ k) = countZ p l + countZ p k.
Proof. induction l as [|x l IH]; cbn [app countZ]; lia. Qed.

Lemma chunks_aux_nil (fuel size : nat) : @migrator.chunks_aux A fuel size [] = [].
Proof. destruct fuel; reflexivity. Qed.

Lemma chunks_aux_nonempty (fuel size : nat) (l : list A) :
  l <> [] ->
  migrator.chunks_aux (S fuel) size l = take size l :: migrator.chunks_aux fuel size (drop size l).
Proof. destruct l; [congruence | reflexivity]. Qed.

Lemma chunks_aux_empty_iff (fuel size : nat) (l : list A) :
  (length l <= fuel)%nat -> (migrator.chunks_aux fuel size l = [] <-> l = []).
Proof.
  intros H. destruct fuel, l; simpl in *; try lia; split; congruence.
Qed.

End ListFacts.

Lemma outcomes_total (outs : list (option error)) :
  countZ isNil outs + countZ isErr outs = migrator.lenL outs.
Proof.
  unfold migrator.lenL. induction outs as [|[e |] outs IH]; cbn [countZ isNil isErr length];
    simpl Z.b2z; lia.
Qed.

Lemma paced_cons (k : Z) (b : list terraform.Workspace)
    (rest : list (list terraform.Workspace)) :
  migrator.paced k (b :: rest)
  = migrator.CallProcessBatch k b
    :: match rest with
       | [] => []
       | _ => migrator.Sleep migrator.Main (1 * migrator.Second) :: migrator.paced (k + 1) rest
       end.
Proof. destruct rest; reflexivity. Qed.

Section Scheduler.
Import GoStr migrator.
Context {U : Unicode}.
Variable m : Migrator.
Variable rt : Runtime.
Variable workspaces : list Workspace.
Variable options : MigrationOptions.
Variable Q : Workspace -> option error -> Prop.
Variable WI : World -> Prop.

Let B := BatchSize (config m).
Let n := lenL workspaces.

Hypothesis B_range : 0 < B <= GoInt.max_int.
Hypothesis n_range : n <= maxLen.
Hypothesis Q_holds :
  forall ws w, ws ∈ workspaces -> Q ws (snd (migrateWorkspace m ws (DryRun options) w)).
Hypothesis WI_task : forall ws w, WI w -> WI (fst (migrateWorkspace m ws (DryRun options) w)).
Hypothesis WI_main : forall e w, isMainEvent e = true -> WI w -> WI (emit e w).

(** The statistics [st'] after the workspaces [items] have been processed
    from the statistics [st], with the outcomes [outs]. *)
Definition Advanced (items : list Workspace) (st st' : MigrationStats)
    (outs : list (option error)) : Prop :=
  Forall2 Q items outs
  /\ Successful st' = Successful st + countZ isNil outs
  /\ Failed st' = Failed st + countZ isErr outs
  /\ Total st' = Total st
  /\ StartTime st' = StartTime st
  /\ lenL (FailedItems st') = lenL (FailedItems st) + countZ isErr outs
  /\ Forall (fun f => f ∈ FailedItems st
                      \/ exists ws e, ws ∈ items
                           /\ f = {| WorkspaceName := Name ws; Error := GoErr.Error e |})
       (FailedItems st').

Lemma Advanced_nil (st : MigrationStats) : Advanced [] st st [].
Proof.
  unfold Advanced. cbn [countZ]. repeat split; try lia; [constructor |].
  apply Forall_forall. intros f Hf. now left.
Qed.

Lemma Advanced_app (l1 l2 : list Workspace) (st st1 st2 : MigrationStats)
    (o1 o2 : list (option error)) :
  Advanced l1 st st1 o1 -> Advanced l2 st1 st2 o2 ->
  Advanced (l1 ++ l2) st st2 (o1 ++ o2).
Proof.
  intros (F1 & S1 & E1 & T1 & B1 & I1 & N1) (F2 & S2 & E2 & T2 & B2 & I2 & N2).
  unfold Advanced. rewrite !countZ_app.
  split; [now apply Forall2_app |]. repeat split; try lia.
  apply Forall_forall. intros f Hf.
  rewrite Forall_forall in N1, N2. destruct (N2 f Hf) as [H | (ws & e & Hws & ->)].
  - destruct (N1 f H) as [H' | (ws & e & Hws & ->)]; [now left |].
    right. exists ws, e. split; [| reflexivity]. apply elem_of_app. now left.
  - right. exists ws, e. split; [| reflexivity]. apply elem_of_app. now right.
Qed.

(** What holds while a batch is running: [room] workspaces were still to
    be processed when the statistics were [st]. *)
Definition Midway (st : MigrationStats) (room : Z) (b : BatchState) : Prop :=
  Total (stats b) = Total st
  /\ Successful st <= Successful (stats b)
  /\ Failed st <= Failed (stats b)
  /\ Successful (stats b) + Failed (stats b) <= Successful st + Failed st + room
  /\ semLen b = countZ inFlight (tasks b)
  /\ 0 <= semLen b <= ConcurrentUploads (config m)
  /\ WI (world b)
  /\ (exists j, last (mainEvents (trace (world b)))
                = Some (CallProcessBatch j (map fst (tasks b))))
  /\ (forall ws, ws ∈ map fst (tasks b) -> ws ∈ workspaces)
  /\ (exists j batch st1 w1,
        (List.length batch <= List.length workspaces)%nat
        /\ b = runSchedule m (DryRun options) (schedule rt j) (spawn batch st1 w1))
  /\ forallb isFinished (tasks b) = false.

Lemma counted_disjoint (ts : list (Workspace * pc)) :
  0 <= countZ countedOk ts /\ 0 <= countZ countedFailed ts
  /\ countZ countedOk ts + countZ countedFailed ts <= lenL ts.
Proof.
  unfold lenL. induction ts as [|[ws p] ts IH]; cbn [countZ length]; [lia |].
  destruct p as [| | e | [e |] | [e |]]; cbn [countedOk countedFailed snd Z.b2z]; lia.
Qed.

Lemma take_batch (i : Z) :
  0 <= i < n -> i + B <= GoInt.max_int ->
  let end0 := GoInt.add i B in
  let end_ := if end0 >? n then n else end0 in
  ((i <? 0) || (end_ <? i) = false)
  /\ take (Z.to_nat (end_ - i)) (drop (Z.to_nat i) workspaces)
     = take (Z.to_nat B) (drop (Z.to_nat i) workspaces).
Proof.
  intros Hi Hfit end0 end_. subst end0 end_.
  rewrite add_id by (unfold GoInt.min_int, GoInt.max_int in *; lia).
  destruct (Z.gtb_spec (i + B) n) as [Hgt | Hle].
  - split.
    + apply orb_false_iff. split; [apply Z.ltb_ge | apply Z.ltb_ge]; lia.
    + rewrite !take_ge; [reflexivity | |]; rewrite length_drop; unfold n, lenL in *; lia.
  - split.
    + apply orb_false_iff. split; [apply Z.ltb_ge | apply Z.ltb_ge]; lia.
    + do 2 f_equal. lia.
Qed.

Lemma Inv_Midway (batch : list Workspace) (st : MigrationStats) (WI' : World -> Prop)
    (b : BatchState) (room j : Z) :
  Inv m batch st Q WI' b -> (forall w, WI' w -> WI w) ->
  (forall w, WI' w -> last (mainEvents (trace w)) = Some (CallProcessBatch j batch)) ->
  (forall ws, ws ∈ batch -> ws ∈ workspaces) ->
  0 <= ConcurrentUploads (config m) -> lenL batch <= room ->
  (exists j batch st1 w1,
     (List.length batch <= List.length workspaces)%nat
     /\ b = runSchedule m (DryRun options) (schedule rt j) (spawn batch st1 w1)) ->
  forallb isFinished (tasks b) = false ->
  Midway st room b.
Proof.
  intros I HW HL Hsub Hcap Hroom Hrun Hnf. destruct I.
  pose proof (counted_disjoint (tasks b)) as (C1 & C2 & C3).
  pose proof (countZ_bounds inFlight (tasks b)) as [C4 _].
  pose proof (length_tasks batch b inv_ws0) as L.
  unfold Midway. rewrite inv_ws0.
  split; [assumption |]. split; [lia |]. split; [lia |]. split; [lia |].
  split; [assumption |]. split; [lia |]. split; [auto |].
  split; [exists j; auto |]. split; [assumption |]. split; assumption.
Qed.

Lemma Midway_weaken (st st1 : MigrationStats) (room room1 : Z) (b : BatchState) :
  Midway st1 room1 b ->
  Total st1 = Total st -> Successful st <= Successful st1 -> Failed st <= Failed st1 ->
  Successful st1 + Failed st1 + room1 <= Successful st + Failed st + room ->
  Midway st room b.
Proof.
  unfold Midway. intros (? & ? & ? & ? & ? & ? & ? & ? & ? & ? & ?) ? ? ? ?.
  split; [lia |]. split; [lia |]. split; [lia |]. split; [lia |].
  split; [assumption |]. split; [lia |]. auto 10.
Qed.

(** Under the sequential schedule no batch is left waiting. *)
Lemma Midway_sequential (st : MigrationStats) (room : Z) (b : BatchState) :
  1 <= ConcurrentUploads (config m) ->
  (forall j, schedule rt j = sequential (List.length workspaces)) ->
  Midway st room b -> False.
Proof.
  intros Hcap Hseq (_ & _ & _ & _ & _ & _ & _ & _ & _ & (j & batch & st1 & w1 & Hl & ->) & Hnf).
  rewrite Hseq, sequential_completes in Hnf by assumption. discriminate.
Qed.

(** The loop of [processBatches], from the index [k * B]. *)
Lemma loop_spec (T : Z) :
  (forall j, 0 <= j -> j * B < n -> (j + 1 <? T) = ((j + 1) * B <? n)) ->
  forall (fuel : nat) (k : Z) (st : MigrationStats) (w : World),
  0 <= k -> n - k * B <= Z.of_nat fuel ->
  0 <= Successful st -> 0 <= Failed st ->
  Successful st + Failed st + Z.max 0 (n - k * B) <= GoInt.max_int ->
  WI w ->
  match processBatches_loop m rt workspaces options T fuel (k * B) st w with
  | Returned (st', w') =>
      exists outs,
        Advanced (drop (Z.to_nat (k * B)) workspaces) st st' outs
        /\ WI w'
        /\ mainEvents (trace w')
           = (mainEvents (trace w)
                ++ paced (k + 1)
                     (chunks_aux fuel (Z.to_nat B) (drop (Z.to_nat (k * B)) workspaces)))%list
  | Joining b => Midway st (Z.max 0 (n - k * B)) b
  | Panicked _ => ConcurrentUploads (config m) < 0
  | OutOfFuel => False
  end.
Proof.
  intros HT. induction fuel as [|fuel IH]; intros k st w Hk Hfuel HS HF Hroom Hw.
  - cbn [processBatches_loop]. fold n.
    destruct (Z.ltb_spec (k * B) n) as [Hlt | Hge]; [lia |].
    exists []. rewrite drop_ge by (unfold n, lenL in Hge; lia).
    split; [apply Advanced_nil | split; [exact Hw |]]. cbn [chunks_aux paced].
    now rewrite app_nil_r.
  - cbn [processBatches_loop]. fold n. fold B.
    destruct (Z.ltb_spec (k * B) n) as [Hlt | Hge].
    2:{ exists []. rewrite drop_ge by (unfold n, lenL in Hge; lia).
        split; [apply Advanced_nil | split; [exact Hw |]].
        rewrite chunks_aux_nil. cbn [paced]. now rewrite app_nil_r. }
    assert (Hi : 0 <= k * B) by nia.
    assert (Hfit : k * B + B <= GoInt.max_int).
    { unfold maxLen, GoInt.max_int in *. destruct (Z.eq_dec k 0) as [-> | Hk0]; [lia |].
      assert (B <= k * B) by nia. lia. }
    destruct (take_batch (k * B) (conj Hi Hlt) Hfit) as [Hpanic Hbatch].
    cbv zeta in Hpanic, Hbatch. fold n in Hpanic, Hbatch. rewrite Hpanic, Hbatch.
    clear Hpanic Hbatch.
    assert (Hnum : GoInt.add (GoInt.quo (k * B) B) 1 = k + 1).
    { unfold GoInt.quo. rewrite Z.quot_mul by lia.
      assert (k <= k * B) by nia.
      rewrite wrap_id by (unfold maxLen, GoInt.min_int, GoInt.max_int in *; lia).
      apply add_id. unfold maxLen, GoInt.min_int, GoInt.max_int in *. lia. }
    rewrite Hnum. rewrite (HT k Hk Hlt).
    rewrite add_id by (unfold GoInt.min_int, GoInt.max_int in *; lia).
    replace (k * B + B) with ((k + 1) * B) by ring.
    set (i' := Z.to_nat (k * B)). set (B' := Z.to_nat B).
    set (batch := take B' (drop i' workspaces)).
    assert (Hsplit : drop i' workspaces
                     = (batch ++ drop (Z.to_nat ((k + 1) * B)) workspaces)%list).
    { subst batch. rewrite <- (take_drop B' (drop i' workspaces)) at 1.
      rewrite drop_drop. do 2 f_equal. subst i' B'. lia. }
    assert (Hlen : lenL batch = Z.min B (n - k * B)).
    { subst batch. unfold lenL. rewrite length_take, length_drop.
      subst i' B'. unfold n, lenL in *. lia. }
    assert (Hsub : forall ws, ws ∈ batch -> ws ∈ workspaces).
    { intros ws Hws. subst batch. apply subseteq_take in Hws. now apply subseteq_drop in Hws. }
    set (w1 := emit (CallProcessBatch (k + 1) batch) w).
    assert (HQb : forall ws w0, ws ∈ batch ->
                    Q ws (snd (migrateWorkspace m ws (DryRun options) w0))).
    { intros ws w0 Hws. apply Q_holds. now apply Hsub. }
    assert (HWk : forall ws w0,
               WI w0 /\ mainEvents (trace w0) = mainEvents (trace w1) ->
               WI (fst (migrateWorkspace m ws (DryRun options) w0))
               /\ mainEvents (trace (fst (migrateWorkspace m ws (DryRun options) w0)))
                  = mainEvents (trace w1)).
    { intros ws w0 [Hw0 Hm0]. split; [now apply WI_task |].
      now rewrite (proj1 (migrateWorkspace_frame m ws (DryRun options) w0)). }
    assert (HW1 : WI w1 /\ mainEvents (trace w1) = mainEvents (trace w1)).
    { split; [now apply WI_main | reflexivity]. }
    assert (Hroom1 : Successful st + Failed st + lenL batch <= GoInt.max_int) by lia.
    pose proof (processBatch_spec m (DryRun options) batch options st w1
                  (schedule rt (k + 1)) Q
                  (fun w' => WI w' /\ mainEvents (trace w') = mainEvents (trace w1))
                  eq_refl HS HF Hroom1 HQb HWk HW1) as PB.
    destruct (processBatch m batch options st w1 (schedule rt (k + 1)))
      as [[st1 w2] | msg | b |].
    + destruct PB as (outs1 & F1 & S1 & E1 & T1 & B1 & I1 & N1 & [Hw2 Hm2]).
      assert (A1 : Advanced batch st st1 outs1) by (unfold Advanced; repeat split; assumption).
      pose proof (outcomes_total outs1) as Ho.
      pose proof (countZ_bounds isNil outs1) as [Hn1 _].
      pose proof (countZ_bounds isErr outs1) as [He1 _].
      assert (Hlo : lenL outs1 = lenL batch).
      { unfold lenL. now rewrite <- (Forall2_length _ _ _ F1). }
      set (w3 := if (k + 1) * B <? n
                 then emit (Sleep Main (1 * Second)) w2 else w2).
      assert (Hw3 : WI w3).
      { subst w3. destruct ((k + 1) * B <? n); [now apply WI_main | exact Hw2]. }
      specialize (IH (k + 1) st1 w3).
      destruct (processBatches_loop m rt workspaces options T fuel ((k + 1) * B) st1 w3)
        as [[st' w'] | msg | b |].
      * destruct IH as (outs2 & A2 & Hw' & Hm'); try lia; [exact Hw3 |].
        exists (outs1 ++ outs2)%list. split; [| split; [exact Hw' |]].
        -- rewrite Hsplit. eapply Advanced_app; eassumption.
        -- rewrite Hm'. rewrite chunks_aux_nonempty
             by (intros E; apply (f_equal (@List.length _)) in E;
                 rewrite length_drop in E; subst i'; unfold n, lenL in *; simpl in E; lia).
           fold batch. rewrite paced_cons.
           replace (drop B' (drop i' workspaces))
             with (drop (Z.to_nat ((k + 1) * B)) workspaces)
             by (rewrite drop_drop; f_equal; subst i' B'; lia).
           subst w3. destruct (Z.ltb_spec ((k + 1) * B) n) as [Hmore | Hlast].
           ++ cbn [trace emit]. rewrite mainEvents_app, Hm2. subst w1. cbn [trace emit].
              rewrite mainEvents_app. cbn [mainEvents List.filter isMainEvent].
              rewrite <- !app_assoc. cbn [app]. unfold B' in *.
              destruct (chunks_aux fuel (Z.to_nat B)
                          (drop (Z.to_nat ((k + 1) * B)) workspaces)) eqn:Ec.
              { apply chunks_aux_empty_iff in Ec;
                  [| rewrite length_drop; unfold n, lenL in *; lia].
                apply (f_equal (@List.length _)) in Ec. rewrite length_drop in Ec.
                unfold n, lenL in *. simpl in Ec. lia. }
              reflexivity.
           ++ rewrite Hm2. subst w1. cbn [trace emit]. rewrite mainEvents_app.
              cbn [mainEvents List.filter isMainEvent].
              rewrite (drop_ge workspaces (Z.to_nat ((k + 1) * B)))
                by (unfold n, lenL in *; lia).
              rewrite !chunks_aux_nil. cbn [paced]. now rewrite app_nil_r.
      * apply IH; try lia. exact Hw3.
      * apply (Midway_weaken st st1 _ (Z.max 0 (n - (k + 1) * B))); try lia.
        apply IH; try lia. exact Hw3.
      * apply IH; try lia. exact Hw3.
    + exact PB.
    + destruct PB as (I & Hcap & Hb & Hnf).
      apply (Inv_Midway batch st _ b _ (k + 1) I);
        [tauto | | exact Hsub | exact Hcap | lia | | exact Hnf].
      * intros w0 [_ ->]. subst w1. cbn [trace emit]. rewrite mainEvents_app.
        cbn [mainEvents List.filter isMainEvent]. apply last_snoc.
      * exists (k + 1), batch, st, w1. split; [| exact Hb].
        subst batch. rewrite length_take, length_drop. lia.
    + exact PB.
Qed.

(** [processBatches], from the first batch to the last. *)
Lemma processBatches_spec (st : MigrationStats) (w : World) :
  0 <= Successful st -> 0 <= Failed st ->
  Successful st + Failed st + n <= GoInt.max_int ->
  WI w ->
  match processBatches m rt workspaces options st w with
  | Returned (st', w') =>
      exists outs,
        Advanced workspaces st st' outs
        /\ WI w'
        /\ mainEvents (trace w')
           = (mainEvents (trace w) ++ paced 1 (chunks (Z.to_nat B) workspaces))%list
  | Joining b => Midway st n b
  | Panicked _ => ConcurrentUploads (config m) < 0
  | OutOfFuel => False
  end.
Proof.
  intros HS HF Hroom Hw. unfold processBatches. fold B. fold n.
  destruct (Z.eqb_spec B 0) as [E | _]; [lia |].
  assert (Hn0 : 0 <= n) by (unfold n, lenL; lia).
  pose proof (loop_spec _ (fun j Hj Hi => pacing_test n B j (conj Hn0 n_range) B_range Hj Hi)
                (List.length workspaces) 0 st w) as L.
  rewrite Z.mul_0_l, Z.sub_0_r, Z.max_r in L by lia. cbn [Z.to_nat drop Z.add] in L.
  apply L; auto; unfold n, lenL; lia.
Qed.

End Scheduler.

(** ** The chunks of a list *)

Section Chunks.
Context {A : Type}.
Import migrator.

Lemma chunks_aux_concat (size fuel : nat) (l : list A) :
  (0 < size)%nat -> (List.length l <= fuel)%nat -> concat (chunks_aux fuel size l) = l.
Proof.
  intros Hs. revert l. induction fuel as [|fuel IH]; intros l Hl.
  - destruct l; [reflexivity | simpl in Hl; lia].
  - destruct l as [|x l]; [reflexivity |].
    rewrite chunks_aux_nonempty by discriminate. cbn [concat].
    rewrite IH; [apply take_drop |].
    rewrite length_drop. simpl in *. lia.
Qed.

(** The [j]-th chunk is the slice that starts at [j * size]. *)
Lemma chunks_aux_lookup (size fuel : nat) (l : list A) (j : nat) (c : list A) :
  (0 < size)%nat -> (List.length l <= fuel)%nat ->
  chunks_aux fuel size l !! j = Some c ->
  c = take size (drop (j * size) l) /\ (j * size < List.length l)%nat.
Proof.
  intros Hs. revert l j. induction fuel as [|fuel IH]; intros l j Hl Hj.
  - destruct l; discriminate.
  - destruct l as [|x l]; [discriminate |].
    rewrite chunks_aux_nonempty in Hj by discriminate.
    destruct j as [|j].
    + injection Hj as <-. split; [reflexivity | simpl; lia].
    + cbn [lookup list_lookup] in Hj. apply IH in Hj as [-> Hlt].
      * rewrite drop_drop. rewrite length_drop in Hlt.
        split; [do 2 f_equal; lia | lia].
      * rewrite length_drop. simpl in *. lia.
Qed.

(** There are ceil(len / size) chunks. *)
Lemma chunks_aux_count (size fuel : nat) (l : list A) :
  (0 < size)%nat -> (List.length l <= fuel)%nat ->
  lenL (chunks_aux fuel size l) = (lenL l + Z.of_nat size - 1) / Z.of_nat size.
Proof.
  intros Hs. unfold lenL. revert l. induction fuel as [|fuel IH]; intros l Hl.
  - destruct l; [| simpl in Hl; lia]. simpl.
    symmetry. apply Z.div_small. lia.
  - destruct l as [|x l]; [simpl; symmetry; apply Z.div_small; lia |].
    rewrite chunks_aux_nonempty by discriminate. cbn [List.length].
    rewrite Nat2Z.inj_succ, IH by (rewrite length_drop; simpl in *; lia).
    rewrite length_drop.
    change (S (List.length l)) with (List.length (x :: l)).
    set (len := List.length (x :: l)) in *.
    destruct (Nat.le_gt_cases size len) as [Hge | Hlt].
    + replace (Z.of_nat len + Z.of_nat size - 1)
        with ((Z.of_nat (len - size) + Z.of_nat size - 1) + 1 * Z.of_nat size) by lia.
      rewrite Z.div_add by lia. lia.
    + replace (len - size)%nat with O by lia.
      rewrite (Z.div_small (Z.of_nat 0 + Z.of_nat size - 1)) by lia.
      change (Z.succ 0) with 1.
      apply (Z.div_unique _ _ 1 (Z.of_nat len - 1)); subst len; simpl List.length in *; lia.
Qed.

End Chunks.


Section SchedulerClaims.
Import GoStr migrator.
Context {U : Unicode}.

(** C5. For a non-empty sequence of n workspaces and a batch size B > 0,
    the batches are the chunks of B consecutive workspaces in order: there
    are ceil(n / B) of them, put end to end they give the sequence back,
    the j-th is the slice starting at j * B, each has between 1 and B
    workspaces and all but the last exactly B.  When [processBatches]
    returns, the control goroutine has started these batches one after the
    other and slept one second after each of them except the last; while
    it waits for a batch, that batch is the last one it has started; and
    under the sequential schedule, with room for one upload, it returns. *)
Theorem processBatches_partition (m : Migrator) (rt : Runtime) (workspaces : list Workspace)
    (options : MigrationOptions) (st : MigrationStats) (w : World) :
  workspaces <> [] ->
  0 < BatchSize (config m) <= GoInt.max_int ->
  lenL workspaces <= maxLen ->
  0 <= Successful st -> 0 <= Failed st ->
  Successful st + Failed st + lenL workspaces <= GoInt.max_int ->
  let B := BatchSize (config m) in
  let batches := chunks (Z.to_nat B) workspaces in
  lenL batches = (lenL workspaces + B - 1) / B
  /\ concat batches = workspaces
  /\ (forall (j : nat) (c : list Workspace),
        batches !! j = Some c ->
        c = take (Z.to_nat B) (drop (j * Z.to_nat B) workspaces)
        /\ 0 < lenL c <= B
        /\ (Z.of_nat j + 1 < lenL batches -> lenL c = B))
  /\ (forall st' w',
        processBatches m rt workspaces options st w = Returned (st', w') ->
        mainEvents (trace w') = (mainEvents (trace w) ++ paced 1 batches)%list)
  /\ (forall b,
        processBatches m rt workspaces options st w = Joining b ->
        exists j, last (mainEvents (trace (world b)))
                  = Some (CallProcessBatch j (map fst (tasks b))))
  /\ (1 <= ConcurrentUploads (config m) ->
      (forall j, schedule rt j = sequential (List.length workspaces)) ->
      exists st' w', processBatches m rt workspaces options st w = Returned (st', w')).
Proof.
  intros Hne HB Hn HS HF Hroom B batches.
  assert (HB' : (0 < Z.to_nat B)%nat) by (subst B; lia).
  assert (Hcount : lenL batches = (lenL workspaces + B - 1) / B).
  { subst batches. unfold chunks. rewrite chunks_aux_count by (auto; lia).
    now rewrite Z2Nat.id by (subst B; lia). }
  pose proof (processBatches_spec m rt workspaces options (fun _ _ => True) (fun _ => True)
                HB Hn (fun _ _ _ => I) (fun _ _ _ => I) (fun _ _ _ _ => I)
                st w HS HF Hroom I) as P.
  split; [exact Hcount |].
  split; [apply chunks_aux_concat; auto |].
  split; [| split; [| split]].
  - intros j c Hj. apply chunks_aux_lookup in Hj as [-> Hlt]; auto.
    split; [reflexivity |].
    assert (Hlen : lenL (take (Z.to_nat B) (drop (j * Z.to_nat B) workspaces))
                   = Z.min B (lenL workspaces - Z.of_nat j * B)).
    { unfold lenL. rewrite length_take, length_drop. subst B. lia. }
    rewrite Hlen. split; [subst B; unfold lenL in *; lia |].
    intros Hmore. rewrite Hcount in Hmore.
    assert (B * (Z.of_nat j + 2) <= lenL workspaces + B - 1).
    { etransitivity; [| apply (Z.mul_div_le _ B); subst B; lia].
      apply Z.mul_le_mono_nonneg_l; subst B; lia. }
    nia.
  - intros st' w' E. rewrite E in P. destruct P as (outs & _ & _ & T). exact T.
  - intros b E. rewrite E in P.
    destruct P as (_ & _ & _ & _ & _ & _ & _ & L & _). exact L.
  - intros Hcap Hseq.
    destruct (processBatches m rt workspaces options st w) as [[st' w'] | msg | b |] eqn:E.
    + now exists st', w'.
    + lia.
    + exfalso. eapply Midway_sequential; eauto.
    + contradiction.
Qed.

End SchedulerClaims.

Lemma processBatches_partition_witness :
  let r := migrator.processBatches BatchSamples.engine BatchSamples.runtime
             BatchSamples.seven BatchSamples.real BatchSamples.fresh TaskSamples.world0 in
  map (@List.length _) (migrator.chunks 3 BatchSamples.seven) = [3; 3; 1]%nat
  /\ exists st' w',
       r = migrator.Returned (st', w')
       /\ mainEvents (migrator.trace w')
          = migrator.paced 1 (migrator.chunks 3 BatchSamples.seven)
       /\ map migrator.isMainEvent (migrator.paced 1 (migrator.chunks 3 BatchSamples.seven))
          = [true; true; true; true; true].
Proof.
  intros r. split; [reflexivity |].
  assert (H1 : BatchSamples.seven <> []) by discriminate.
  assert (H2 : 0 < config.BatchSize (migrator.config BatchSamples.engine) <= GoInt.max_int)
    by (vm_compute; split; [reflexivity | discriminate]).
  assert (H3 : migrator.lenL BatchSamples.seven <= maxLen) by (vm_compute; discriminate).
  assert (H4 : 0 <= migrator.Successful BatchSamples.fresh) by (vm_compute; discriminate).
  assert (H5 : 0 <= migrator.Failed BatchSamples.fresh) by (vm_compute; discriminate).
  assert (H6 : migrator.Successful BatchSamples.fresh + migrator.Failed BatchSamples.fresh
               + migrator.lenL BatchSamples.seven <= GoInt.max_int)
    by (vm_compute; discriminate).
  destruct (processBatches_partition (U := asciiOnly) BatchSamples.engine
              BatchSamples.runtime BatchSamples.seven BatchSamples.real BatchSamples.fresh
              TaskSamples.world0 H1 H2 H3 H4 H5 H6) as (_ & _ & _ & T & _ & R).
  destruct R as (st' & w' & E).
  - vm_compute. discriminate.
  - reflexivity.
  - exists st', w'. split; [exact E | split; [| reflexivity]].
    exact (T st' w' E).
Defined.

(** ** Admission to a batch *)

Section Admission.
Import GoStr migrator.
Context {U : Unicode}.
Variable m : Migrator.
Variable dryRun : bool.

(** The buffer of [sem] holds one value per goroutine in flight, and
    never more than its capacity. *)
Definition SemInv (b : BatchState) : Prop :=
  semLen b = countZ inFlight (tasks b)
  /\ semLen b <= Z.max 0 (ConcurrentUploads (config m)).

Lemma step_sem (i : nat) (b : BatchState) : SemInv b -> SemInv (step m dryRun i b).
Proof.
  intros [Hs Hc]. unfold step.
  destruct (tasks b !! i) as [[ws p] |] eqn:L; [| now split].
  destruct p as [| | err | err | err]; try (now split).
  - destruct (Z.ltb_spec (semLen b) (ConcurrentUploads (config m))); [| now split].
    split; cbn [semLen tasks]; rewrite ?(countZ_insert _ _ _ _ _ L);
      cbn [inFlight snd Z.b2z]; lia.
  - destruct (migrateWorkspace m ws dryRun (world b)) as [w' err].
    split; cbn [semLen tasks]; rewrite ?(countZ_insert _ _ _ _ _ L);
      cbn [inFlight snd Z.b2z]; lia.
  - split; cbn [semLen tasks]; rewrite ?(countZ_insert _ _ _ _ _ L);
      cbn [inFlight snd Z.b2z]; lia.
  - split; cbn [semLen tasks]; rewrite ?(countZ_insert _ _ _ _ _ L);
      cbn [inFlight snd Z.b2z]; lia.
Qed.

Lemma runSchedule_sem (sched : list nat) (b : BatchState) :
  SemInv b -> SemInv (runSchedule m dryRun sched b).
Proof.
  unfold runSchedule. revert b. induction sched as [|i sched IH]; intros b H; [exact H |].
  simpl. apply IH. now apply step_sem.
Qed.

Lemma spawn_sem (batch : list Workspace) (st : MigrationStats) (w : World) :
  SemInv (spawn batch st w).
Proof.
  split; cbn [spawn semLen tasks]; [| lia].
  rewrite countZ_map. symmetry. now apply countZ_none.
Qed.

(** C10.  Whatever the schedule, the goroutines of a batch that are
    between their send on [sem] and their receive from it number as many
    as the values buffered in [sem], at most [ConcurrentUploads].  A
    goroutine that has not yet sent does no work: its step changes neither
    the statistics nor the world; with the buffer full it does not move,
    otherwise it takes a slot.  Work is done by goroutines in flight only.
    A goroutine whose task has returned, with an error or without, records
    the outcome and then gives its slot back. *)
Theorem processBatch_admission (batch : list Workspace) (st : MigrationStats) (w : World)
    (sched : list nat) :
  0 < ConcurrentUploads (config m) ->
  let cap := ConcurrentUploads (config m) in
  let b := runSchedule m dryRun sched (spawn batch st w) in
  countZ inFlight (tasks b) <= cap
  /\ semLen b = countZ inFlight (tasks b)
  /\ (forall i ws, tasks b !! i = Some (ws, Spawned) ->
        stats (step m dryRun i b) = stats b
        /\ world (step m dryRun i b) = world b
        /\ (cap <= semLen b -> step m dryRun i b = b)
        /\ (semLen b < cap ->
            tasks (step m dryRun i b) !! i = Some (ws, Holding)
            /\ semLen (step m dryRun i b) = semLen b + 1))
  /\ (forall i ws p, tasks b !! i = Some (ws, p) -> inFlight (ws, p) = false ->
        stats (step m dryRun i b) = stats b /\ world (step m dryRun i b) = world b)
  /\ (forall i ws err, tasks b !! i = Some (ws, Migrated err) ->
        tasks (step m dryRun i b) !! i = Some (ws, Recorded err)
        /\ semLen (step m dryRun i b) = semLen b)
  /\ (forall i ws err, tasks b !! i = Some (ws, Recorded err) ->
        tasks (step m dryRun i b) !! i = Some (ws, Finished err)
        /\ semLen (step m dryRun i b) = semLen b - 1).
Proof.
  intros Hcap cap b.
  destruct (runSchedule_sem sched _ (spawn_sem batch st w)) as [Hs Hc]. fold b in Hs, Hc.
  split; [subst cap; lia |]. split; [exact Hs |].
  split; [| split; [| split]].
  - intros i ws L. unfold step. rewrite L.
    destruct (Z.ltb_spec (semLen b) (ConcurrentUploads (config m))) as [Hlt | Hge];
      cbn [stats world tasks semLen].
    + repeat split; try (subst cap; lia).
      apply list_lookup_insert_eq. now apply lookup_lt_Some in L.
    + repeat split; subst cap; lia.
  - intros i ws p L Hp. unfold step. rewrite L.
    destruct p as [| | err | err | err]; try discriminate; [| now split].
    destruct (semLen b <? ConcurrentUploads (config m)); now split.
  - intros i ws err L. unfold step. rewrite L. cbn [tasks semLen].
    split; [| reflexivity]. apply list_lookup_insert_eq. now apply lookup_lt_Some in L.
  - intros i ws err L. unfold step. rewrite L. cbn [tasks semLen].
    split; [| reflexivity]. apply list_lookup_insert_eq. now apply lookup_lt_Some in L.
Qed.

End Admission.

Lemma processBatch_admission_witness :
  let m := TaskSamples.mig TaskSamples.sdkDown BatchSamples.seven (TaskSamples.cfg 7 2 3) in
  let b := migrator.runSchedule m false [0; 1; 2; 3; 0; 4; 1; 0]%nat
             (migrator.spawn BatchSamples.seven BatchSamples.fresh TaskSamples.world0) in
  0 < config.ConcurrentUploads (migrator.config m)
  /\ countZ migrator.inFlight (migrator.tasks b) = 2
  /\ countZ migrator.inFlight (migrator.tasks b) <= 2.
Proof.
  intros m b.
  assert (H : 0 < config.ConcurrentUploads (migrator.config m)) by reflexivity.
  split; [exact H | split; [reflexivity |]].
  exact (proj1 (processBatch_admission (U := asciiOnly) m false BatchSamples.seven
                  BatchSamples.fresh TaskSamples.world0 [0; 1; 2; 3; 0; 4; 1; 0]%nat H)).
Defined.

(** ** A whole run *)

Section RunFacts.
Import GoStr migrator.
Context {U : Unicode}.


Lemma analyse_frame (m : Migrator) (workspaces : list Workspace) (acc : Analysis)
    (w : World) :
  let w' := snd (analyse m workspaces acc w) in
  sameDestination w w' /\ trace w' = trace w /\ clockReads w' = clockReads w.
Proof.
  revert acc w. induction workspaces as [|ws rest IH]; intros acc w; cbn [analyse].
  - unfold sameDestination. now repeat split.
  - destruct (HasState ws); cbn [negb]; [| apply IH].
    unfold s3client.CheckStateExists, s3client.HeadObject.
    destruct (s3client.headFault _ _); [| destruct (_ !! _)]; cbv zeta;
      match goal with
      | |- context [analyse m rest ?a ?w0] =>
          destruct (IH a w0) as ((O & P & C & V) & T & K);
            unfold sameDestination; rewrite O, P, C, V, T, K; now repeat split
      end.
Qed.

Lemma getWorkspacesToMigrate_frame (m : Migrator) (projectFilter : list string) (w : World) :
  let w' := fst (getWorkspacesToMigrate m projectFilter w) in
  sameDestination w w' /\ mainEvents (trace w') = mainEvents (trace w)
  /\ clockReads w' = clockReads w.
Proof.
  unfold getWorkspacesToMigrate.
  destruct (if 0 <? lenL projectFilter then _ else _) as [err | workspaces];
    [unfold sameDestination; now repeat split |].
  pose proof (analyse_frame m workspaces
                {| workspacesWithState := []; workspacesWithoutState := [];
                   existingStates := [] |} w) as ((O & P & C & V) & T & K).
  destruct (analyse m workspaces _ w) as [a w1]. cbn [snd] in *.
  unfold sameDestination.
  destruct (0 <? lenL (workspacesWithoutState a)), (0 <? lenL (existingStates a));
    cbn [fst s3 trace clockReads emit analysisSummary];
    rewrite ?uploadEvents_app, ?mainEvents_app, O, P, C, T, K;
    cbn [uploadEvents mainEvents List.filter isUpload isMainEvent];
    rewrite ?app_nil_r; fold (uploadEvents (trace w)); now repeat split.
Qed.


Lemma fold_emit (l : list FailedMigration) (w : World) :
  let w' := fold_left (fun w failed => emit (failureEntry failed) w) l w in
  trace w' = (trace w ++ map failureEntry l)%list
  /\ s3 w' = s3 w /\ clockReads w' = clockReads w.
Proof.
  revert w. induction l as [|f l IH]; intros w; cbn [fold_left map].
  - now rewrite app_nil_r.
  - destruct (IH (emit (failureEntry f) w)) as (T & S3 & C).
    rewrite T, S3, C. cbn [trace emit s3 clockReads]. now rewrite <- app_assoc.
Qed.

Lemma logFinalStats_frame (st : MigrationStats) (dryRun : bool) (w : World) :
  let w' := logFinalStats st dryRun w in
  trace w' = (trace w ++ finalEvents st dryRun)%list
  /\ s3 w' = s3 w /\ clockReads w' = clockReads w.
Proof.
  unfold logFinalStats, finalEvents.
  destruct (0 <? lenL (FailedItems st)), (0 <? Total st);
    cbn [trace s3 clockReads emit];
    try (destruct (fold_emit (FailedItems st)
                    (emit (Log ErrorLevel "Workspaces que falharam:" [])
                       (emit (Log Info "Migração finalizada"
                                [("mode", VStr (if dryRun then "Dry run" else "Migração"));
                                 ("total", VInt (Total st));
                                 ("successful", VInt (Successful st));
                                 ("failed", VInt (Failed st));
                                 ("duration", VDuration (Duration st))]) w)))
           as (T & S3 & C); rewrite T, S3, C);
    cbn [trace s3 clockReads emit]; rewrite <- ?app_assoc; cbn [app];
    rewrite ?app_nil_r; now repeat split.
Qed.

Lemma logged_failures (msg key : string) (l : list FailedMigration) :
  String.eqb "Falha na migração" msg = false -> logged msg key (map failureEntry l) = [].
Proof.
  intros H. unfold logged. induction l as [|f l IH]; [reflexivity |].
  cbn [map flat_map failureEntry]. rewrite H. exact IH.
Qed.

Lemma logged_app (msg key : string) (tr1 tr2 : list Event) :
  logged msg key (tr1 ++ tr2) = (logged msg key tr1 ++ logged msg key tr2)%list.
Proof. unfold logged. apply flat_map_app. Qed.

Lemma logged_failure_names (l : list FailedMigration) :
  logged "Falha na migração" "workspace" (map failureEntry l)
  = map (fun f => VStr (WorkspaceName f)) l.
Proof.
  unfold logged. induction l as [|f l IH]; [reflexivity |].
  cbn [map]. rewrite <- IH. reflexivity.
Qed.

Lemma logged_failure_errors (l : list FailedMigration) :
  logged "Falha na migração" "error" (map failureEntry l)
  = map (fun f => VStr (Error f)) l.
Proof.
  unfold logged. induction l as [|f l IH]; [reflexivity |].
  cbn [map]. rewrite <- IH. reflexivity.
Qed.

Definition failureBlock (st : MigrationStats) : list Event :=
  if 0 <? lenL (FailedItems st)
  then Log ErrorLevel "Workspaces que falharam:" [] :: map failureEntry (FailedItems st)
  else [].

Lemma failureBlock_other (msg key : string) (st : MigrationStats) :
  String.eqb "Falha na migração" msg = false -> logged msg key (failureBlock st) = [].
Proof.
  intros H. unfold failureBlock. destruct (0 <? lenL (FailedItems st)); [| reflexivity].
  change (Log ErrorLevel "Workspaces que falharam:" [] :: map failureEntry (FailedItems st))
    with ([Log ErrorLevel "Workspaces que falharam:" []] ++ map failureEntry (FailedItems st))%list.
  rewrite logged_app, logged_failures by exact H.
  unfold logged. cbn [flat_map].
  destruct (String.eqb "Workspaces que falharam:" msg); reflexivity.
Qed.

Lemma failureBlock_entries (key : string) (st : MigrationStats) :
  logged "Falha na migração" key (failureBlock st)
  = logged "Falha na migração" key (map failureEntry (FailedItems st)).
Proof.
  unfold failureBlock. destruct (FailedItems st) as [|f l]; [reflexivity |].
  reflexivity.
Qed.

(** What the summary reports. *)
Lemma finalEvents_logged (st : MigrationStats) (dryRun : bool) :
  logged "Migração finalizada" "total" (finalEvents st dryRun) = [VInt (Total st)]
  /\ logged "Migração finalizada" "successful" (finalEvents st dryRun)
     = [VInt (Successful st)]
  /\ logged "Migração finalizada" "failed" (finalEvents st dryRun) = [VInt (Failed st)]
  /\ logged "Migração finalizada" "duration" (finalEvents st dryRun)
     = [VDuration (Duration st)]
  /\ logged "Taxa de sucesso" "success_rate" (finalEvents st dryRun)
     = (if 0 <? Total st then [VPercent (successRate st)] else [])
  /\ logged "Falha na migração" "workspace" (finalEvents st dryRun)
     = map (fun f => VStr (WorkspaceName f)) (FailedItems st)
  /\ logged "Falha na migração" "error" (finalEvents st dryRun)
     = map (fun f => VStr (Error f)) (FailedItems st).
Proof.
  unfold finalEvents. fold (failureBlock st). rewrite !logged_app.
  rewrite !failureBlock_other by reflexivity.
  rewrite !failureBlock_entries, logged_failure_names, logged_failure_errors.
  destruct (0 <? Total st); cbn [app]; rewrite ?app_nil_r; repeat split; reflexivity.
Qed.

End RunFacts.

Section Run.
Import GoStr migrator.
Context {U : Unicode}.
Variable m : Migrator.
Variable rt : Runtime.
Variable options : MigrationOptions.
Variable w : World.
Variable workspaces : list Workspace.
Variable w1 : World.

Hypothesis validated : ValidateConnections m = None.
Hypothesis planned :
  getWorkspacesToMigrate m (Projects options) (fst (Now rt w)) = (w1, inr workspaces).

(** The statistics when the batches start. *)
Definition planStats : MigrationStats :=
  {| Total := lenL workspaces; Successful := 0; Failed := 0;
     StartTime := now rt (clockReads w); EndTime := 0; Duration := 0; FailedItems := [] |}.

(** How [Migrate] ends after the batches returned [st2] in the world [w2]. *)
Definition finish (st2 : MigrationStats) (w2 : World) : Outcome :=
  let st3 := withEnd (now rt (clockReads w2)) st2 in
  {| result := if Failed st3 >? 0
               then Some (New ("migração concluída com " ++ Itoa (Failed st3) ++ " falhas"))
               else None;
     runStats := Some st3;
     after := logFinalStats st3 (DryRun options) (fst (Now rt w2)) |}.

Definition emptyPlan : Outcome :=
  {| result := None; runStats := Some planStats;
     after := emit (Log Warn "Nenhum workspace encontrado para migração" []) w1 |}.

Lemma Migrate_planned :
  Migrate m rt options w =
  if lenL workspaces =? 0 then Returned emptyPlan
  else
    match processBatches m rt workspaces options planStats w1 with
    | Returned (st2, w2) => Returned (finish st2 w2)
    | Panicked msg => Panicked msg
    | Joining b => Joining b
    | OutOfFuel => OutOfFuel
    end.
Proof.
  unfold Migrate. rewrite validated. unfold Now in *. cbn [fst] in planned.
  rewrite planned. cbn [Total withTotal].
  destruct (lenL workspaces =? 0); [reflexivity |].
  fold planStats.
  change (withTotal (lenL workspaces)
            {| Total := 0; Successful := 0; Failed := 0;
               StartTime := now rt (clockReads w); EndTime := 0; Duration := 0;
               FailedItems := [] |}) with planStats.
  destruct (processBatches m rt workspaces options planStats w1) as [[st2 w2] | | |];
    try reflexivity.
  unfold finish. cbn [fst]. destruct (Failed _ >? 0); reflexivity.
Qed.

Variable Q : Workspace -> option error -> Prop.
Variable WI : World -> Prop.

Hypothesis B_range : 0 < BatchSize (config m) <= GoInt.max_int.
Hypothesis n_range : lenL workspaces <= maxLen.
Hypothesis Q_holds :
  forall ws w, ws ∈ workspaces -> Q ws (snd (migrateWorkspace m ws (DryRun options) w)).
Hypothesis WI_task : forall ws w, WI w -> WI (fst (migrateWorkspace m ws (DryRun options) w)).
Hypothesis WI_main : forall e w, isMainEvent e = true -> WI w -> WI (emit e w).
Hypothesis WI_start : WI w1.

(** The ways a run that passed validation and planning can stand. *)
Lemma Migrate_spec :
  match Migrate m rt options w with
  | Returned o =>
      (lenL workspaces = 0 /\ o = emptyPlan)
      \/ (0 < lenL workspaces
          /\ exists st2 w2 outs,
               o = finish st2 w2
               /\ Advanced Q workspaces planStats st2 outs
               /\ WI w2
               /\ mainEvents (trace w2)
                  = (mainEvents (trace w1)
                       ++ paced 1 (chunks (Z.to_nat (BatchSize (config m))) workspaces))%list)
  | Joining b =>
      0 < lenL workspaces /\ Midway m rt workspaces options WI planStats (lenL workspaces) b
  | Panicked _ => ConcurrentUploads (config m) < 0
  | OutOfFuel => False
  end.
Proof.
  rewrite Migrate_planned.
  assert (Hn0 : 0 <= lenL workspaces) by (unfold lenL; lia).
  destruct (Z.eqb_spec (lenL workspaces) 0) as [E | N]; [left; now split |].
  pose proof (processBatches_spec m rt workspaces options Q WI B_range n_range Q_holds
                WI_task WI_main planStats w1) as P.
  cbn [planStats Successful Failed] in P.
  specialize (P ltac:(lia) ltac:(lia)
                ltac:(unfold maxLen, GoInt.max_int in *; lia) WI_start).
  destruct (processBatches m rt workspaces options planStats w1) as [[st2 w2] | msg | b |].
  - right. split; [lia |]. destruct P as (outs & A & Hw & T).
    exists st2, w2, outs.
    split; [reflexivity | split; [exact A | split; [exact Hw | exact T]]].
  - exact P.
  - split; [lia | exact P].
  - exact P.
Qed.

(** With room for one upload and the sequential schedule, the run returns. *)
Lemma Migrate_returns :
  1 <= ConcurrentUploads (config m) ->
  (forall j, schedule rt j = sequential (List.length workspaces)) ->
  exists o, Migrate m rt options w = Returned o.
Proof.
  intros Hcap Hseq. pose proof Migrate_spec as S.
  destruct (Migrate m rt options w) as [o | msg | b |].
  - now exists o.
  - lia.
  - exfalso. destruct S as [_ S]. eapply Midway_sequential; eauto.
  - contradiction.
Qed.

End Run.

(** ** The claims about a run *)


Section RunClaims.
Import GoStr migrator.
Context {U : Unicode}.

Lemma record_one (ws : Workspace) (err : option error) (st : MigrationStats) :
  0 <= Successful st < GoInt.max_int -> 0 <= Failed st < GoInt.max_int ->
  match err with
  | None =>
      Successful (record ws err st) = Successful st + 1
      /\ Failed (record ws err st) = Failed st
      /\ FailedItems (record ws err st) = FailedItems st
  | Some e =>
      Successful (record ws err st) = Successful st
      /\ Failed (record ws err st) = Failed st + 1
      /\ FailedItems (record ws err st)
         = (FailedItems st ++ [{| WorkspaceName := Name ws; Error := GoErr.Error e |}])%list
  end.
Proof.
  intros HS HF. destruct err; cbn [record Successful Failed FailedItems];
    rewrite add_id by (unfold GoInt.min_int, GoInt.max_int in *; lia); auto.
Qed.

(** C2.  In a run that passed validation and planning, [Total] is the
    number of planned workspaces.  The critical section adds one to
    exactly one of [Successful] and [Failed], with an entry (workspace
    name, error text) in the second case.  While the run waits for a
    batch, successful + failed <= total; when it returns there is one
    outcome per planned workspace, [Successful] counts the outcomes
    without error and [Failed] those with one, so successful + failed =
    total, and [FailedItems] has one entry per failure, each naming a
    planned workspace.  The run returns under the sequential schedule. *)
Theorem Migrate_conservation (m : Migrator) (rt : Runtime) (options : MigrationOptions)
    (w w1 : World) (workspaces : list Workspace) :
  ValidateConnections m = None ->
  getWorkspacesToMigrate m (Projects options) (fst (Now rt w)) = (w1, inr workspaces) ->
  0 < BatchSize (config m) <= GoInt.max_int ->
  lenL workspaces <= maxLen ->
  (forall ws err st,
      0 <= Successful st < GoInt.max_int -> 0 <= Failed st < GoInt.max_int ->
      Successful (record ws err st) + Failed (record ws err st)
      = Successful st + Failed st + 1
      /\ (err = None -> Successful (record ws err st) = Successful st + 1
                        /\ FailedItems (record ws err st) = FailedItems st)
      /\ (forall e, err = Some e ->
            Failed (record ws err st) = Failed st + 1
            /\ FailedItems (record ws err st)
               = (FailedItems st
                    ++ [{| WorkspaceName := Name ws; Error := GoErr.Error e |}])%list))
  /\ match Migrate m rt options w with
     | Returned o =>
         exists st outs,
           runStats o = Some st
           /\ Total st = lenL workspaces
           /\ lenL outs = lenL workspaces
           /\ Successful st = countZ isNil outs
           /\ Failed st = countZ isErr outs
           /\ Successful st + Failed st = Total st
           /\ lenL (FailedItems st) = Failed st
           /\ Forall (fun f => exists ws e,
                          ws ∈ workspaces
                          /\ f = {| WorkspaceName := Name ws; Error := GoErr.Error e |})
                (FailedItems st)
     | Joining b =>
         Total (stats b) = lenL workspaces
         /\ 0 <= Successful (stats b) /\ 0 <= Failed (stats b)
         /\ Successful (stats b) + Failed (stats b) <= Total (stats b)
     | Panicked _ => ConcurrentUploads (config m) < 0
     | OutOfFuel => False
     end
  /\ (1 <= ConcurrentUploads (config m) ->
      (forall j, schedule rt j = sequential (List.length workspaces)) ->
      exists o, Migrate m rt options w = Returned o).
Proof.
  intros Hv Hp HB Hn. split; [| split].
  - intros ws err st HS HF. pose proof (record_one ws err st HS HF) as R.
    destruct err as [e |]; destruct R as (R1 & R2 & R3).
    + split; [lia |]. split; [discriminate |]. intros e' [= <-]. now split.
    + split; [lia |]. split; [now split | discriminate].
  - pose proof (Migrate_spec m rt options w workspaces w1 Hv Hp
                  (fun _ _ => True) (fun _ => True) HB Hn
                  (fun _ _ _ => I) (fun _ _ _ => I) (fun _ _ _ _ => I) I) as S.
    destruct (Migrate m rt options w) as [o | msg | b |]; [| exact S | | exact S].
    + destruct S as [[E ->] | (Hpos & st2 & w2 & outs & -> & A & _)].
      * exists (planStats rt w workspaces), [].
        cbn [emptyPlan runStats planStats Total Successful Failed FailedItems countZ].
        unfold lenL in *. cbn [List.length].
        do 7 (split; [first [reflexivity | lia] |]). constructor.
      * destruct A as (F & S1 & E1 & T1 & _ & I1 & N1).
        pose proof (outcomes_total outs) as Ho.
        assert (Hlo : lenL outs = lenL workspaces).
        { unfold lenL. now rewrite <- (Forall2_length _ _ _ F). }
        cbn [planStats Total Successful Failed FailedItems] in *.
        exists (withEnd (now rt (clockReads w2)) st2), outs.
        cbn [finish runStats withEnd Total Successful Failed FailedItems].
        unfold lenL in *. cbn [List.length] in I1.
        do 7 (split; [first [reflexivity | lia] |]).
        apply Forall_forall. intros f Hf. rewrite Forall_forall in N1.
        destruct (N1 f Hf) as [Hin | H]; [now apply elem_of_nil in Hin | exact H].
    + destruct S as (Hpos & T1 & S1 & F1 & Hsum & _).
      cbn [planStats Total Successful Failed] in *. repeat split; lia.
  - intros Hcap Hseq.
    exact (Migrate_returns m rt options w workspaces w1 Hv Hp
             (fun _ _ => True) (fun _ => True) HB Hn
             (fun _ _ _ => I) (fun _ _ _ => I) (fun _ _ _ _ => I) I Hcap Hseq).
Qed.

End RunClaims.

Section RunResult.
Import GoStr migrator.
Context {U : Unicode}.

Lemma all_nil (workspaces : list Workspace) (outs : list (option error)) :
  Forall2 (fun _ e => e = None) workspaces outs -> countZ isErr outs = 0.
Proof. induction 1 as [|ws e l k -> _ IH]; [reflexivity |]. cbn [countZ isErr Z.b2z]. lia. Qed.

(** C3.  A run that passed validation and planning and has returned has
    returned an error exactly when [Failed] is positive at that point.  A
    run with no planned workspace returns nil; so does a run in which the
    task of every planned workspace succeeds; and under the sequential
    schedule the run does return. *)
Theorem Migrate_error_iff (m : Migrator) (rt : Runtime) (options : MigrationOptions)
    (w w1 : World) (workspaces : list Workspace) :
  ValidateConnections m = None ->
  getWorkspacesToMigrate m (Projects options) (fst (Now rt w)) = (w1, inr workspaces) ->
  (forall o, Migrate m rt options w = Returned o ->
     exists st, runStats o = Some st /\ (result o <> None <-> Failed st > 0))
  /\ (lenL workspaces = 0 ->
      exists o, Migrate m rt options w = Returned o /\ result o = None)
  /\ (0 < BatchSize (config m) <= GoInt.max_int -> lenL workspaces <= maxLen ->
      (forall ws w', ws ∈ workspaces ->
                     snd (migrateWorkspace m ws (DryRun options) w') = None) ->
      forall o, Migrate m rt options w = Returned o -> result o = None)
  /\ (0 < BatchSize (config m) <= GoInt.max_int -> lenL workspaces <= maxLen ->
      1 <= ConcurrentUploads (config m) ->
      (forall j, schedule rt j = sequential (List.length workspaces)) ->
      exists o, Migrate m rt options w = Returned o).
Proof.
  intros Hv Hp. pose proof (Migrate_planned m rt options w workspaces w1 Hv Hp) as E.
  split; [| split; [| split]].
  - intros o Ho. rewrite E in Ho.
    destruct (lenL workspaces =? 0).
    + injection Ho as <-. exists (planStats rt w workspaces).
      cbn [emptyPlan runStats result planStats Failed]. split; [reflexivity |].
      split; [intros N; now contradiction N | lia].
    + destruct (processBatches m rt workspaces options _ w1) as [[st2 w2] | | |];
        try discriminate.
      injection Ho as <-. eexists. cbn [finish runStats result]. split; [reflexivity |].
      destruct (Z.gtb_spec (Failed (withEnd (now rt (clockReads w2)) st2)) 0) as [G | G].
      * split; [intros _; lia | discriminate].
      * split; [intros N; now contradiction N | lia].
  - intros Z0. rewrite E, Z0. cbn [Z.eqb]. eexists. split; [reflexivity | reflexivity].
  - intros HB Hn Hall o Ho.
    pose proof (Migrate_spec m rt options w workspaces w1 Hv Hp
                  (fun _ e => e = None) (fun _ => True) HB Hn
                  Hall (fun _ _ _ => I) (fun _ _ _ _ => I) I) as S.
    rewrite Ho in S. destruct S as [[_ ->] | (_ & st2 & w2 & outs & -> & A & _)];
      [reflexivity |].
    destruct A as (F & _ & E1 & _). apply all_nil in F.
    cbn [finish result withEnd Failed]. rewrite E1, F. reflexivity.
  - intros HB Hn Hcap Hseq.
    exact (Migrate_returns m rt options w workspaces w1 Hv Hp
             (fun _ _ => True) (fun _ => True) HB Hn
             (fun _ _ _ => I) (fun _ _ _ => I) (fun _ _ _ _ => I) I Hcap Hseq).
Qed.

Lemma dry_counts (m : Migrator) (workspaces : list Workspace) (outs : list (option error)) :
  Forall2 (fun ws e => isNil e = fetchOk m ws) workspaces outs ->
  countZ isNil outs = countZ (fetchOk m) workspaces
  /\ countZ isErr outs = countZ (fun ws => negb (fetchOk m ws)) workspaces.
Proof.
  induction 1 as [|ws e l k H _ [IH1 IH2]]; [now split |].
  cbn [countZ]. rewrite IH1, IH2, <- H. destruct e; now split.
Qed.

(** C6.  With [DryRun] set, a run that passed validation and planning
    never calls [UploadState]: at every moment the objects of the bucket
    and the [PutObject] requests it has seen are those of the start, and
    the trace holds no upload call that was not there.  When the run
    returns, [Successful] is the number of planned workspaces whose state
    fetch succeeds and [Failed] the number of those whose fetch fails. *)
Theorem Migrate_dry_run (m : Migrator) (rt : Runtime) (options : MigrationOptions)
    (w w1 : World) (workspaces : list Workspace) :
  DryRun options = true ->
  ValidateConnections m = None ->
  getWorkspacesToMigrate m (Projects options) (fst (Now rt w)) = (w1, inr workspaces) ->
  0 < BatchSize (config m) <= GoInt.max_int ->
  lenL workspaces <= maxLen ->
  (forall ws w', let r := migrateWorkspace m ws true w' in
                 s3 (fst r) = s3 w'
                 /\ uploadEvents (trace (fst r)) = uploadEvents (trace w')
                 /\ isNil (snd r) = fetchOk m ws)
  /\ match Migrate m rt options w with
     | Returned o =>
         sameDestination w (after o)
         /\ exists st,
              runStats o = Some st
              /\ Successful st = countZ (fetchOk m) workspaces
              /\ Failed st = countZ (fun ws => negb (fetchOk m ws)) workspaces
     | Joining b => sameDestination w (world b)
     | Panicked _ => ConcurrentUploads (config m) < 0
     | OutOfFuel => False
     end
  /\ (1 <= ConcurrentUploads (config m) ->
      (forall j, schedule rt j = sequential (List.length workspaces)) ->
      exists o, Migrate m rt options w = Returned o).
Proof.
  intros Hd Hv Hp HB Hn.
  split; [intros ws w'; apply migrateWorkspace_dry |].
  pose proof (getWorkspacesToMigrate_frame m (Projects options) (fst (Now rt w))) as G.
  rewrite Hp in G. cbn [fst Now s3 trace] in G. destruct G as (G & _ & _).
  assert (HQ : forall ws w', ws ∈ workspaces ->
                 isNil (snd (migrateWorkspace m ws (DryRun options) w')) = fetchOk m ws).
  { intros ws w' _. rewrite Hd. apply migrateWorkspace_dry. }
  assert (HW : forall ws w', sameDestination w w' ->
                 sameDestination w (fst (migrateWorkspace m ws (DryRun options) w'))).
  { intros ws w' (O & P & C & V). rewrite Hd.
    destruct (migrateWorkspace_dry m ws w') as (S3 & T & _).
    unfold sameDestination. rewrite S3, T. now repeat split. }
  assert (HM : forall e w', isMainEvent e = true -> sameDestination w w' ->
                 sameDestination w (emit e w')).
  { intros e w' He (O & P & C & V). unfold sameDestination. cbn [emit s3 trace].
    rewrite uploadEvents_app. cbn [uploadEvents List.filter].
    destruct e as [[|] d | | | |]; try discriminate;
      cbn [isUpload]; rewrite app_nil_r; now repeat split. }
  split.
  - pose proof (Migrate_spec m rt options w workspaces w1 Hv Hp
                  (fun ws e => isNil e = fetchOk m ws) (sameDestination w) HB Hn
                  HQ HW HM G) as S.
    destruct (Migrate m rt options w) as [o | msg | b |]; [| exact S | | exact S].
    + destruct S as [[E ->] | (Hpos & st2 & w2 & outs & -> & A & Hw2 & _)].
      * split.
        -- cbn [emptyPlan after].
           destruct G as (O & P & C & V). unfold sameDestination. cbn [emit s3 trace].
           rewrite uploadEvents_app. cbn [uploadEvents List.filter isUpload].
           rewrite app_nil_r. now repeat split.
        -- exists (planStats rt w workspaces). cbn [emptyPlan runStats planStats].
           cbn [Successful Failed].
           destruct workspaces; [now repeat split | unfold lenL in E; simpl in E; lia].
      * destruct A as (F & S1 & E1 & _). apply dry_counts in F as [F1 F2].
        split.
        -- cbn [finish after].
           destruct (logFinalStats_frame (withEnd (now rt (clockReads w2)) st2)
                       (DryRun options) (fst (Now rt w2))) as (T & S3 & _).
           destruct Hw2 as (O & P & C & V). unfold sameDestination.
           rewrite S3, T. cbn [Now fst s3 trace]. rewrite uploadEvents_app.
           assert (Hnone : uploadEvents
                             (finalEvents (withEnd (now rt (clockReads w2)) st2)
                                (DryRun options)) = []).
           { unfold finalEvents, uploadEvents. rewrite !List.filter_app.
             destruct (0 <? lenL _), (0 <? Total _); cbn [List.filter isUpload app];
               try reflexivity;
               induction (FailedItems _) as [|f l IH]; cbn [map List.filter isUpload
                                                            failureEntry] in *; auto. }
           rewrite Hnone, app_nil_r. now repeat split.
        -- eexists. cbn [finish runStats withEnd Successful Failed].
           split; [reflexivity |]. cbn [planStats Successful Failed] in S1, E1.
           cbn [withEnd Successful Failed]. split; lia.
    + destruct S as (_ & _ & _ & _ & _ & _ & _ & Hw & _). exact Hw.
  - intros Hcap Hseq.
    exact (Migrate_returns m rt options w workspaces w1 Hv Hp
             (fun _ _ => True) (fun _ => True) HB Hn
             (fun _ _ _ => I) (fun _ _ _ => I) (fun _ _ _ _ => I) I Hcap Hseq).
Qed.

End RunResult.

Section RunSummary.
Import GoStr migrator.
Context {U : Unicode}.

(** C9, as the code has it.  A run that passed validation and planning
    and whose plan is empty returns nil right after a warning: the end
    time and the duration keep their zero value and no summary is written.
    A run whose plan is not empty and that has returned has read the clock
    a second time into [EndTime], set [Duration] to the difference with
    [StartTime], and written after everything else the summary: one entry
    with total, successful, failed and duration, one entry per failed
    workspace with its name and error text, and, [Total] being positive,
    one entry with the rate successful / total * 100. *)
Theorem Migrate_summary (m : Migrator) (rt : Runtime) (options : MigrationOptions)
    (w w1 : World) (workspaces : list Workspace) :
  ValidateConnections m = None ->
  getWorkspacesToMigrate m (Projects options) (fst (Now rt w)) = (w1, inr workspaces) ->
  0 < BatchSize (config m) <= GoInt.max_int ->
  lenL workspaces <= maxLen ->
  (lenL workspaces = 0 ->
   exists o st,
     Migrate m rt options w = Returned o
     /\ result o = None
     /\ runStats o = Some st
     /\ Total st = 0 /\ EndTime st = 0 /\ Duration st = 0
     /\ trace (after o)
        = (trace w1 ++ [Log Warn "Nenhum workspace encontrado para migração" []])%list)
  /\ (0 < lenL workspaces ->
      forall o, Migrate m rt options w = Returned o ->
      exists st pre,
        runStats o = Some st
        /\ StartTime st = now rt (clockReads w)
        /\ EndTime st = now rt (S (clockReads w))
        /\ Duration st = Sub (EndTime st) (StartTime st)
        /\ 0 < Total st
        /\ trace (after o) = (pre ++ finalEvents st (DryRun options))%list
        /\ logged "Migração finalizada" "total" (finalEvents st (DryRun options))
           = [VInt (Total st)]
        /\ logged "Migração finalizada" "successful" (finalEvents st (DryRun options))
           = [VInt (Successful st)]
        /\ logged "Migração finalizada" "failed" (finalEvents st (DryRun options))
           = [VInt (Failed st)]
        /\ logged "Migração finalizada" "duration" (finalEvents st (DryRun options))
           = [VDuration (Duration st)]
        /\ logged "Taxa de sucesso" "success_rate" (finalEvents st (DryRun options))
           = [VPercent (inject_Z (Successful st) / inject_Z (Total st) * 100)%Q]
        /\ logged "Falha na migração" "workspace" (finalEvents st (DryRun options))
           = map (fun f => VStr (WorkspaceName f)) (FailedItems st)
        /\ logged "Falha na migração" "error" (finalEvents st (DryRun options))
           = map (fun f => VStr (Error f)) (FailedItems st)).
Proof.
  intros Hv Hp HB Hn. split.
  - intros Z0. rewrite (Migrate_planned m rt options w workspaces w1 Hv Hp), Z0.
    cbn [Z.eqb]. exists (emptyPlan rt w workspaces w1), (planStats rt w workspaces).
    cbn [emptyPlan result runStats after planStats Total EndTime Duration trace emit].
    now repeat split.
  - intros Hpos o Ho.
    pose proof (getWorkspacesToMigrate_frame m (Projects options) (fst (Now rt w))) as G.
    rewrite Hp in G. cbn [fst Now clockReads] in G. destruct G as (_ & _ & G).
    pose proof (Migrate_spec m rt options w workspaces w1 Hv Hp
                  (fun _ _ => True) (fun w' => clockReads w' = S (clockReads w)) HB Hn
                  (fun _ _ _ => I)
                  (fun ws w' H =>
                     eq_trans (proj2 (migrateWorkspace_frame m ws (DryRun options) w')) H)
                  (fun _ _ _ H => H) G) as S.
    rewrite Ho in S. destruct S as [[E _] | (_ & st2 & w2 & outs & -> & A & C & _)]; [lia |].
    destruct A as (_ & _ & _ & T1 & B1 & _).
    set (st := withEnd (now rt (clockReads w2)) st2).
    destruct (logFinalStats_frame st (DryRun options) (fst (Now rt w2))) as (T & _ & _).
    assert (Ht : 0 < Total st) by (subst st; cbn [withEnd Total]; rewrite T1; exact Hpos).
    destruct (finalEvents_logged st (DryRun options)) as (L1 & L2 & L3 & L4 & L5 & L6 & L7).
    destruct (Z.ltb_spec 0 (Total st)) as [_ | ?]; [| lia].
    exists st, (trace (fst (Now rt w2))).
    cbn [finish runStats after]. fold st.
    split; [reflexivity |].
    split; [subst st; cbn [withEnd StartTime]; rewrite B1; reflexivity |].
    split; [subst st; cbn [withEnd EndTime]; now rewrite C |].
    split; [reflexivity |].
    split; [exact Ht |].
    split; [exact T |].
    repeat (split; [assumption |]). assumption.
Qed.

End RunSummary.

(** C9 as stated fails on a run whose plan is empty: the only workspace
    of the organisation has no state, the run returns nil, the end time
    and the duration are still zero, and the log has neither the summary
    entry nor a success rate. *)
Lemma Migrate_empty_plan_no_summary :
  match migrator.Migrate RunSamples.idle BatchSamples.runtime BatchSamples.real
          TaskSamples.world0 with
  | migrator.Returned o =>
      migrator.result o = None
      /\ option_map migrator.Total (migrator.runStats o) = Some 0
      /\ option_map migrator.EndTime (migrator.runStats o) = Some 0
      /\ option_map migrator.Duration (migrator.runStats o) = Some 0
      /\ migrator.clockReads (migrator.after o) = 1%nat
      /\ migrator.logged "Migração finalizada" "total" (migrator.trace (migrator.after o)) = []
      /\ migrator.logged "Taxa de sucesso" "success_rate"
           (migrator.trace (migrator.after o)) = []
  | _ => False
  end.
Proof. vm_compute. repeat split; reflexivity. Qed.

(** ** The claims on a sample run *)


Lemma sample_validated : migrator.ValidateConnections BatchSamples.engine = None.
Proof. reflexivity. Qed.

Lemma sample_planned (options : migrator.MigrationOptions) :
  migrator.Projects options = [] ->
  migrator.getWorkspacesToMigrate BatchSamples.engine (migrator.Projects options)
    (fst (migrator.Now BatchSamples.runtime TaskSamples.world0))
  = (RunWitness.planWorld, inr BatchSamples.seven).
Proof. intros ->. vm_compute. reflexivity. Qed.

Lemma sample_batch :
  0 < config.BatchSize (migrator.config BatchSamples.engine) <= GoInt.max_int.
Proof. vm_compute. split; [reflexivity | discriminate]. Qed.

Lemma sample_len : migrator.lenL BatchSamples.seven <= maxLen.
Proof. vm_compute. discriminate. Qed.

Lemma sample_returns (options : migrator.MigrationOptions) :
  migrator.Projects options = [] ->
  exists o, RunSamples.run options = migrator.Returned o.
Proof.
  destruct options as [[|] projects]; cbn [migrator.Projects]; intros ->;
    vm_compute; eexists; reflexivity.
Qed.

Lemma Migrate_conservation_witness :
  migrator.ValidateConnections BatchSamples.engine = None
  /\ 0 < config.BatchSize (migrator.config BatchSamples.engine) <= GoInt.max_int
  /\ migrator.lenL BatchSamples.seven <= maxLen
  /\ exists o st,
       RunSamples.run BatchSamples.real = migrator.Returned o
       /\ migrator.runStats o = Some st
       /\ migrator.Total st = 7
       /\ migrator.Successful st + migrator.Failed st = migrator.Total st.
Proof.
  split; [exact sample_validated | split; [exact sample_batch | split; [exact sample_len |]]].
  destruct (Migrate_conservation (U := asciiOnly) BatchSamples.engine BatchSamples.runtime
              BatchSamples.real TaskSamples.world0 RunWitness.planWorld BatchSamples.seven
              sample_validated (sample_planned BatchSamples.real eq_refl)
              sample_batch sample_len) as (_ & M & _).
  destruct (sample_returns BatchSamples.real eq_refl) as [o Eo].
  unfold RunSamples.run in Eo. rewrite Eo in M.
  destruct M as (st & outs & Hst & Ht & _ & _ & _ & Hsum & _).
  exists o, st. repeat split; assumption.
Defined.

Lemma Migrate_error_iff_witness :
  migrator.ValidateConnections BatchSamples.engine = None
  /\ exists o st,
       RunSamples.run BatchSamples.real = migrator.Returned o
       /\ migrator.runStats o = Some st
       /\ (migrator.result o <> None <-> migrator.Failed st > 0).
Proof.
  split; [exact sample_validated |].
  destruct (Migrate_error_iff (U := asciiOnly) BatchSamples.engine BatchSamples.runtime
              BatchSamples.real TaskSamples.world0 RunWitness.planWorld BatchSamples.seven
              sample_validated (sample_planned BatchSamples.real eq_refl)) as (M & _).
  destruct (sample_returns BatchSamples.real eq_refl) as [o Eo].
  destruct (M o Eo) as (st & Hst & Hiff).
  exists o, st. repeat split; try assumption; apply Hiff.
Defined.

Lemma Migrate_dry_run_witness :
  migrator.DryRun BatchSamples.simulated = true
  /\ migrator.ValidateConnections BatchSamples.engine = None
  /\ exists o st,
       RunSamples.run BatchSamples.simulated = migrator.Returned o
       /\ s3client.puts (migrator.s3 (migrator.after o)) = []
       /\ migrator.runStats o = Some st
       /\ migrator.Successful st = 6 /\ migrator.Failed st = 1.
Proof.
  split; [reflexivity | split; [exact sample_validated |]].
  destruct (Migrate_dry_run (U := asciiOnly) BatchSamples.engine BatchSamples.runtime
              BatchSamples.simulated TaskSamples.world0 RunWitness.planWorld
              BatchSamples.seven eq_refl sample_validated
              (sample_planned BatchSamples.simulated eq_refl)
              sample_batch sample_len) as (_ & M & _).
  destruct (sample_returns BatchSamples.simulated eq_refl) as [o Eo].
  unfold RunSamples.run in Eo. rewrite Eo in M.
  destruct M as ((_ & P & _) & st & Hst & Hs & Hf).
  exists o, st. repeat split; assumption.
Defined.

Lemma Migrate_summary_witness :
  migrator.ValidateConnections BatchSamples.engine = None
  /\ 0 < migrator.lenL BatchSamples.seven
  /\ exists o st,
       RunSamples.run BatchSamples.real = migrator.Returned o
       /\ migrator.runStats o = Some st
       /\ migrator.EndTime st = 1000 + 1 * migrator.Second
       /\ migrator.Duration st = 1 * migrator.Second.
Proof.
  assert (Hpos : 0 < migrator.lenL BatchSamples.seven) by reflexivity.
  split; [exact sample_validated | split; [exact Hpos |]].
  destruct (Migrate_summary (U := asciiOnly) BatchSamples.engine BatchSamples.runtime
              BatchSamples.real TaskSamples.world0 RunWitness.planWorld BatchSamples.seven
              sample_validated (sample_planned BatchSamples.real eq_refl)
              sample_batch sample_len) as (_ & M).
  destruct (sample_returns BatchSamples.real eq_refl) as [o Eo].
  destruct (M Hpos o Eo) as (st & pre & Hst & Hs & He & Hd & _).
  exists o, st. split; [exact Eo | split; [exact Hst |]].
  rewrite Hd, Hs, He. split; reflexivity.
Defined.

(** ** The Terraform Cloud client *)

Section ClientFacts.
Import terraform terraformClient.

Lemma convert_fold (items : list tfe.Workspace) (acc : list Workspace) :
  fold_left
    (fun all ws =>
       (all ++ [{| ID := tfe.ws_ID ws;
                   Name := tfe.ws_Name ws;
                   Description := tfe.ws_Description ws;
                   CurrentStateVersion :=
                     match tfe.CurrentStateVersion ws with
                     | Some sv => tfe.sv_ID sv
                     | None => ""
                     end;
                   HasState :=
                     match tfe.CurrentStateVersion ws with
                     | Some _ => true
                     | None => false
                     end |}])%list)
    items acc
  = (acc ++ map reported items)%list.
Proof.
  revert acc. induction items as [|ws items IH]; intros acc; cbn [fold_left map].
  - now rewrite app_nil_r.
  - rewrite IH, <- app_assoc. reflexivity.
Qed.

Lemma ListWorkspaces_loop_walk (c : Client) (p : Z) (pages : list (list tfe.Workspace))
    (r : option error) :
  Walk c p pages r ->
  forall (fuel : nat) (acc : list Workspace),
  (length pages < fuel)%nat ->
  ListWorkspaces_loop c fuel (pageRequest p) acc
  = Some match r with
         | None => inr (acc ++ map reported (concat pages))%list
         | Some e => inl (Wrap "erro ao listar workspaces" e)
         end.
Proof.
  induction 1 as [p l Hl Hn | p e Hl | p l pages r Hl Hn _ IH]; intros fuel acc Hf;
    (destruct fuel as [|fuel]; [simpl in Hf; lia |]); cbn [ListWorkspaces_loop];
    rewrite Hl; [| reflexivity |].
  - cbv zeta. rewrite convert_fold, Hn. cbn [Z.eqb concat]. now rewrite app_nil_r.
  - cbv zeta. rewrite convert_fold.
    destruct (Z.eqb_spec (tfe.NextPage l) 0) as [? | _]; [contradiction |].
    change {| tfe.PageNumber := tfe.NextPage l; tfe.PageSize := tfe.PageSize (pageRequest p) |}
      with (pageRequest (tfe.NextPage l)).
    rewrite IH by (simpl in Hf; lia). destruct r; [reflexivity |].
    cbn [concat]. now rewrite map_app, app_assoc.
Qed.

(** X19.  The listing, page by page.  [ListWorkspaces] first requests page
    0 with a page size of 100 and then the page that the page before
    announced.  When the last page announces no next page, it returns the
    workspaces of all the pages, in order, each reported with [HasState]
    set exactly when it has a current state version; when a request
    fails, it returns that error wrapped and no workspace, not even those
    of the pages already read. *)
Theorem ListWorkspaces_pages (c : Client) (pages : list (list tfe.Workspace))
    (r : option error) (fuel : nat) :
  Walk c 0 pages r ->
  (length pages < fuel)%nat ->
  ListWorkspaces c fuel
  = Some match r with
         | None => inr (map reported (concat pages))
         | Some e => inl (Wrap "erro ao listar workspaces" e)
         end.
Proof.
  intros W Hf. unfold ListWorkspaces.
  exact (ListWorkspaces_loop_walk c 0 pages r W fuel [] Hf).
Qed.

(** X20.  A listing without end.  The loop of [ListWorkspaces] has no
    bound of its own: when every answer of the API announces a next page,
    [ListWorkspaces] does not return, however many requests it is
    allowed. *)
Theorem ListWorkspaces_endless (c : Client) :
  (forall o, exists l,
      tfe.Workspaces_List (client c) (organization c) o = inr l /\ tfe.NextPage l <> 0) ->
  forall fuel, ListWorkspaces c fuel = None.
Proof.
  intros H fuel. unfold ListWorkspaces.
  generalize {| tfe.PageNumber := 0; tfe.PageSize := 100 |} as o.
  generalize (@nil Workspace) as acc.
  induction fuel as [|fuel IH]; intros acc o; [reflexivity |]. cbn [ListWorkspaces_loop].
  destruct (H o) as (l & -> & Hn). cbv zeta.
  destruct (Z.eqb_spec (tfe.NextPage l) 0) as [? | _]; [contradiction |]. apply IH.
Qed.

(** X21.  The state that is fetched.  When [GetWorkspaceState] returns a
    state, the workspace has a current state version, the download URL of
    that version is not empty, and the content is the body served at that
    URL; the name, the state id and the version are those of the
    workspace and of the state version; and the metadata have, each once,
    the eight keys of [metadataKeys], followed by "vcs_commit_sha"
    exactly when the state version has one, with the id of the workspace,
    the state id, the version, the organization of the client and the
    source "terraform_cloud" as values. *)
Theorem GetWorkspaceState_data (c : Client) (workspaceID : string) (sd : StateData) :
  GetWorkspaceState c workspaceID = inr sd ->
  exists workspace stateVersion,
    tfe.Workspaces_ReadByID (client c) workspaceID = inr workspace
    /\ tfe.CurrentStateVersion workspace <> None
    /\ tfe.StateVersions_ReadCurrent (client c) workspaceID = inr stateVersion
    /\ tfe.DownloadURL stateVersion <> ""
    /\ tfe.http_Get (client c) (tfe.DownloadURL stateVersion) = inr (inr (StateContent sd))
    /\ WorkspaceName sd = tfe.ws_Name workspace
    /\ StateID sd = tfe.sv_ID stateVersion
    /\ Version sd = tfe.Serial stateVersion
    /\ NoDup (map fst (Metadata sd))
    /\ map fst (Metadata sd)
       = (metadataKeys ++ if String.eqb (tfe.VCSCommitSHA stateVersion) "" then []
                          else ["vcs_commit_sha"])%list
    /\ metadataValue "workspace_id" (Metadata sd) = Some (s3client.JString (tfe.ws_ID workspace))
    /\ metadataValue "state_version_id" (Metadata sd) = Some (s3client.JString (StateID sd))
    /\ metadataValue "serial" (Metadata sd) = Some (s3client.JInt (Version sd))
    /\ metadataValue "organization" (Metadata sd) = Some (s3client.JString (organization c))
    /\ metadataValue "source" (Metadata sd) = Some (s3client.JString "terraform_cloud").
Proof.
  unfold GetWorkspaceState.
  destruct (tfe.Workspaces_ReadByID (client c) workspaceID) as [e | workspace] eqn:Rd;
    [discriminate |].
  destruct (tfe.CurrentStateVersion workspace) as [sv0 |] eqn:Cs; [| discriminate].
  destruct (tfe.StateVersions_ReadCurrent (client c) workspaceID) as [e | stateVersion]
    eqn:Rc; [discriminate |].
  cbv zeta. destruct (String.eqb_spec (tfe.DownloadURL stateVersion) "") as [? | Hurl];
    [discriminate |].
  destruct (tfe.http_Get (client c) (tfe.DownloadURL stateVersion)) as [e | [e | body]]
    eqn:Dl; try discriminate.
  intros [= <-]. exists workspace, stateVersion.
  cbn [WorkspaceName StateContent Version StateID Metadata].
  split; [reflexivity |]. split; [rewrite Cs; discriminate |].
  split; [reflexivity |]. split; [exact Hurl |]. split; [exact Dl |].
  do 3 (split; [reflexivity |]).
  destruct (String.eqb (tfe.VCSCommitSHA stateVersion) ""); cbn [negb app map fst];
    (split; [apply (bool_decide_unpack _); vm_compute; exact I |]);
    repeat split; reflexivity.
Qed.

End ClientFacts.

(** ** Upload, then look up *)

Section S3RoundTrip.
Import GoStr s3client.

(** Once the first [PutObject] of [UploadState] went through, the state
    key holds an object, whatever happens afterwards. *)
Lemma UploadState_state_present (c : Client) (organization workspaceName stateContent : string)
    (metadata : list (string * jsonValue)) (w : S3) :
  putFault (sdk c) (putCount w) = None ->
  is_Some (objects (fst (UploadState c organization workspaceName stateContent metadata w))
             !! generateStateKey c organization workspaceName "terraform.tfstate").
Proof.
  intros F1. unfold UploadState, uploadFile, PutObject. rewrite F1. cbn.
  destruct (MarshalIndent (sdk c) metadata) as [e | json]; cbn.
  - rewrite lookup_insert_eq. eauto.
  - destruct (putFault (sdk c) (S (putCount w))); cbn.
    + rewrite lookup_insert_eq. eauto.
    + set (ks := generateStateKey c organization workspaceName "terraform.tfstate").
      set (km := generateStateKey c organization workspaceName "metadata.json").
      destruct (decide (km = ks)) as [-> | N].
      * rewrite lookup_insert_eq. eauto.
      * rewrite lookup_insert_ne by assumption. rewrite lookup_insert_eq. eauto.
Qed.

Lemma UploadState_ok_first_put (c : Client) (organization workspaceName stateContent : string)
    (metadata : list (string * jsonValue)) (w : S3) :
  snd (UploadState c organization workspaceName stateContent metadata w) = None ->
  putFault (sdk c) (putCount w) = None.
Proof.
  unfold UploadState, uploadFile, PutObject.
  destruct (putFault (sdk c) (putCount w)); [discriminate | reflexivity].
Qed.

Lemma CheckStateExists_present (c : Client) (organization workspaceName : string) (w : S3) :
  headFault (sdk c) (generateStateKey c organization workspaceName "terraform.tfstate") = None ->
  is_Some (objects w !! generateStateKey c organization workspaceName "terraform.tfstate") ->
  snd (CheckStateExists c organization workspaceName w) = (true, None).
Proof.
  intros H [o L]. unfold CheckStateExists, HeadObject. now rewrite H, L.
Qed.

(** X1.  Upload, then look up.  After an [UploadState] that returned nil,
    [CheckStateExists] for the same organization and workspace name
    answers (true, nil), unless its [HeadObject] request itself fails.
    This holds for every workspace name: both methods build the key with
    the same [generateStateKey]. *)
Theorem UploadState_then_CheckStateExists (c : Client)
    (organization workspaceName stateContent : string)
    (metadata : list (string * jsonValue)) (w : S3) :
  let r := UploadState c organization workspaceName stateContent metadata w in
  snd r = None ->
  headFault (sdk c) (generateStateKey c organization workspaceName "terraform.tfstate") = None ->
  snd (CheckStateExists c organization workspaceName (fst r)) = (true, None).
Proof.
  intros r Hok Hh. apply CheckStateExists_present; [exact Hh |].
  apply UploadState_state_present. now apply UploadState_ok_first_put in Hok.
Qed.

(** X2.  A half-done upload looks done.  When the [PutObject] of the state
    goes through and [UploadState] still returns an error, the error is
    the one of the serialization of the metadata or of their upload, and
    [CheckStateExists] afterwards answers (true, nil): the state object is
    in the bucket although the upload failed. *)
Theorem UploadState_partial_then_exists (c : Client)
    (organization workspaceName stateContent : string)
    (metadata : list (string * jsonValue)) (w : S3) :
  let r := UploadState c organization workspaceName stateContent metadata w in
  putFault (sdk c) (putCount w) = None ->
  snd r <> None ->
  headFault (sdk c) (generateStateKey c organization workspaceName "terraform.tfstate") = None ->
  (exists e,
      snd r = Some (Wrap ("erro ao serializar metadados para workspace " ++ workspaceName) e)
      \/ snd r = Some (Wrap ("erro ao fazer upload dos metadados do workspace "
                             ++ workspaceName) e))
  /\ snd (CheckStateExists c organization workspaceName (fst r)) = (true, None).
Proof.
  intros r F1 Hfail Hh. split.
  - subst r. revert Hfail. unfold UploadState, uploadFile, PutObject. rewrite F1. cbn.
    destruct (MarshalIndent (sdk c) metadata) as [e | json]; cbn; [eauto |].
    destruct (putFault (sdk c) (S (putCount w))); cbn; [eauto |].
    intros N. now contradiction N.
  - apply CheckStateExists_present; [exact Hh |]. now apply UploadState_state_present.
Qed.

End S3RoundTrip.

Lemma UploadState_then_CheckStateExists_witness :
  snd (s3client.UploadState Samples.client "acme" "billing" "{}" [] s3client.emptyS3) = None
  /\ snd (s3client.CheckStateExists Samples.client "acme" "billing"
            (fst (s3client.UploadState Samples.client "acme" "billing" "{}" []
                    s3client.emptyS3)))
     = (true, None).
Proof.
  split; [reflexivity |].
  apply (UploadState_then_CheckStateExists Samples.client "acme" "billing" "{}" []
           s3client.emptyS3); reflexivity.
Defined.

Lemma UploadState_partial_then_exists_witness :
  let r := s3client.UploadState PartialSamples.client "acme" "billing" "{}" []
             s3client.emptyS3 in
  snd r <> None
  /\ snd (s3client.CheckStateExists PartialSamples.client "acme" "billing" (fst r))
     = (true, None).
Proof.
  intros r.
  assert (N : snd r <> None) by (vm_compute; discriminate).
  split; [exact N |].
  exact (proj2 (UploadState_partial_then_exists PartialSamples.client "acme" "billing" "{}" []
                  s3client.emptyS3 eq_refl N eq_refl)).
Defined.

(** ** What the planner keeps *)

Section PlannerFacts.
Import GoStr s3client migrator.
Context {U : Unicode}.

Lemma resolveProjects_resolved (m : Migrator) (names : list string)
    (acc : list Workspace) (nf : list string) :
  fst (resolveProjects m names acc nf) = (acc ++ resolved m names)%list.
Proof.
  revert acc nf. induction names as [|n names IH]; intros acc nf; cbn [resolveProjects resolved flat_map].
  - now rewrite app_nil_r.
  - destruct (GetWorkspaceByName (tfClient m) n) as [e | ws]; rewrite IH.
    + reflexivity.
    + now rewrite <- app_assoc.
Qed.

Lemma CheckStateExists_found (m : Migrator) (ws : Workspace) (b : S3) :
  exists err,
    CheckStateExists (s3Client m) (Organization (config m))
      (removeEnvironmentSuffix (Name ws)) b
    = ({| objects := objects b; putCount := putCount b; puts := puts b;
          heads := (heads b ++ [stateKeyOf m ws])%list |},
       (foundInBucket m b ws, err)).
Proof.
  unfold CheckStateExists, HeadObject, foundInBucket. fold (stateKeyOf m ws).
  destruct (headFault (sdk (s3Client m)) (stateKeyOf m ws));
    [| destruct (objects b !! stateKeyOf m ws)]; eauto.
Qed.

(** The sorting loop: the checks see the bucket as it was at the start. *)
Lemma analyse_filter (m : Migrator) (l : list Workspace) (acc : Analysis) (w : World) :
  let a := fst (analyse m l acc w) in
  workspacesWithState a
  = (workspacesWithState acc ++ List.filter (toMigrate m (s3 w)) l)%list
  /\ workspacesWithoutState a
     = (workspacesWithoutState acc
          ++ map Name (List.filter (fun ws => negb (HasState ws)) l))%list
  /\ existingStates a
     = (existingStates acc
          ++ map Name (List.filter (fun ws => HasState ws && foundInBucket m (s3 w) ws) l))%list.
Proof.
  revert acc w. induction l as [|ws l IH]; intros acc w; cbn [analyse].
  - cbn [List.filter map]. now rewrite !app_nil_r.
  - cbn [List.filter]. unfold toMigrate at 1.
    destruct (HasState ws); cbn [negb andb].
    + destruct (CheckStateExists_found m ws (s3 w)) as [err ->]. cbv zeta.
      destruct (foundInBucket m (s3 w) ws); cbn [negb];
        match goal with
        | |- context [analyse m l ?a ?w0] => destruct (IH a w0) as (I1 & I2 & I3)
        end;
        rewrite I1, I2, I3;
        cbn [workspacesWithState workspacesWithoutState existingStates map];
        rewrite <- ?app_assoc; repeat split; reflexivity.
    + cbv zeta.
      match goal with
      | |- context [analyse m l ?a ?w0] => destruct (IH a w0) as (I1 & I2 & I3)
      end.
      rewrite I1, I2, I3.
      cbn [workspacesWithState workspacesWithoutState existingStates map].
      rewrite <- ?app_assoc. now repeat split.
Qed.

Lemma getWorkspacesToMigrate_found (m : Migrator) (projectFilter : list string) (w : World)
    (found : list Workspace) :
  (if 0 <? lenL projectFilter then inr (resolved m projectFilter)
   else ListWorkspaces (tfClient m)) = inr found ->
  snd (getWorkspacesToMigrate m projectFilter w) = inr (List.filter (toMigrate m (s3 w)) found).
Proof.
  intros F. unfold getWorkspacesToMigrate.
  rewrite (resolveProjects_resolved m projectFilter [] []). cbn [app].
  destruct (0 <? lenL projectFilter).
  - injection F as <-.
    pose proof (analyse_filter m (resolved m projectFilter)
                  {| workspacesWithState := []; workspacesWithoutState := [];
                     existingStates := [] |} w) as (I1 & _).
    destruct (analyse m _ _ w) as [a w1]. cbn [fst] in I1. cbn [snd]. now rewrite I1.
  - rewrite F.
    pose proof (analyse_filter m found
                  {| workspacesWithState := []; workspacesWithoutState := [];
                     existingStates := [] |} w) as (I1 & _).
    destruct (analyse m _ _ w) as [a w1]. cbn [fst] in I1. cbn [snd]. now rewrite I1.
Qed.

Lemma analyse_heads (m : Migrator) (l : list Workspace) (acc : Analysis) (w : World) :
  heads (s3 (snd (analyse m l acc w)))
  = (heads (s3 w) ++ map (stateKeyOf m) (List.filter HasState l))%list.
Proof.
  revert acc w. induction l as [|ws l IH]; intros acc w; cbn [analyse List.filter map].
  - now rewrite app_nil_r.
  - destruct (HasState ws); cbn [negb]; [| apply IH].
    destruct (CheckStateExists_found m ws (s3 w)) as [err ->]. cbv zeta.
    destruct (foundInBucket m (s3 w) ws); rewrite IH; cbn [withS3 s3 heads map];
      now rewrite <- app_assoc.
Qed.

Lemma getWorkspacesToMigrate_heads (m : Migrator) (projectFilter : list string) (w : World)
    (found : list Workspace) :
  (if 0 <? lenL projectFilter then inr (resolved m projectFilter)
   else ListWorkspaces (tfClient m)) = inr found ->
  heads (s3 (fst (getWorkspacesToMigrate m projectFilter w)))
  = (heads (s3 w) ++ map (stateKeyOf m) (List.filter HasState found))%list.
Proof.
  intros F. unfold getWorkspacesToMigrate.
  rewrite (resolveProjects_resolved m projectFilter [] []). cbn [app].
  assert (E : (if 0 <? lenL projectFilter
               then inr (resolved m projectFilter)
               else match ListWorkspaces (tfClient m) with
                    | inl err => inl err
                    | inr allWorkspaces => inr allWorkspaces
                    end) = inr found).
  { destruct (0 <? lenL projectFilter); [exact F |]. now rewrite F. }
  rewrite E.
  pose proof (analyse_heads m found
                {| workspacesWithState := []; workspacesWithoutState := [];
                   existingStates := [] |} w) as H.
  destruct (analyse m found _ w) as [a w1]. cbn [snd] in H. cbn [fst].
  destruct (0 <? lenL (workspacesWithoutState a)), (0 <? lenL (existingStates a));
    cbn [emit s3]; exact H.
Qed.

(** X4.  The plan without a project filter.  When the listing succeeds,
    the plan is the listing, in its order, restricted to the workspaces
    that have a state and whose existence check does not answer "exists"
    in the bucket as it is when planning starts; a check that fails keeps
    the workspace in the plan.  Planning sends one [HeadObject] request
    per workspace with a state, in order, for the state key of its clean
    name, and leaves the objects and the [PutObject] requests of the
    bucket as they are. *)
Theorem getWorkspacesToMigrate_all (m : Migrator) (w : World) (all : list Workspace) :
  ListWorkspaces (tfClient m) = inr all ->
  let r := getWorkspacesToMigrate m [] w in
  snd r = inr (List.filter (toMigrate m (s3 w)) all)
  /\ heads (s3 (fst r))
     = (heads (s3 w) ++ map (stateKeyOf m) (List.filter HasState all))%list
  /\ objects (s3 (fst r)) = objects (s3 w)
  /\ puts (s3 (fst r)) = puts (s3 w).
Proof.
  intros L r. subst r.
  split; [now apply getWorkspacesToMigrate_found |].
  split; [now apply getWorkspacesToMigrate_heads |].
  destruct (getWorkspacesToMigrate_frame m [] w) as ((O & P & _) & _). now split.
Qed.

(** X5.  The plan with a project filter.  With a filter that is not empty
    planning never returns an error and never uses the listing: the names
    are resolved one by one, those that do not resolve are dropped, the
    order and the repetitions of the filter are kept, and the workspaces
    found are restricted as in the plan without a filter. *)
Theorem getWorkspacesToMigrate_projects (m : Migrator) (projectFilter : list string)
    (w : World) :
  projectFilter <> [] ->
  let r := getWorkspacesToMigrate m projectFilter w in
  snd r = inr (List.filter (toMigrate m (s3 w)) (resolved m projectFilter))
  /\ heads (s3 (fst r))
     = (heads (s3 w)
          ++ map (stateKeyOf m) (List.filter HasState (resolved m projectFilter)))%list.
Proof.
  intros N r. subst r.
  assert (P : (0 <? lenL projectFilter) = true).
  { destruct projectFilter; [contradiction |]. unfold lenL. simpl length. apply Z.ltb_lt. lia. }
  split.
  - apply getWorkspacesToMigrate_found. now rewrite P.
  - apply getWorkspacesToMigrate_heads. now rewrite P.
Qed.

End PlannerFacts.

Lemma getWorkspacesToMigrate_all_witness :
  snd (migrator.getWorkspacesToMigrate PlanSamples.planner [] PlanSamples.seeded)
  = inr [TaskSamples.ws "ws-2" "web" true]
  /\ s3client.heads
       (migrator.s3 (fst (migrator.getWorkspacesToMigrate PlanSamples.planner []
                            PlanSamples.seeded)))
     = ["billing/terraform.tfstate"; "web/terraform.tfstate"].
Proof.
  destruct (getWorkspacesToMigrate_all (U := asciiOnly) PlanSamples.planner PlanSamples.seeded
              PlanSamples.inventory eq_refl) as (P & H & _).
  split; [exact P | exact H].
Defined.

Lemma getWorkspacesToMigrate_projects_witness :
  snd (migrator.getWorkspacesToMigrate PlanSamples.planner ["web"; "nowhere"; "web"]
         PlanSamples.seeded)
  = inr [TaskSamples.ws "ws-2" "web" true; TaskSamples.ws "ws-2" "web" true].
Proof.
  exact (proj1 (getWorkspacesToMigrate_projects (U := asciiOnly) PlanSamples.planner
                  ["web"; "nowhere"; "web"] PlanSamples.seeded ltac:(discriminate))).
Defined.

(** ** Appending a suffix and cleaning *)

Section NormalizerRoundTrip.
Import GoStr migrator.
Context {U : Unicode}.

Lemma envSuffixes_lower (s : string) :
  s ∈ envSuffixes -> map lowerByte (bytes s) = bytes s.
Proof.
  unfold envSuffixes. rewrite !elem_of_cons, !elem_of_nil.
  intros H. repeat (destruct H as [-> | H]; [reflexivity |]). contradiction.
Qed.

Lemma forallb_isASCII_app (l k : list ascii) :
  forallb isASCII (l ++ k)%list = forallb isASCII l && forallb isASCII k.
Proof. apply forallb_app. Qed.

(** The lower-cased form of an ASCII name followed by a configured suffix
    ends in that suffix. *)
Lemma ToLower_append (base suffix : string) :
  forallb isASCII (bytes base) = true -> suffix ∈ envSuffixes ->
  HasSuffix (ToLower (base ++ suffix)%string) suffix = true.
Proof.
  intros Ha I. rewrite ToLower_ascii.
  - apply HasSuffix_suffix. rewrite bytes_str, bytes_app, map_app, (envSuffixes_lower _ I).
    now exists (map lowerByte (bytes base)).
  - rewrite bytes_app, forallb_isASCII_app, Ha. now apply envSuffixes_ascii.
Qed.

Lemma removeEnvironmentSuffix_match (name suffix : string) :
  suffix ∈ envSuffixes -> HasSuffix (ToLower name) suffix = true ->
  removeEnvironmentSuffix name = slice_to name (len name - len suffix).
Proof.
  intros I E. unfold removeEnvironmentSuffix. rewrite loop_first_match.
  destruct (matching_at_most_one (ToLower name)) as [F | [s F]]; rewrite F.
  - assert (M : suffix ∈ filter (fun s => HasSuffix (ToLower name) s = true) envSuffixes)
      by now apply list_elem_of_filter.
    rewrite F in M. now apply elem_of_nil in M.
  - assert (M : s ∈ filter (fun s => HasSuffix (ToLower name) s = true) envSuffixes)
      by (rewrite F; left).
    apply list_elem_of_filter in M as [Es Is].
    now rewrite (match_unique (ToLower name) s suffix).
Qed.

Lemma removeEnvironmentSuffix_cut (base suffix : string) :
  forallb isASCII (bytes base) = true -> suffix ∈ envSuffixes ->
  removeEnvironmentSuffix (base ++ suffix)%string = base.
Proof.
  intros Ha I.
  rewrite (removeEnvironmentSuffix_match _ suffix I (ToLower_append base suffix Ha I)).
  unfold slice_to. rewrite !len_bytes, bytes_app, length_app.
  replace (Z.to_nat _) with (length (bytes base)) by lia.
  now rewrite take_app_length, str_bytes.
Qed.

Lemma append_assoc (a b c : string) : (a ++ (b ++ c))%string = ((a ++ b) ++ c)%string.
Proof.
  induction a as [|ch a IH]; [reflexivity |].
  change (String ch (a ++ (b ++ c)) = String ch ((a ++ b) ++ c)). now f_equal.
Qed.

(** X3.  Appending a suffix and cleaning.  For a name [base] of ASCII bytes
    and suffixes [s1] and [s2] of the list that [removeEnvironmentSuffix]
    tries: cleaning [base ++ s1] gives
    [base] back; only one suffix is removed, so cleaning [base ++ s1 ++ s2]
    gives [base ++ s1]; and [base ++ s1] and [base ++ s2] have the same
    clean name. *)
Theorem removeEnvironmentSuffix_append (base s1 s2 : string) :
  forallb isASCII (bytes base) = true ->
  s1 ∈ envSuffixes -> s2 ∈ envSuffixes ->
  removeEnvironmentSuffix (base ++ s1)%string = base
  /\ removeEnvironmentSuffix (base ++ s1 ++ s2)%string = (base ++ s1)%string
  /\ removeEnvironmentSuffix (base ++ s1)%string = removeEnvironmentSuffix (base ++ s2)%string.
Proof.
  intros Ha I1 I2. split; [| split].
  - now apply removeEnvironmentSuffix_cut.
  - rewrite append_assoc. apply removeEnvironmentSuffix_cut; [| exact I2].
    rewrite bytes_app, forallb_isASCII_app, Ha. now apply envSuffixes_ascii.
  - now rewrite !removeEnvironmentSuffix_cut.
Qed.

End NormalizerRoundTrip.

Lemma removeEnvironmentSuffix_append_witness :
  migrator.removeEnvironmentSuffix "Billing-staging" = "Billing"
  /\ migrator.removeEnvironmentSuffix "Billing-staging-dev" = "Billing-staging"
  /\ migrator.removeEnvironmentSuffix "Billing-staging" = migrator.removeEnvironmentSuffix "Billing-dev".
Proof.
  apply (removeEnvironmentSuffix_append (U := asciiOnly) "Billing" "-staging" "-dev").
  - reflexivity.
  - unfold migrator.envSuffixes. set_solver.
  - unfold migrator.envSuffixes. set_solver.
Defined.

(** ** What a task does to the bucket *)

Section Bucket.
Import GoStr s3client migrator.
Context {U : Unicode}.

(** What [UploadState] can do to the objects of the bucket. *)
Lemma UploadState_objects (c : s3client.Client) (organization workspaceName stateContent : string)
    (metadata : list (string * jsonValue)) (b : S3) :
  let ks := generateStateKey c organization workspaceName "terraform.tfstate" in
  let km := generateStateKey c organization workspaceName "metadata.json" in
  let so := stateObject organization workspaceName stateContent in
  let r := UploadState c organization workspaceName stateContent metadata b in
  (snd r <> None
   /\ (objects (fst r) = objects b \/ objects (fst r) = <[ks := so]> (objects b)))
  \/ (snd r = None
      /\ exists json,
           MarshalIndent (sdk c) metadata = inr json
           /\ objects (fst r)
              = <[km := metadataObject organization workspaceName json]>
                  (<[ks := so]> (objects b))).
Proof.
  cbv zeta. unfold UploadState, uploadFile, PutObject.
  destruct (putFault (sdk c) (putCount b)); cbn.
  { left. split; [discriminate | now left]. }
  destruct (MarshalIndent (sdk c) metadata) as [e | json]; cbn.
  { left. split; [discriminate | now right]. }
  destruct (putFault (sdk c) (S (putCount b))); cbn.
  { left. split; [discriminate | now right]. }
  right. split; [reflexivity |]. now exists json.
Qed.

(** The retry loop keeps what every upload keeps and, when it ends
    without error after at least one attempt, leaves what a successful
    upload leaves. *)
Lemma uploadLoop_bucket (P Qs : S3 -> Prop) (m : Migrator) (workspace : Workspace)
    (stateName : string) (stateData : StateData) :
  (forall b, P b ->
     P (fst (UploadState (s3Client m) (Organization (config m)) stateName
               (StateContent stateData) (terraform.Metadata stateData) b))) ->
  (forall b, P b ->
     snd (UploadState (s3Client m) (Organization (config m)) stateName
            (StateContent stateData) (terraform.Metadata stateData) b) = None ->
     Qs (fst (UploadState (s3Client m) (Organization (config m)) stateName
                (StateContent stateData) (terraform.Metadata stateData) b))) ->
  forall (fuel : nat) (a : Z) (e0 : option error) (w : World),
  P (s3 w) ->
  let r := uploadLoop m workspace stateName stateData fuel a e0 w in
  P (s3 (fst r))
  /\ (snd r = None -> e0 = None \/ Qs (s3 (fst r)))
  /\ ((0 < fuel)%nat -> a <= RetryAttempts (config m) -> snd r = None -> Qs (s3 (fst r))).
Proof.
  intros HP HQ. induction fuel as [|fuel IH]; intros a e0 w Hw; cbn [uploadLoop].
  - cbn [fst snd]. split; [exact Hw | split; [now left | lia]].
  - destruct (Z.leb_spec a (RetryAttempts (config m))) as [Hle | Hgt].
    2:{ cbn [fst snd]. split; [exact Hw | split; [now left | lia]]. }
    pose proof (HP (s3 w) Hw) as HP1. pose proof (HQ (s3 w) Hw) as HQ1.
    destruct (UploadState _ _ _ _ _ (s3 w)) as [s3' [e |]]; cbn [fst snd] in HP1, HQ1.
    + cbv zeta.
      match goal with
      | |- context [uploadLoop _ _ _ _ fuel ?a' ?e' ?w'] =>
          destruct (IH a' e' w') as (I1 & I2 & _)
      end.
      { destruct (a <? RetryAttempts (config m)); exact HP1. }
      split; [exact I1 |].
      split; [intros N; right | intros _ _ N];
        (destruct (I2 N) as [D | D]; [discriminate | exact D]).
    + cbn [fst snd emit withS3 s3].
      split; [exact HP1 | split; [intros _; right; now apply HQ1 | intros _ _ _; now apply HQ1]].
Qed.

Lemma migrateWorkspace_bucket (P Qs : S3 -> Prop) (m : Migrator) (ws : Workspace)
    (dryRun : bool) (w : World) :
  (forall sd b, GetWorkspaceState (tfClient m) (ID ws) = inr sd -> P b ->
     P (fst (UploadState (s3Client m) (Organization (config m))
               (removeEnvironmentSuffix (Name ws))
               (StateContent sd) (terraform.Metadata sd) b))) ->
  (forall sd b, GetWorkspaceState (tfClient m) (ID ws) = inr sd -> P b ->
     snd (UploadState (s3Client m) (Organization (config m))
            (removeEnvironmentSuffix (Name ws))
            (StateContent sd) (terraform.Metadata sd) b) = None ->
     Qs (fst (UploadState (s3Client m) (Organization (config m))
                (removeEnvironmentSuffix (Name ws))
                (StateContent sd) (terraform.Metadata sd) b))) ->
  P (s3 w) ->
  let r := migrateWorkspace m ws dryRun w in
  P (s3 (fst r))
  /\ (dryRun = false -> 1 <= RetryAttempts (config m) -> snd r = None -> Qs (s3 (fst r))).
Proof.
  intros HP HQ Hw. unfold migrateWorkspace.
  destruct (GetWorkspaceState (tfClient m) (ID ws)) as [err | sd] eqn:G.
  - cbn [fst snd emit s3]. split; [exact Hw | discriminate].
  - destruct dryRun.
    + cbn [fst snd emit s3]. split; [exact Hw | discriminate].
    + pose proof (uploadLoop_bucket P Qs m ws (removeEnvironmentSuffix (Name ws)) sd
                    (fun b => HP sd b eq_refl) (fun b => HQ sd b eq_refl)
                    (Z.to_nat (RetryAttempts (config m))) 1 None
                    (emit (CallGetWorkspaceState (ID ws) true) w) Hw) as (I1 & _ & I3).
      destruct (uploadLoop _ _ _ _ _ _ _ _) as [w1 [e |]]; cbn [fst snd] in *.
      * split; [exact I1 | discriminate].
      * split; [exact I1 |]. intros _ HR _. apply I3; [lia | lia | reflexivity].
Qed.

End Bucket.

(** ** Outcomes and the world, jointly *)

Section JointBatch.
Import GoStr migrator.
Context {U : Unicode}.
Variable m : Migrator.
Variable dryRun : bool.
Variable batch : list Workspace.
Variable R : Workspace -> option error -> World -> Prop.
Variable WI : World -> Prop.

Hypothesis R_new : forall ws w, ws ∈ batch -> WI w ->
  R ws (snd (migrateWorkspace m ws dryRun w)) (fst (migrateWorkspace m ws dryRun w)).
Hypothesis R_mono : forall ws e ws' w, ws' ∈ batch -> WI w -> R ws e w ->
  R ws e (fst (migrateWorkspace m ws' dryRun w)).
Hypothesis WI_kept : forall ws w, ws ∈ batch -> WI w ->
  WI (fst (migrateWorkspace m ws dryRun w)).

(** What links the outcome that a goroutine holds to the world of the
    batch: [R ws e w] is a property of the result [e] of the task of [ws]
    that later tasks keep. *)
Definition Joint (w0 : World) (b : BatchState) : Prop :=
  map fst (tasks b) = batch
  /\ WI (world b)
  /\ (forall ws e, R ws e w0 -> R ws e (world b))
  /\ Forall (fun t => forall e, outcomeOf (snd t) = Some e -> R (fst t) e (world b)) (tasks b).

Lemma spawn_joint (st : MigrationStats) (w : World) : WI w -> Joint w (spawn batch st w).
Proof.
  intros Hw. unfold Joint, spawn. cbn [tasks world].
  split; [rewrite map_map; apply map_id |]. split; [exact Hw |]. split; [auto |].
  apply Forall_forall. intros t Ht e. apply list_elem_of_In, in_map_iff in Ht.
  destruct Ht as (ws & <- & _). discriminate.
Qed.

Lemma step_joint (w0 : World) (i : nat) (b : BatchState) :
  Joint w0 b -> Joint w0 (step m dryRun i b).
Proof.
  intros (Hws & Hw & Hst & Hout). unfold step.
  destruct (tasks b !! i) as [[ws p] |] eqn:L; [| now repeat split].
  assert (Hmap : forall p', map fst (<[i := (ws, p')]> (tasks b)) = batch).
  { intros p'. now rewrite (map_fst_insert _ _ _ _ _ L). }
  assert (Hin : ws ∈ batch).
  { rewrite <- Hws. apply list_elem_of_In, in_map_iff.
    exists (ws, p). split; [reflexivity |].
    apply list_elem_of_In, list_elem_of_lookup. eauto. }
  pose proof (Forall_lookup_1 _ _ _ _ Hout L) as Qold. cbn [fst snd] in Qold.
  destruct p as [| | err | err | err].
  - destruct (semLen b <? ConcurrentUploads (config m)); [| now repeat split].
    unfold Joint. cbn [tasks world].
    split; [apply Hmap | split; [exact Hw | split; [exact Hst |]]].
    apply Forall_insert; [exact Hout | discriminate].
  - pose proof (R_new ws (world b) Hin Hw) as Hn.
    pose proof (WI_kept ws (world b) Hin Hw) as Hk.
    pose proof (fun ws0 e => R_mono ws0 e ws (world b) Hin Hw) as Hm.
    destruct (migrateWorkspace m ws dryRun (world b)) as [w' err]. cbn [fst snd] in *.
    unfold Joint. cbn [tasks world].
    split; [apply Hmap | split; [exact Hk | split; [intros ws0 e H; apply Hm, Hst, H |]]].
    apply Forall_insert.
    + eapply Forall_impl; [exact Hout |]. intros t Ht e He. apply Hm. now apply Ht.
    + intros e [= <-]. exact Hn.
  - unfold Joint. cbn [tasks world].
    split; [apply Hmap | split; [exact Hw | split; [exact Hst |]]].
    apply Forall_insert; [exact Hout |]. intros e [= <-]. now apply Qold.
  - unfold Joint. cbn [tasks world].
    split; [apply Hmap | split; [exact Hw | split; [exact Hst |]]].
    apply Forall_insert; [exact Hout |]. intros e [= <-]. now apply Qold.
  - now repeat split.
Qed.

Lemma runSchedule_joint (w0 : World) (sched : list nat) (b : BatchState) :
  Joint w0 b -> Joint w0 (runSchedule m dryRun sched b).
Proof.
  unfold runSchedule. revert b. induction sched as [|i sched IH]; intros b J; [exact J |].
  simpl. apply IH. now apply step_joint.
Qed.

(** When [processBatch] returns, every workspace of the batch has an
    outcome; the statistics count these outcomes, and each is linked to
    the world by [R]. *)
Lemma processBatch_joint (options : MigrationOptions) (st : MigrationStats) (w : World)
    (sched : list nat) (st' : MigrationStats) (w' : World) :
  DryRun options = dryRun ->
  0 <= Successful st -> 0 <= Failed st ->
  Successful st + Failed st + lenL batch <= GoInt.max_int ->
  WI w ->
  processBatch m batch options st w sched = Returned (st', w') ->
  exists outs,
    Forall2 (fun ws e => R ws e w') batch outs
    /\ Successful st' = Successful st + countZ isNil outs
    /\ Failed st' = Failed st + countZ isErr outs
    /\ WI w'
    /\ (forall ws e, R ws e w -> R ws e w').
Proof.
  intros Hd H1 H2 H3 Hw. unfold processBatch. rewrite Hd.
  destruct (ConcurrentUploads (config m) <? 0); [discriminate |].
  pose proof (runSchedule_inv m dryRun batch st (fun _ _ => True) (fun _ => True)
                H1 H2 H3 (fun _ _ _ => I) (fun _ _ _ => I) sched _
                (spawn_inv m batch st (fun _ _ => True) (fun _ => True) w I)) as In.
  pose proof (runSchedule_joint w sched _ (spawn_joint st w Hw)) as (Jws & Jw & Jst & Jout).
  destruct (forallb isFinished _) eqn:Hf; [| discriminate].
  intros [= <- <-].
  destruct (finished_outcomes
              (fun ws e => R ws e (world (runSchedule m dryRun sched (spawn batch st w))))
              _ Hf Jout) as (F & Co & Ce).
  exists (map finalOutcome (tasks (runSchedule m dryRun sched (spawn batch st w)))).
  rewrite Jws in F. rewrite <- Co, <- Ce.
  destruct In. now repeat split.
Qed.

End JointBatch.

Section JointRun.
Import GoStr migrator.
Context {U : Unicode}.
Variable m : Migrator.
Variable rt : Runtime.
Variable workspaces : list Workspace.
Variable options : MigrationOptions.
Variable R : Workspace -> option error -> World -> Prop.
Variable WI : World -> Prop.

Let B := BatchSize (config m).
Let n := lenL workspaces.

Hypothesis B_range : 0 < B <= GoInt.max_int.
Hypothesis n_range : n <= maxLen.
Hypothesis R_new : forall ws w, ws ∈ workspaces -> WI w ->
  R ws (snd (migrateWorkspace m ws (DryRun options) w))
    (fst (migrateWorkspace m ws (DryRun options) w)).
Hypothesis R_mono : forall ws e ws' w, ws' ∈ workspaces -> WI w -> R ws e w ->
  R ws e (fst (migrateWorkspace m ws' (DryRun options) w)).
Hypothesis R_main : forall ws e ev w, isMainEvent ev = true -> R ws e w -> R ws e (emit ev w).
Hypothesis WI_task : forall ws w, ws ∈ workspaces -> WI w ->
  WI (fst (migrateWorkspace m ws (DryRun options) w)).
Hypothesis WI_main : forall ev w, isMainEvent ev = true -> WI w -> WI (emit ev w).

(** One iteration of the loop of [processBatches], with the index
    arithmetic carried out. *)
Lemma loop_unfold (T : Z) (fuel : nat) (k : Z) (st : MigrationStats) (w : World) :
  0 <= k -> k * B < n ->
  processBatches_loop m rt workspaces options T (S fuel) (k * B) st w
  = let batch := take (Z.to_nat B) (drop (Z.to_nat (k * B)) workspaces) in
    match processBatch m batch options st (emit (CallProcessBatch (k + 1) batch) w)
            (schedule rt (k + 1)) with
    | Returned (st', w2) =>
        processBatches_loop m rt workspaces options T fuel ((k + 1) * B) st'
          (if k + 1 <? T then emit (Sleep Main (1 * Second)) w2 else w2)
    | Panicked msg => Panicked msg
    | Joining b => Joining b
    | OutOfFuel => OutOfFuel
    end.
Proof.
  intros Hk Hlt. cbn [processBatches_loop]. fold n. fold B.
  destruct (Z.ltb_spec (k * B) n) as [_ | Hge]; [| lia].
  assert (Hi : 0 <= k * B) by nia.
  assert (Hfit : k * B + B <= GoInt.max_int).
  { unfold maxLen, GoInt.max_int in *. destruct (Z.eq_dec k 0) as [-> | Hk0]; [lia |].
    assert (B <= k * B) by nia. lia. }
  destruct (take_batch m workspaces B_range (k * B) (conj Hi Hlt) Hfit) as [Hpanic Hbatch].
  cbv zeta in Hpanic, Hbatch. fold n B in Hpanic, Hbatch. rewrite Hpanic, Hbatch.
  assert (Hnum : GoInt.add (GoInt.quo (k * B) B) 1 = k + 1).
  { unfold GoInt.quo. rewrite Z.quot_mul by lia.
    assert (k <= k * B) by nia.
    rewrite wrap_id by (unfold maxLen, GoInt.min_int, GoInt.max_int in *; lia).
    apply add_id. unfold maxLen, GoInt.min_int, GoInt.max_int in *. lia. }
  rewrite Hnum.
  rewrite add_id by (unfold GoInt.min_int, GoInt.max_int in *; lia).
  replace (k * B + B) with ((k + 1) * B) by ring.
  reflexivity.
Qed.

Lemma loop_joint (T : Z) (fuel : nat) :
  forall (k : Z) (st : MigrationStats) (w : World) (st' : MigrationStats) (w' : World),
  0 <= k -> n - k * B <= Z.of_nat fuel ->
  0 <= Successful st -> 0 <= Failed st ->
  Successful st + Failed st + Z.max 0 (n - k * B) <= GoInt.max_int ->
  WI w ->
  processBatches_loop m rt workspaces options T fuel (k * B) st w = Returned (st', w') ->
  exists outs,
    Forall2 (fun ws e => R ws e w') (drop (Z.to_nat (k * B)) workspaces) outs
    /\ Successful st' = Successful st + countZ isNil outs
    /\ Failed st' = Failed st + countZ isErr outs
    /\ WI w'
    /\ (forall ws e, R ws e w -> R ws e w').
Proof.
  induction fuel as [|fuel IH]; intros k st w st' w' Hk Hfuel HS HF Hroom Hw.
  - cbn [processBatches_loop]. fold n.
    destruct (Z.ltb_spec (k * B) n) as [Hlt | Hge]; [lia |].
    intros [= <- <-]. exists []. rewrite drop_ge by (unfold n, lenL in Hge; lia).
    cbn [countZ]. repeat split; auto; lia.
  - destruct (Z.ltb_spec (k * B) n) as [Hlt | Hge].
    2:{ cbn [processBatches_loop]. fold n.
        destruct (Z.ltb_spec (k * B) n) as [? | _]; [lia |].
        intros [= <- <-]. exists []. rewrite drop_ge by (unfold n, lenL in Hge; lia).
        cbn [countZ]. repeat split; auto; lia. }
    rewrite loop_unfold by assumption. cbv zeta.
    assert (Hi : 0 <= k * B) by nia.
    set (i' := Z.to_nat (k * B)). set (B' := Z.to_nat B).
    set (batch := take B' (drop i' workspaces)).
    assert (Hsplit : drop i' workspaces
                     = (batch ++ drop (Z.to_nat ((k + 1) * B)) workspaces)%list).
    { subst batch. rewrite <- (take_drop B' (drop i' workspaces)) at 1.
      rewrite drop_drop. do 2 f_equal. subst i' B'. lia. }
    assert (Hlen : lenL batch = Z.min B (n - k * B)).
    { subst batch. unfold lenL. rewrite length_take, length_drop.
      subst i' B'. unfold n, lenL in *. lia. }
    assert (Hsub : forall ws, ws ∈ batch -> ws ∈ workspaces).
    { intros ws Hws. subst batch. apply subseteq_take in Hws. now apply subseteq_drop in Hws. }
    set (w1 := emit (CallProcessBatch (k + 1) batch) w).
    assert (Hw1 : WI w1) by now apply WI_main.
    destruct (processBatch m batch options st w1 (schedule rt (k + 1)))
      as [[st1 w2] | msg | b |] eqn:PB; try discriminate.
    destruct (processBatch_joint m (DryRun options) batch R WI
                (fun ws w0 Hin => R_new ws w0 (Hsub ws Hin))
                (fun ws e ws' w0 Hin => R_mono ws e ws' w0 (Hsub ws' Hin))
                (fun ws w0 Hin => WI_task ws w0 (Hsub ws Hin))
                options st w1 (schedule rt (k + 1)) st1 w2 eq_refl HS HF
                ltac:(lia) Hw1 PB) as (outs1 & F1 & S1 & E1 & Hw2 & St1).
    pose proof (countZ_bounds isNil outs1) as [Hn1 _].
    pose proof (countZ_bounds isErr outs1) as [He1 _].
    pose proof (outcomes_total outs1) as Ho.
    assert (Hlo : lenL outs1 = lenL batch).
    { unfold lenL. now rewrite <- (Forall2_length _ _ _ F1). }
    set (w3 := if k + 1 <? T then emit (Sleep Main (1 * Second)) w2 else w2).
    assert (Hw3 : WI w3).
    { subst w3. destruct (k + 1 <? T); [now apply WI_main | exact Hw2]. }
    assert (St3 : forall ws e, R ws e w2 -> R ws e w3).
    { intros ws e H. subst w3. destruct (k + 1 <? T); [now apply R_main | exact H]. }
    intros Hloop.
    destruct (IH (k + 1) st1 w3 st' w' ltac:(lia) ltac:(lia) ltac:(lia) ltac:(lia)
                ltac:(lia) Hw3 Hloop) as (outs2 & F2 & S2 & E2 & Hw' & St').
    exists (outs1 ++ outs2)%list. rewrite !countZ_app.
    split; [| split; [lia | split; [lia | split; [exact Hw' |]]]].
    + fold i'. rewrite Hsplit. apply Forall2_app; [| exact F2].
      eapply Forall2_impl; [exact F1 |]. intros ws e H. cbn beta in H. apply St', St3, H.
    + intros ws e H. apply St', St3, St1. subst w1. now apply R_main.
Qed.

Lemma processBatches_joint (st : MigrationStats) (w : World) (st' : MigrationStats)
    (w' : World) :
  0 <= Successful st -> 0 <= Failed st ->
  Successful st + Failed st + n <= GoInt.max_int ->
  WI w ->
  processBatches m rt workspaces options st w = Returned (st', w') ->
  exists outs,
    Forall2 (fun ws e => R ws e w') workspaces outs
    /\ Successful st' = Successful st + countZ isNil outs
    /\ Failed st' = Failed st + countZ isErr outs
    /\ WI w'.
Proof.
  intros HS HF Hroom Hw. unfold processBatches. fold B. fold n.
  destruct (Z.eqb_spec B 0) as [E | _]; [lia |].
  assert (Hn0 : 0 <= n) by (unfold n, lenL; lia).
  intros H.
  pose proof (loop_joint (GoInt.quo (GoInt.sub (GoInt.add n B) 1) B)
                (List.length workspaces) 0 st w st' w') as L.
  rewrite Z.mul_0_l, Z.sub_0_r, Z.max_r in L by lia. cbn [Z.to_nat drop] in L.
  destruct L as (outs & F & S1 & E1 & Hw' & _); try assumption; try lia.
  - unfold n, lenL. lia.
  - exists outs. now repeat split.
Qed.

End JointRun.

Section JointMigrate.
Import GoStr migrator.
Context {U : Unicode}.
Variable m : Migrator.
Variable rt : Runtime.
Variable options : MigrationOptions.
Variable w : World.
Variable workspaces : list Workspace.
Variable w1 : World.
Variable R : Workspace -> option error -> World -> Prop.
Variable WI : World -> Prop.

Hypothesis validated : ValidateConnections m = None.
Hypothesis planned :
  getWorkspacesToMigrate m (Projects options) (fst (Now rt w)) = (w1, inr workspaces).
Hypothesis B_range : 0 < BatchSize (config m) <= GoInt.max_int.
Hypothesis n_range : lenL workspaces <= maxLen.
Hypothesis R_new : forall ws w, ws ∈ workspaces -> WI w ->
  R ws (snd (migrateWorkspace m ws (DryRun options) w))
    (fst (migrateWorkspace m ws (DryRun options) w)).
Hypothesis R_mono : forall ws e ws' w, ws' ∈ workspaces -> WI w -> R ws e w ->
  R ws e (fst (migrateWorkspace m ws' (DryRun options) w)).
Hypothesis R_main : forall ws e ev w, isMainEvent ev = true -> R ws e w -> R ws e (emit ev w).
Hypothesis WI_task : forall ws w, ws ∈ workspaces -> WI w ->
  WI (fst (migrateWorkspace m ws (DryRun options) w)).
Hypothesis WI_main : forall ev w, isMainEvent ev = true -> WI w -> WI (emit ev w).
Hypothesis WI_start : WI w1.

(** A run that returned: either nothing was planned, or every planned
    workspace has an outcome that the statistics count and that [R] links
    to the world in which the batches ended. *)
Lemma Migrate_joint (o : Outcome) :
  Migrate m rt options w = Returned o ->
  (lenL workspaces = 0 /\ o = emptyPlan rt w workspaces w1)
  \/ (0 < lenL workspaces
      /\ exists st2 w2 outs,
           o = finish rt options st2 w2
           /\ Forall2 (fun ws e => R ws e w2) workspaces outs
           /\ Successful st2 = countZ isNil outs
           /\ Failed st2 = countZ isErr outs
           /\ WI w2).
Proof.
  rewrite (Migrate_planned m rt options w workspaces w1 validated planned).
  assert (Hn0 : 0 <= lenL workspaces) by (unfold lenL; lia).
  destruct (Z.eqb_spec (lenL workspaces) 0) as [E | N].
  - intros [= <-]. left. now split.
  - destruct (processBatches m rt workspaces options (planStats rt w workspaces) w1)
      as [[st2 w2] | msg | b |] eqn:PB; try discriminate.
    intros [= <-]. right. split; [lia |].
    destruct (processBatches_joint m rt workspaces options R WI B_range n_range
                R_new R_mono R_main WI_task WI_main (planStats rt w workspaces) w1 st2 w2)
      as (outs & F & S1 & E1 & Hw2); cbn [planStats Successful Failed];
      try lia; try assumption.
    { unfold maxLen, GoInt.max_int in *. lia. }
    exists st2, w2, outs. cbn [planStats Successful Failed] in S1, E1.
    repeat split; try assumption; lia.
Qed.

End JointMigrate.

(** ** Running again *)

Section Rerun.
Import GoStr s3client migrator.
Context {U : Unicode}.

Lemma getWorkspacesToMigrate_inr (m : Migrator) (projectFilter : list string) (w : World)
    (l : list Workspace) :
  snd (getWorkspacesToMigrate m projectFilter w) = inr l ->
  exists found,
    (if 0 <? lenL projectFilter then inr (resolved m projectFilter)
     else ListWorkspaces (tfClient m)) = inr found.
Proof.
  unfold getWorkspacesToMigrate.
  destruct (0 <? lenL projectFilter); [eauto |].
  destruct (ListWorkspaces (tfClient m)) as [e | all]; [discriminate | eauto].
Qed.

Lemma isErr_zero (outs : list (option error)) :
  countZ isErr outs = 0 -> Forall (fun e => e = None) outs.
Proof.
  induction outs as [|e outs IH]; [constructor |]. cbn [countZ].
  pose proof (countZ_bounds isErr outs) as [H _].
  destruct e; cbn [isErr Z.b2z]; [lia |]. intros E. constructor; [reflexivity |].
  apply IH. lia.
Qed.

Lemma insert_keeps_presence {A : Type} (g : gmap string A) (k k' : string) (v : A) :
  is_Some (g !! k) -> is_Some (<[k' := v]> g !! k).
Proof.
  intros H. destruct (decide (k' = k)) as [-> | N].
  - rewrite lookup_insert_eq. eauto.
  - now rewrite lookup_insert_ne.
Qed.

Lemma UploadState_keeps_presence (c : s3client.Client)
    (organization workspaceName stateContent : string)
    (metadata : list (string * jsonValue)) (b : S3) (k : string) :
  is_Some (objects b !! k) ->
  is_Some (objects (fst (UploadState c organization workspaceName stateContent metadata b))
             !! k).
Proof.
  intros H.
  destruct (UploadState_objects c organization workspaceName stateContent metadata b)
    as [(_ & [-> | ->]) | (_ & json & _ & ->)];
    [exact H | now apply insert_keeps_presence | now do 2 apply insert_keeps_presence].
Qed.

(** A task keeps the keys that are in the bucket, and one that succeeds
    in a real run leaves the state key of its workspace in it. *)
Lemma migrateWorkspace_presence (m : Migrator) (ws : Workspace) (dryRun : bool) (w : World)
    (base : gmap string Object) :
  (forall k, is_Some (base !! k) -> is_Some (objects (s3 w) !! k)) ->
  let r := migrateWorkspace m ws dryRun w in
  (forall k, is_Some (base !! k) -> is_Some (objects (s3 (fst r)) !! k))
  /\ (dryRun = false -> 1 <= RetryAttempts (config m) -> snd r = None ->
      is_Some (objects (s3 (fst r)) !! stateKeyOf m ws)).
Proof.
  intros Hw.
  apply (migrateWorkspace_bucket
           (fun b => forall k, is_Some (base !! k) -> is_Some (objects b !! k))
           (fun b => is_Some (objects b !! stateKeyOf m ws))); [| | exact Hw].
  - intros sd b _ Hb k Hk. now apply UploadState_keeps_presence, Hb.
  - intros sd b _ _ Hok. apply UploadState_state_present.
    now apply UploadState_ok_first_put in Hok.
Qed.

Lemma filter_none {A : Type} (f : A -> bool) (l : list A) :
  (forall x, x ∈ l -> f x = false) -> List.filter f l = [].
Proof.
  induction l as [|x l IH]; intros H; [reflexivity |]. cbn [List.filter].
  rewrite (H x) by left. apply IH. intros y Hy. apply H. now right.
Qed.

Lemma not_toMigrate_present (m : Migrator) (b : S3) (ws : Workspace) :
  HasState ws = true -> toMigrate m b ws = false ->
  is_Some (objects b !! stateKeyOf m ws).
Proof.
  unfold toMigrate, foundInBucket. intros ->. cbn [andb].
  destruct (headFault _ _); [discriminate |].
  destruct (objects b !! stateKeyOf m ws); [eauto | discriminate].
Qed.

Lemma finish_s3 (rt : Runtime) (options : MigrationOptions) (st2 : MigrationStats)
    (w2 : World) :
  s3 (after (finish rt options st2 w2)) = s3 w2.
Proof.
  unfold finish. cbn [after].
  now destruct (logFinalStats_frame (withEnd (now rt (clockReads w2)) st2) (DryRun options)
                  (fst (Now rt w2))) as (_ & -> & _).
Qed.

(** X8.  Running again.  After a real run that returned nil, with
    existence checks that do not fail, a second run with the same options
    on the bucket that the first one left plans nothing: it returns nil
    and leaves the objects and the [PutObject] requests of the bucket as
    they are, whatever its clock and its schedules. *)
Theorem Migrate_rerun (m : Migrator) (rt rt' : Runtime) (options : MigrationOptions)
    (w w1 : World) (workspaces : list Workspace) (o : Outcome) :
  DryRun options = false ->
  ValidateConnections m = None ->
  getWorkspacesToMigrate m (Projects options) (fst (Now rt w)) = (w1, inr workspaces) ->
  0 < BatchSize (config m) <= GoInt.max_int ->
  lenL workspaces <= maxLen ->
  1 <= RetryAttempts (config m) <= maxRetry ->
  (forall key, headFault (sdk (s3Client m)) key = None) ->
  Migrate m rt options w = Returned o ->
  result o = None ->
  snd (getWorkspacesToMigrate m (Projects options) (fst (Now rt' (after o)))) = inr []
  /\ exists o',
       Migrate m rt' options (after o) = Returned o'
       /\ result o' = None
       /\ objects (s3 (after o')) = objects (s3 (after o))
       /\ puts (s3 (after o')) = puts (s3 (after o)).
Proof.
  intros Hd Hv Hp HB Hn HR Hh Ho Hres.
  destruct (getWorkspacesToMigrate_inr m (Projects options) (fst (Now rt w)) workspaces)
    as [found Hfound]; [now rewrite Hp |].
  pose proof (getWorkspacesToMigrate_found m (Projects options) (fst (Now rt w)) found Hfound)
    as Hplan.
  rewrite Hp in Hplan. cbn [snd Now fst s3] in Hplan. injection Hplan as Hplan.
  pose proof (getWorkspacesToMigrate_frame m (Projects options) (fst (Now rt w))) as Fr.
  rewrite Hp in Fr. cbn [fst] in Fr. destruct Fr as ((O1 & _) & _).
  change (objects (s3 w1) = objects (s3 w)) in O1.
  set (R := fun (ws : Workspace) (e : option error) (w' : World) =>
              e = None -> is_Some (objects (s3 w') !! stateKeyOf m ws)).
  set (WI := fun w' : World =>
               forall k, is_Some (objects (s3 w1) !! k) -> is_Some (objects (s3 w') !! k)).
  assert (K : forall ws, ws ∈ found -> HasState ws = true ->
                         is_Some (objects (s3 (after o)) !! stateKeyOf m ws)).
  { assert (Old : forall ws, HasState ws = true -> toMigrate m (s3 w) ws = false ->
                             is_Some (objects (s3 w1) !! stateKeyOf m ws)).
    { intros ws Hs T. rewrite O1. now apply not_toMigrate_present. }
    assert (New_ : forall ws, ws ∈ found -> toMigrate m (s3 w) ws = true -> ws ∈ workspaces).
    { intros ws Hin T. rewrite Hplan. apply list_elem_of_In, filter_In.
      split; [now apply list_elem_of_In | exact T]. }
    assert (HRn : forall ws w0, ws ∈ workspaces -> WI w0 ->
                    R ws (snd (migrateWorkspace m ws (DryRun options) w0))
                      (fst (migrateWorkspace m ws (DryRun options) w0))).
    { intros ws w0 _ Hw0. subst R. cbn beta. rewrite Hd. intros N.
      now apply (migrateWorkspace_presence m ws false w0 (objects (s3 w1)) Hw0);
        [| lia |]. }
    assert (HRm : forall ws e ws' w0, ws' ∈ workspaces -> WI w0 -> R ws e w0 ->
                    R ws e (fst (migrateWorkspace m ws' (DryRun options) w0))).
    { intros ws e ws' w0 _ _ H N. subst R. cbn beta in *.
      apply (migrateWorkspace_presence m ws' (DryRun options) w0 (objects (s3 w0)));
        [auto | now apply H]. }
    assert (HRe : forall ws e ev w0, isMainEvent ev = true -> R ws e w0 -> R ws e (emit ev w0)).
    { intros ws e ev w0 _ H. exact H. }
    assert (HWt : forall ws w0, ws ∈ workspaces -> WI w0 ->
                    WI (fst (migrateWorkspace m ws (DryRun options) w0))).
    { intros ws w0 _ Hw0. subst WI. cbn beta in *.
      now apply (migrateWorkspace_presence m ws (DryRun options) w0 (objects (s3 w1))). }
    assert (HWe : forall ev w0, isMainEvent ev = true -> WI w0 -> WI (emit ev w0)).
    { intros ev w0 _ H. exact H. }
    assert (HWs : WI w1) by (subst WI; cbn beta; auto).
    destruct (Migrate_joint m rt options w workspaces w1 R WI Hv Hp HB Hn
                HRn HRm HRe HWt HWe HWs o Ho)
      as [[E ->] | (Hpos & st2 & w2 & outs & -> & F & S1 & E1 & Hw2)].
    - intros ws Hin Hs. cbn [emptyPlan after emit s3].
      destruct (toMigrate m (s3 w) ws) eqn:T; [| now apply Old].
      apply New_ in T; [| exact Hin].
      destruct workspaces; [now apply elem_of_nil in T | unfold lenL in E; simpl in E; lia].
    - intros ws Hin Hs. rewrite finish_s3.
      cbn [finish result withEnd Failed] in Hres.
      assert (E0 : countZ isErr outs = 0).
      { pose proof (countZ_bounds isErr outs) as [H0 _].
        destruct (Z.gtb_spec (Failed st2) 0); [discriminate | lia]. }
      apply isErr_zero in E0.
      destruct (toMigrate m (s3 w) ws) eqn:T; [| now apply Hw2, Old].
      apply New_ in T; [| exact Hin].
      apply list_elem_of_lookup in T as [i Hi].
      destruct (Forall2_lookup_l _ _ _ _ _ F Hi) as (e & He & HRe').
      rewrite Forall_forall in E0. apply HRe', E0. apply list_elem_of_lookup. eauto. }
  assert (Hplan2 : snd (getWorkspacesToMigrate m (Projects options) (fst (Now rt' (after o))))
                   = inr []).
  { rewrite (getWorkspacesToMigrate_found m (Projects options) _ found Hfound).
    f_equal. apply filter_none. intros ws Hin. cbn [Now fst s3].
    unfold toMigrate, foundInBucket. rewrite Hh.
    destruct (HasState ws) eqn:Hs; [| reflexivity].
    destruct (K ws Hin Hs) as [ob ->]. reflexivity. }
  split; [exact Hplan2 |].
  destruct (getWorkspacesToMigrate m (Projects options) (fst (Now rt' (after o))))
    as [w1' res] eqn:G. cbn [snd] in Hplan2. subst res.
  pose proof (Migrate_planned m rt' options (after o) [] w1' Hv G) as E.
  cbn [lenL] in E. unfold lenL in E. cbn [length Z.of_nat Z.eqb] in E.
  eexists. split; [exact E |]. split; [reflexivity |].
  pose proof (getWorkspacesToMigrate_frame m (Projects options) (fst (Now rt' (after o)))) as Fr.
  rewrite G in Fr. cbn [fst Now s3] in Fr. destruct Fr as ((O2 & P2 & _) & _).
  cbn [emptyPlan after emit s3]. now split.
Qed.

End Rerun.

(** ** A run in which every task succeeds *)

Lemma clean_planned :
  migrator.getWorkspacesToMigrate PlanSamples.planner
    (migrator.Projects BatchSamples.real)
    (fst (migrator.Now BatchSamples.runtime TaskSamples.world0))
  = (CleanRun.planWorld, inr CleanRun.planned).
Proof. vm_compute. reflexivity. Qed.

Lemma clean_batch :
  0 < config.BatchSize (migrator.config PlanSamples.planner) <= GoInt.max_int.
Proof. vm_compute. split; [reflexivity | discriminate]. Qed.

Lemma clean_retry :
  1 <= config.RetryAttempts (migrator.config PlanSamples.planner) <= maxRetry.
Proof. vm_compute. split; discriminate. Qed.

Lemma clean_len : migrator.lenL CleanRun.planned <= maxLen.
Proof. vm_compute. discriminate. Qed.

Lemma clean_returns :
  exists o, CleanRun.run = migrator.Returned o /\ migrator.result o = None.
Proof. vm_compute. eexists. split; reflexivity. Qed.

Lemma Migrate_rerun_witness :
  exists o o',
    CleanRun.run = migrator.Returned o
    /\ migrator.result o = None
    /\ migrator.Migrate PlanSamples.planner BatchSamples.runtime BatchSamples.real
         (migrator.after o) = migrator.Returned o'
    /\ s3client.puts (migrator.s3 (migrator.after o'))
       = s3client.puts (migrator.s3 (migrator.after o)).
Proof.
  destruct clean_returns as (o & Eo & Hres).
  destruct (Migrate_rerun (U := asciiOnly) PlanSamples.planner BatchSamples.runtime
              BatchSamples.runtime BatchSamples.real TaskSamples.world0 CleanRun.planWorld
              CleanRun.planned o eq_refl eq_refl clean_planned clean_batch clean_len
              clean_retry (fun _ => eq_refl) Eo Hres) as (_ & o' & Eo' & _ & _ & P).
  exists o, o'. repeat split; assumption.
Defined.

(** ** The keys of a workspace *)

Section Keys.
Import GoStr.

Lemma append_inv_tail (a b x : string) : (a ++ x)%string = (b ++ x)%string -> a = b.
Proof.
  intros E. apply (f_equal bytes) in E. rewrite !bytes_app in E.
  apply app_inv_tail in E. now apply bytes_inj.
Qed.

Lemma state_key_not_metadata_key (a b : string) :
  (a ++ "/terraform.tfstate")%string <> (b ++ "/metadata.json")%string.
Proof.
  intros E. apply (f_equal bytes) in E. rewrite !bytes_app in E.
  apply (f_equal (@rev ascii)) in E. rewrite !rev_app_distr in E. discriminate E.
Qed.

Lemma NoDup_map_inj {A B : Type} (f : A -> B) (l : list A) (x y : A) :
  NoDup (map f l) -> x ∈ l -> y ∈ l -> f x = f y -> x = y.
Proof.
  induction l as [|z l IH]; cbn [map]; intros ND Hx Hy E; [now apply elem_of_nil in Hx |].
  apply NoDup_cons in ND as [Hz ND].
  apply elem_of_cons in Hx as [-> | Hx]; apply elem_of_cons in Hy as [-> | Hy].
  - reflexivity.
  - exfalso. apply Hz. rewrite E. apply list_elem_of_In, in_map, list_elem_of_In, Hy.
  - exfalso. apply Hz. rewrite <- E. apply list_elem_of_In, in_map, list_elem_of_In, Hx.
  - now apply IH.
Qed.

End Keys.

(** ** What a run stores and what it leaves alone *)

Section StoredFacts.
Import GoStr s3client migrator.
Context {U : Unicode}.

(** A successful upload for [ws] stores its state and its metadata. *)
Lemma UploadState_stores (m : Migrator) (ws : Workspace) (sd : StateData) (b : S3) :
  plainElem (cleanName ws) = true ->
  GetWorkspaceState (tfClient m) (ID ws) = inr sd ->
  snd (UploadState (s3Client m) (Organization (config m)) (cleanName ws)
         (StateContent sd) (terraform.Metadata sd) b) = None ->
  Stored m ws (fst (UploadState (s3Client m) (Organization (config m)) (cleanName ws)
                      (StateContent sd) (terraform.Metadata sd) b)).
Proof.
  intros Hp G Hok.
  destruct (UploadState_objects (s3Client m) (Organization (config m)) (cleanName ws)
              (StateContent sd) (terraform.Metadata sd) b)
    as [(N & _) | (_ & json & Mj & Ob)]; [contradiction |].
  rewrite !generateStateKey_plain in Ob by (assumption || reflexivity).
  exists sd, json. split; [exact G | split; [exact Mj |]]. rewrite Ob. split.
  - rewrite lookup_insert_ne by (apply not_eq_sym, state_metadata_keys_differ).
    apply lookup_insert_eq.
  - apply lookup_insert_eq.
Qed.

(** An upload for [ws'] keeps what is stored for [ws], provided the two
    have different clean names or are the same workspace. *)
Lemma UploadState_keeps_stored (m : Migrator) (ws ws' : Workspace) (sd' : StateData)
    (b : S3) :
  plainElem (cleanName ws') = true ->
  (cleanName ws' = cleanName ws -> ws' = ws) ->
  GetWorkspaceState (tfClient m) (ID ws') = inr sd' ->
  Stored m ws b ->
  Stored m ws (fst (UploadState (s3Client m) (Organization (config m)) (cleanName ws')
                      (StateContent sd') (terraform.Metadata sd') b)).
Proof.
  intros Hp Hsame G' (sd & json & G & Mj & Ls & Lm).
  exists sd, json. split; [exact G | split; [exact Mj |]].
  destruct (UploadState_objects (s3Client m) (Organization (config m)) (cleanName ws')
              (StateContent sd') (terraform.Metadata sd') b)
    as [(_ & [-> | Ob]) | (_ & json' & Mj' & Ob)]; [now split | |];
    rewrite !generateStateKey_plain in Ob by (assumption || reflexivity); rewrite Ob.
  - destruct (decide (cleanName ws' = cleanName ws)) as [E | N].
    + pose proof (Hsame E) as ->. rewrite G in G'. injection G' as <-. split.
      * apply lookup_insert_eq.
      * rewrite lookup_insert_ne by apply state_metadata_keys_differ. exact Lm.
    + split.
      * rewrite lookup_insert_ne; [exact Ls |]. intros K. now apply append_inv_tail in K.
      * rewrite lookup_insert_ne; [exact Lm |]. apply state_key_not_metadata_key.
  - destruct (decide (cleanName ws' = cleanName ws)) as [E | N].
    + pose proof (Hsame E) as ->. rewrite G in G'. injection G' as <-.
      rewrite Mj in Mj'. injection Mj' as <-. split.
      * rewrite lookup_insert_ne by (apply not_eq_sym, state_metadata_keys_differ).
        apply lookup_insert_eq.
      * apply lookup_insert_eq.
    + split.
      * rewrite lookup_insert_ne by (apply not_eq_sym, state_key_not_metadata_key).
        rewrite lookup_insert_ne; [exact Ls |]. intros K. now apply append_inv_tail in K.
      * rewrite lookup_insert_ne by (intros K; now apply append_inv_tail in K).
        rewrite lookup_insert_ne; [exact Lm |]. apply state_key_not_metadata_key.
Qed.

End StoredFacts.

Section StoredRun.
Import GoStr s3client migrator.
Context {U : Unicode}.

Lemma Forall2_all_left {A B : Type} (P : A -> B -> Prop) (Q : A -> Prop) (l : list A)
    (k : list B) :
  Forall2 P l k -> (forall x y, x ∈ l -> y ∈ k -> P x y -> Q x) -> forall x, x ∈ l -> Q x.
Proof.
  intros F H x Hx. apply list_elem_of_lookup in Hx as [i Hi].
  destruct (Forall2_lookup_l _ _ _ _ _ F Hi) as (y & Hy & Hxy).
  apply (H x y); [| | exact Hxy]; apply list_elem_of_lookup; eauto.
Qed.

(** X7.  What a real run leaves in the bucket.  In a real run with at
    least one upload attempt, over planned workspaces whose clean names
    are plain path elements and pairwise different, and for every
    schedule: when the run returns, every planned workspace has an
    outcome, [Successful] and [Failed] count the outcomes, and for every
    workspace whose outcome is nil the bucket holds, under
    "{clean name}/terraform.tfstate", the state that Terraform Cloud
    serves for it and, under "{clean name}/metadata.json", the
    serialization of its metadata.  A run that returns nil has stored
    every planned workspace.  The run returns under the sequential
    schedule. *)
Theorem Migrate_stored (m : Migrator) (rt : Runtime) (options : MigrationOptions)
    (w w1 : World) (workspaces : list Workspace) :
  DryRun options = false ->
  ValidateConnections m = None ->
  getWorkspacesToMigrate m (Projects options) (fst (Now rt w)) = (w1, inr workspaces) ->
  0 < BatchSize (config m) <= GoInt.max_int ->
  lenL workspaces <= maxLen ->
  1 <= RetryAttempts (config m) <= maxRetry ->
  (forall ws, ws ∈ workspaces -> plainElem (cleanName ws) = true) ->
  NoDup (map cleanName workspaces) ->
  (forall o, Migrate m rt options w = Returned o ->
     (exists st outs,
         runStats o = Some st
         /\ Forall2 (fun ws e => e = None -> Stored m ws (s3 (after o))) workspaces outs
         /\ Successful st = countZ isNil outs
         /\ Failed st = countZ isErr outs)
     /\ (result o = None -> forall ws, ws ∈ workspaces -> Stored m ws (s3 (after o))))
  /\ (1 <= ConcurrentUploads (config m) ->
      (forall j, schedule rt j = sequential (List.length workspaces)) ->
      exists o, Migrate m rt options w = Returned o).
Proof.
  intros Hd Hv Hp HB Hn HR Hplain Hnodup. split.
  2:{ intros Hcap Hseq.
      exact (Migrate_returns m rt options w workspaces w1 Hv Hp
               (fun _ _ => True) (fun _ => True) HB Hn
               (fun _ _ _ => I) (fun _ _ _ => I) (fun _ _ _ _ => I) I Hcap Hseq). }
  intros o Ho.
  set (R := fun (ws : Workspace) (e : option error) (w' : World) =>
              ws ∈ workspaces -> e = None -> Stored m ws (s3 w')).
  assert (HRn : forall ws w0, ws ∈ workspaces -> True ->
                  R ws (snd (migrateWorkspace m ws (DryRun options) w0))
                    (fst (migrateWorkspace m ws (DryRun options) w0))).
  { intros ws w0 Hin _ _ N. rewrite Hd in *.
    apply (migrateWorkspace_bucket (fun _ => True) (Stored m ws) m ws false w0);
      [auto | | exact I | reflexivity | lia | exact N].
    intros sd b G _ Hok. apply UploadState_stores; auto. }
  assert (HRm : forall ws e ws' w0, ws' ∈ workspaces -> True -> R ws e w0 ->
                  R ws e (fst (migrateWorkspace m ws' (DryRun options) w0))).
  { intros ws e ws' w0 Hin' _ H Hin N.
    apply (migrateWorkspace_bucket (Stored m ws) (fun _ => True) m ws' (DryRun options) w0);
      [| auto | now apply H].
    intros sd' b G' Hb. apply UploadState_keeps_stored; auto.
    intros E. now apply (NoDup_map_inj cleanName workspaces). }
  assert (HRe : forall ws e ev w0, isMainEvent ev = true -> R ws e w0 -> R ws e (emit ev w0)).
  { intros ws e ev w0 _ H. exact H. }
  destruct (Migrate_joint m rt options w workspaces w1 R (fun _ => True) Hv Hp HB Hn
              HRn HRm HRe (fun _ _ _ _ => I) (fun _ _ _ _ => I) I o Ho)
    as [[E ->] | (Hpos & st2 & w2 & outs & -> & F & S1 & E1 & _)].
  - assert (workspaces = []) as ->
        by (destruct workspaces; [reflexivity | unfold lenL in E; simpl in E; lia]).
    split.
    + exists (planStats rt w []), []. cbn [emptyPlan runStats planStats Successful Failed countZ].
      repeat split. constructor.
    + intros _ ws Hin. now apply elem_of_nil in Hin.
  - assert (F' : Forall2 (fun ws e => e = None ->
                             Stored m ws (s3 (after (finish rt options st2 w2))))
                   workspaces outs).
    { apply Forall2_same_length_lookup. split; [now apply Forall2_length in F |].
      intros i ws e Hi He N. rewrite finish_s3.
      apply (Forall2_lookup_lr _ _ _ _ _ _ F Hi He); [| exact N].
      apply list_elem_of_lookup. eauto. }
    split.
    + exists (withEnd (now rt (clockReads w2)) st2), outs.
      cbn [finish runStats withEnd Successful Failed]. now repeat split.
    + intros Hres. cbn [finish result withEnd Failed] in Hres.
      assert (E0 : countZ isErr outs = 0).
      { pose proof (countZ_bounds isErr outs) as [H0 _].
        destruct (Z.gtb_spec (Failed st2) 0); [discriminate | lia]. }
      apply isErr_zero in E0. rewrite Forall_forall in E0.
      apply (Forall2_all_left _ _ _ _ F'). intros ws e _ He H. apply H, E0, He.
Qed.

(** X9.  What a run leaves alone.  When a run returns, real or simulated
    and for every schedule, every key that is neither the state key nor
    the metadata key of a planned workspace holds what it held before the
    run, and every key that held an object still holds one: the run
    deletes nothing.  The run returns under the sequential schedule. *)
Theorem Migrate_frame (m : Migrator) (rt : Runtime) (options : MigrationOptions)
    (w w1 : World) (workspaces : list Workspace) :
  ValidateConnections m = None ->
  getWorkspacesToMigrate m (Projects options) (fst (Now rt w)) = (w1, inr workspaces) ->
  0 < BatchSize (config m) <= GoInt.max_int ->
  lenL workspaces <= maxLen ->
  (forall o, Migrate m rt options w = Returned o ->
     (forall k, (forall ws, ws ∈ workspaces -> k <> stateKeyOf m ws /\ k <> metadataKeyOf m ws) ->
                objects (s3 (after o)) !! k = objects (s3 w) !! k)
     /\ (forall k, is_Some (objects (s3 w) !! k) -> is_Some (objects (s3 (after o)) !! k)))
  /\ (1 <= ConcurrentUploads (config m) ->
      (forall j, schedule rt j = sequential (List.length workspaces)) ->
      exists o, Migrate m rt options w = Returned o).
Proof.
  intros Hv Hp HB Hn. split.
  2:{ intros Hcap Hseq.
      exact (Migrate_returns m rt options w workspaces w1 Hv Hp
               (fun _ _ => True) (fun _ => True) HB Hn
               (fun _ _ _ => I) (fun _ _ _ => I) (fun _ _ _ _ => I) I Hcap Hseq). }
  intros o Ho.
  pose proof (getWorkspacesToMigrate_frame m (Projects options) (fst (Now rt w))) as Fr.
  rewrite Hp in Fr. cbn [fst] in Fr. destruct Fr as ((O1 & _) & _).
  change (objects (s3 w1) = objects (s3 w)) in O1.
  set (WI := fun w' : World =>
               (forall k, (forall ws, ws ∈ workspaces ->
                                      k <> stateKeyOf m ws /\ k <> metadataKeyOf m ws) ->
                          objects (s3 w') !! k = objects (s3 w) !! k)
               /\ (forall k, is_Some (objects (s3 w) !! k) ->
                             is_Some (objects (s3 w') !! k))).
  assert (HWt : forall ws w0, ws ∈ workspaces -> WI w0 ->
                  WI (fst (migrateWorkspace m ws (DryRun options) w0))).
  { intros ws w0 Hin Hw0.
    apply (migrateWorkspace_bucket
             (fun b => (forall k, (forall ws, ws ∈ workspaces ->
                                              k <> stateKeyOf m ws /\ k <> metadataKeyOf m ws) ->
                                  objects b !! k = objects (s3 w) !! k)
                       /\ (forall k, is_Some (objects (s3 w) !! k) -> is_Some (objects b !! k)))
             (fun _ => True) m ws (DryRun options) w0); [| auto | exact Hw0].
    intros sd b _ [Hb1 Hb2]. split.
    - intros k Hk. rewrite <- (Hb1 k Hk). destruct (Hk ws Hin) as [Ns Nm].
      unfold stateKeyOf, metadataKeyOf in Ns, Nm.
      destruct (UploadState_objects (s3Client m) (Organization (config m))
                  (removeEnvironmentSuffix (Name ws)) (StateContent sd)
                  (terraform.Metadata sd) b)
        as [(_ & [-> | ->]) | (_ & json & _ & ->)]; [reflexivity | |];
        rewrite ?lookup_insert_ne by (apply not_eq_sym; assumption); reflexivity.
    - intros k Hk. now apply UploadState_keeps_presence, Hb2. }
  assert (HWs : WI w1).
  { subst WI. cbn beta. rewrite O1. split; auto. }
  destruct (Migrate_joint m rt options w workspaces w1 (fun _ _ _ => True) WI Hv Hp HB Hn
              (fun _ _ _ _ => I) (fun _ _ _ _ _ _ _ => I) (fun _ _ _ _ _ _ => I)
              HWt (fun _ _ _ H => H) HWs o Ho)
    as [[E ->] | (Hpos & st2 & w2 & outs & -> & _ & _ & _ & Hw2)].
  - cbn [emptyPlan after emit s3]. exact HWs.
  - rewrite finish_s3. exact Hw2.
Qed.

End StoredRun.

Lemma clean_plain (ws : terraform.Workspace) :
  ws ∈ CleanRun.planned -> GoStr.plainElem (cleanName ws) = true.
Proof.
  unfold CleanRun.planned. rewrite !elem_of_cons, elem_of_nil.
  intros [-> | [-> | []]]; reflexivity.
Qed.

Lemma clean_nodup : NoDup (map cleanName CleanRun.planned).
Proof. apply (bool_decide_unpack _). vm_compute. exact I. Qed.

Lemma Migrate_stored_witness :
  exists o,
    CleanRun.run = migrator.Returned o
    /\ s3client.objects (migrator.s3 (migrator.after o)) !! "billing/terraform.tfstate"
       = Some (stateObject "acme" "billing" "{}").
Proof.
  destruct clean_returns as (o & Eo & Hres). exists o. split; [exact Eo |].
  destruct (Migrate_stored (U := asciiOnly) PlanSamples.planner BatchSamples.runtime
              BatchSamples.real TaskSamples.world0 CleanRun.planWorld CleanRun.planned
              eq_refl eq_refl clean_planned clean_batch clean_len clean_retry
              clean_plain clean_nodup) as (S & _).
  destruct (S o Eo) as (_ & All).
  destruct (All Hres (TaskSamples.ws "ws-1" "billing-prod" true))
    as (sd & json & G & _ & Ls & _); [left |].
  injection G as <-. exact Ls.
Defined.

Lemma Migrate_frame_witness :
  exists o,
    CleanRun.run = migrator.Returned o
    /\ s3client.objects (migrator.s3 (migrator.after o)) !! "billing-prod/terraform.tfstate"
       = None.
Proof.
  destruct clean_returns as (o & Eo & _). exists o. split; [exact Eo |].
  destruct (Migrate_frame (U := asciiOnly) PlanSamples.planner BatchSamples.runtime
              BatchSamples.real TaskSamples.world0 CleanRun.planWorld CleanRun.planned
              eq_refl clean_planned clean_batch clean_len) as (F & _).
  destruct (F o Eo) as (Fr & _). rewrite Fr; [reflexivity |].
  intros ws. unfold CleanRun.planned. rewrite !elem_of_cons, elem_of_nil.
  intros [-> | [-> | []]]; split; vm_compute; discriminate.
Defined.

(** ** Runs that upload nothing *)

Section EdgeRuns.
Import GoStr s3client migrator.
Context {U : Unicode}.

Lemma resolved_unknown (m : Migrator) (names : list string) :
  (forall n, n ∈ names -> exists e, GetWorkspaceByName (tfClient m) n = inl e) ->
  resolved m names = [].
Proof.
  induction names as [|n names IH]; intros H; [reflexivity |]. cbn [resolved flat_map].
  destruct (H n) as [e ->]; [left |]. cbn [app]. apply IH. intros n' Hn'. apply H. now right.
Qed.

(** X13.  A filter of unknown names.  When the project filter is not empty
    and none of its names resolves, the run returns nil: the statistics
    have [Total], [Successful] and [Failed] zero, the bucket has received
    no [HeadObject] and no [PutObject] request, and the last entry of the
    trace is the warning that no workspace was found. *)
Theorem Migrate_unknown_projects (m : Migrator) (rt : Runtime) (options : MigrationOptions)
    (w : World) :
  ValidateConnections m = None ->
  Projects options <> [] ->
  (forall n, n ∈ Projects options -> exists e, GetWorkspaceByName (tfClient m) n = inl e) ->
  exists o st,
    Migrate m rt options w = Returned o
    /\ result o = None
    /\ runStats o = Some st /\ Total st = 0 /\ Successful st = 0 /\ Failed st = 0
    /\ s3 (after o) = s3 w
    /\ last (trace (after o)) = Some (Log Warn "Nenhum workspace encontrado para migração" []).
Proof.
  intros Hv Hne Hall.
  assert (P : (0 <? lenL (Projects options)) = true).
  { destruct (Projects options); [contradiction |]. unfold lenL. simpl length.
    apply Z.ltb_lt. lia. }
  assert (G : exists w1, getWorkspacesToMigrate m (Projects options) (fst (Now rt w))
                         = (w1, inr []) /\ s3 w1 = s3 w).
  { unfold getWorkspacesToMigrate. rewrite P.
    rewrite (resolveProjects_resolved m (Projects options) [] []).
    rewrite (resolved_unknown m _ Hall). cbn [app analyse]. cbv zeta.
    cbn [workspacesWithState workspacesWithoutState existingStates lenL length Z.of_nat
         Z.ltb Z.compare].
    eexists. split; [reflexivity | reflexivity]. }
  destruct G as (w1 & G & S1).
  pose proof (Migrate_planned m rt options w [] w1 Hv G) as E.
  unfold lenL in E. cbn [length Z.of_nat Z.eqb] in E.
  exists (emptyPlan rt w [] w1), (planStats rt w []).
  split; [exact E |]. cbn [emptyPlan result runStats after planStats Total Successful Failed].
  repeat split; try reflexivity; [exact S1 |].
  cbn [emit trace]. apply last_snoc.
Qed.

(** A real task of a migrator whose [RetryAttempts] is not positive
    fetches the state and uploads nothing. *)
Lemma migrateWorkspace_no_attempts (m : Migrator) (ws : Workspace) (w : World) :
  RetryAttempts (config m) <= 0 ->
  let r := migrateWorkspace m ws false w in
  s3 (fst r) = s3 w
  /\ uploadEvents (trace (fst r)) = uploadEvents (trace w)
  /\ isNil (snd r) = fetchOk m ws.
Proof.
  intros HR. unfold migrateWorkspace, fetchOk.
  destruct (GetWorkspaceState (tfClient m) (ID ws)) as [err | sd].
  - cbn [fst snd s3 trace emit isNil]. rewrite uploadEvents_app.
    cbn [uploadEvents List.filter isUpload]. rewrite app_nil_r. now repeat split.
  - replace (Z.to_nat (RetryAttempts (config m))) with O by lia.
    cbn [uploadLoop fst snd s3 trace emit isNil]. rewrite uploadEvents_app.
    cbn [uploadEvents List.filter isUpload]. rewrite app_nil_r. now repeat split.
Qed.

Lemma finalEvents_no_upload (st : MigrationStats) (dryRun : bool) :
  uploadEvents (finalEvents st dryRun) = [].
Proof.
  unfold finalEvents, uploadEvents. rewrite !List.filter_app.
  destruct (0 <? lenL _), (0 <? Total _); cbn [List.filter isUpload app];
    try reflexivity;
    induction (FailedItems _) as [|f l IH]; cbn [map List.filter isUpload failureEntry] in *;
    auto.
Qed.

(** A run whose tasks leave the bucket alone leaves the bucket alone. *)
Lemma Migrate_untouched (m : Migrator) (rt : Runtime) (options : MigrationOptions)
    (w w1 : World) (workspaces : list Workspace) :
  (forall ws w', let r := migrateWorkspace m ws (DryRun options) w' in
                 s3 (fst r) = s3 w'
                 /\ uploadEvents (trace (fst r)) = uploadEvents (trace w')
                 /\ isNil (snd r) = fetchOk m ws) ->
  ValidateConnections m = None ->
  getWorkspacesToMigrate m (Projects options) (fst (Now rt w)) = (w1, inr workspaces) ->
  0 < BatchSize (config m) <= GoInt.max_int ->
  lenL workspaces <= maxLen ->
  match Migrate m rt options w with
  | Returned o =>
      sameDestination w (after o)
      /\ exists st,
           runStats o = Some st
           /\ Successful st = countZ (fetchOk m) workspaces
           /\ Failed st = countZ (fun ws => negb (fetchOk m ws)) workspaces
  | Joining b => sameDestination w (world b)
  | Panicked _ => ConcurrentUploads (config m) < 0
  | OutOfFuel => False
  end.
Proof.
  intros Htask Hv Hp HB Hn.
  pose proof (getWorkspacesToMigrate_frame m (Projects options) (fst (Now rt w))) as G.
  rewrite Hp in G. cbn [fst Now s3 trace] in G. destruct G as (G & _ & _).
  assert (HQ : forall ws w', ws ∈ workspaces ->
                 isNil (snd (migrateWorkspace m ws (DryRun options) w')) = fetchOk m ws).
  { intros ws w' _. apply Htask. }
  assert (HW : forall ws w', sameDestination w w' ->
                 sameDestination w (fst (migrateWorkspace m ws (DryRun options) w'))).
  { intros ws w' (O & P & C & V).
    destruct (Htask ws w') as (S3 & T & _).
    unfold sameDestination. rewrite S3, T. now repeat split. }
  assert (HM : forall e w', isMainEvent e = true -> sameDestination w w' ->
                 sameDestination w (emit e w')).
  { intros e w' He (O & P & C & V). unfold sameDestination. cbn [emit s3 trace].
    rewrite uploadEvents_app. cbn [uploadEvents List.filter].
    destruct e as [[|] d | | | |]; try discriminate;
      cbn [isUpload]; rewrite app_nil_r; now repeat split. }
  pose proof (Migrate_spec m rt options w workspaces w1 Hv Hp
                (fun ws e => isNil e = fetchOk m ws) (sameDestination w) HB Hn
                HQ HW HM G) as S.
  destruct (Migrate m rt options w) as [o | msg | b |]; [| exact S | | exact S].
  - destruct S as [[E ->] | (Hpos & st2 & w2 & outs & -> & A & Hw2 & _)].
    + split.
      * cbn [emptyPlan after].
        destruct G as (O & P & C & V). unfold sameDestination. cbn [emit s3 trace].
        rewrite uploadEvents_app. cbn [uploadEvents List.filter isUpload].
        rewrite app_nil_r. now repeat split.
      * exists (planStats rt w workspaces). cbn [emptyPlan runStats planStats].
        cbn [Successful Failed].
        destruct workspaces; [now repeat split | unfold lenL in E; simpl in E; lia].
    + destruct A as (F & S1 & E1 & _). apply dry_counts in F as [F1 F2].
      split.
      * cbn [finish after].
        destruct (logFinalStats_frame (withEnd (now rt (clockReads w2)) st2)
                    (DryRun options) (fst (Now rt w2))) as (T & S3 & _).
        destruct Hw2 as (O & P & C & V). unfold sameDestination.
        rewrite S3, T. cbn [Now fst s3 trace]. rewrite uploadEvents_app.
        rewrite finalEvents_no_upload, app_nil_r. now repeat split.
      * eexists. cbn [finish runStats withEnd Successful Failed].
        split; [reflexivity |]. cbn [planStats Successful Failed] in S1, E1.
        cbn [withEnd Successful Failed]. split; lia.
  - destruct S as (_ & _ & _ & _ & _ & _ & _ & Hw & _). exact Hw.
Qed.

(** X12.  No attempt configured.  With [RetryAttempts] zero or negative
    (a value that [Validate] accepts) the retry loop of a real task
    does not run and the task returns nil after the fetch.  For every
    schedule, whether the run returns or is left waiting for a batch, the
    objects of the bucket, its [PutObject] requests and the upload calls
    of the trace are those of the start; when the run returns,
    [Successful] is the number of planned workspaces whose state can be
    fetched, none of which has been uploaded, and [Failed] the number of
    the others.  The run panics only with a negative [ConcurrentUploads],
    and it returns under the sequential schedule. *)
Theorem Migrate_no_attempts (m : Migrator) (rt : Runtime) (options : MigrationOptions)
    (w w1 : World) (workspaces : list Workspace) :
  DryRun options = false ->
  RetryAttempts (config m) <= 0 ->
  ValidateConnections m = None ->
  getWorkspacesToMigrate m (Projects options) (fst (Now rt w)) = (w1, inr workspaces) ->
  0 < BatchSize (config m) <= GoInt.max_int ->
  lenL workspaces <= maxLen ->
  match Migrate m rt options w with
  | Returned o =>
      sameDestination w (after o)
      /\ exists st,
           runStats o = Some st
           /\ Successful st = countZ (fetchOk m) workspaces
           /\ Failed st = countZ (fun ws => negb (fetchOk m ws)) workspaces
  | Joining b => sameDestination w (world b)
  | Panicked _ => ConcurrentUploads (config m) < 0
  | OutOfFuel => False
  end
  /\ (1 <= ConcurrentUploads (config m) ->
      (forall j, schedule rt j = sequential (List.length workspaces)) ->
      exists o, Migrate m rt options w = Returned o).
Proof.
  intros Hd HR Hv Hp HB Hn. split.
  - apply (Migrate_untouched m rt options w w1 workspaces); try assumption.
    intros ws w'. rewrite Hd. now apply migrateWorkspace_no_attempts.
  - intros Hcap Hseq.
    exact (Migrate_returns m rt options w workspaces w1 Hv Hp
             (fun _ _ => True) (fun _ => True) HB Hn
             (fun _ _ _ => I) (fun _ _ _ => I) (fun _ _ _ _ => I) I Hcap Hseq).
Qed.

End EdgeRuns.

(** ** Two workspaces with one clean name *)

Section Collision.
Import GoStr s3client migrator.
Context {U : Unicode}.

(** X6.  Two workspaces with one clean name.  When two workspaces have the
    same clean name (as "app-dev" and "app-prod" do) and the task of the
    first and then the task of the second both succeed in a real run, the
    bucket holds the state and the metadata of the second under that
    name; if the two states differ, the state of the first is no longer
    stored, although its task returned nil. *)
Theorem migrateWorkspace_collision (m : Migrator) (ws1 ws2 : Workspace)
    (sd1 sd2 : StateData) (w : World) :
  cleanName ws1 = cleanName ws2 ->
  plainElem (cleanName ws2) = true ->
  GetWorkspaceState (tfClient m) (ID ws1) = inr sd1 ->
  GetWorkspaceState (tfClient m) (ID ws2) = inr sd2 ->
  1 <= RetryAttempts (config m) <= maxRetry ->
  let r1 := migrateWorkspace m ws1 false w in
  let r2 := migrateWorkspace m ws2 false (fst r1) in
  snd r1 = None -> snd r2 = None ->
  Stored m ws2 (s3 (fst r2))
  /\ (StateContent sd1 <> StateContent sd2 -> ~ Stored m ws1 (s3 (fst r2))).
Proof.
  intros Ec Hp G1 G2 HR r1 r2 _ N2.
  assert (S2 : Stored m ws2 (s3 (fst r2))).
  { apply (migrateWorkspace_bucket (fun _ => True) (Stored m ws2) m ws2 false (fst r1));
      [auto | | exact I | reflexivity | lia | exact N2].
    intros sd b G _ Hok. now apply UploadState_stores. }
  split; [exact S2 |].
  intros Hdiff (sd & json & G & _ & L1 & _).
  destruct S2 as (sd' & json' & G' & _ & L2 & _).
  rewrite G1 in G. injection G as <-. rewrite G2 in G'. injection G' as <-.
  rewrite Ec, L2 in L1. injection L1 as E. now apply Hdiff.
Qed.

End Collision.

(** ** The success rate *)

Section Rate.
Import GoStr migrator.
Context {U : Unicode}.



End Rate.

(** ** Settings that stop a run *)

Section BadSettings.
Import GoStr migrator.
Context {U : Unicode}.

(** With an unbuffered [sem] no goroutine gets past its send. *)
Lemma runSchedule_blocked (m : Migrator) (dryRun : bool) (batch : list Workspace)
    (st : MigrationStats) (w : World) (sched : list nat) :
  ConcurrentUploads (config m) = 0 ->
  runSchedule m dryRun sched (spawn batch st w) = spawn batch st w.
Proof.
  intros Hc. unfold runSchedule. induction sched as [|i sched IH]; [reflexivity |].
  cbn [fold_left]. replace (step m dryRun i (spawn batch st w)) with (spawn batch st w);
    [exact IH |].
  unfold step. cbn [spawn tasks semLen]. rewrite list_lookup_fmap.
  destruct (batch !! i); cbn [fmap option_fmap option_map]; [| reflexivity].
  rewrite Hc. reflexivity.
Qed.

(** X14.  A semaphore without capacity.  With [ConcurrentUploads] zero
    [sem] is an unbuffered channel on which nobody receives: for every
    clock and every schedule, a run with a plan that is not empty does
    not return; it waits for the goroutines of its first batch, none of
    which has got past its send, nothing is counted and the bucket is as
    planning left it. *)
Theorem Migrate_zero_concurrency (m : Migrator) (rt : Runtime) (options : MigrationOptions)
    (w w1 : World) (workspaces : list Workspace) :
  ConcurrentUploads (config m) = 0 ->
  ValidateConnections m = None ->
  getWorkspacesToMigrate m (Projects options) (fst (Now rt w)) = (w1, inr workspaces) ->
  0 < BatchSize (config m) <= GoInt.max_int ->
  lenL workspaces <= maxLen ->
  workspaces <> [] ->
  exists b,
    Migrate m rt options w = Joining b
    /\ Forall (fun t => snd t = Spawned) (tasks b)
    /\ tasks b <> []
    /\ s3 (world b) = s3 w1
    /\ Successful (stats b) = 0 /\ Failed (stats b) = 0.
Proof.
  intros Hc Hv Hp HB Hn Hne.
  rewrite (Migrate_planned m rt options w workspaces w1 Hv Hp).
  assert (Hlen : 0 < lenL workspaces).
  { destruct workspaces; [contradiction |]. unfold lenL. simpl length. lia. }
  destruct (Z.eqb_spec (lenL workspaces) 0) as [? | _]; [lia |].
  unfold processBatches. destruct (Z.eqb_spec (BatchSize (config m)) 0) as [? | _]; [lia |].
  destruct workspaces as [|ws0 rest] eqn:Ew; [contradiction |]. rewrite <- Ew in *.
  replace (List.length workspaces) with (S (List.length rest)) by (rewrite Ew; reflexivity).
  pose proof (loop_unfold m rt workspaces options HB Hn
                (GoInt.quo (GoInt.sub (GoInt.add (lenL workspaces) (BatchSize (config m))) 1)
                   (BatchSize (config m)))
                (List.length rest) 0 (planStats rt w workspaces) w1) as L.
  rewrite Z.mul_0_l in L. rewrite L by lia. clear L. cbv zeta.
  unfold processBatch. rewrite Hc. cbn [Z.ltb Z.compare].
  rewrite runSchedule_blocked by assumption.
  set (batch := take (Z.to_nat (BatchSize (config m))) (drop (Z.to_nat 0) workspaces)).
  assert (Hb : batch <> []).
  { subst batch. rewrite Ew. cbn [Z.to_nat drop].
    destruct (Z.to_nat (BatchSize (config m))) eqn:Eb; [lia | discriminate]. }
  assert (Hnf : forallb isFinished (tasks (spawn batch (planStats rt w workspaces)
                  (emit (CallProcessBatch (0 + 1) batch) w1))) = false).
  { destruct batch; [contradiction | reflexivity]. }
  rewrite Hnf. eexists. split; [reflexivity |].
  cbn [spawn tasks world stats planStats Successful Failed emit s3].
  split; [| split; [| now repeat split]].
  - apply Forall_forall. intros t Ht. apply list_elem_of_In, in_map_iff in Ht.
    now destruct Ht as (x & <- & _).
  - destruct batch; [contradiction | discriminate].
Qed.

(** X15.  A batch size that is not positive.  With [BatchSize] zero a run
    with a plan that is not empty panics on the division that computes
    the number of batches; with a negative [BatchSize] it panics on the
    slice expression of the first batch.  Either way no batch is
    processed. *)
Theorem Migrate_bad_batch_size (m : Migrator) (rt : Runtime) (options : MigrationOptions)
    (w w1 : World) (workspaces : list Workspace) :
  GoInt.min_int <= BatchSize (config m) <= 0 ->
  ValidateConnections m = None ->
  getWorkspacesToMigrate m (Projects options) (fst (Now rt w)) = (w1, inr workspaces) ->
  workspaces <> [] ->
  Migrate m rt options w
  = Panicked (if BatchSize (config m) =? 0 then "integer divide by zero"
              else "slice bounds out of range").
Proof.
  intros HB Hv Hp Hne.
  rewrite (Migrate_planned m rt options w workspaces w1 Hv Hp).
  assert (Hlen : 0 < lenL workspaces).
  { destruct workspaces; [contradiction |]. unfold lenL. simpl length. lia. }
  destruct (Z.eqb_spec (lenL workspaces) 0) as [? | _]; [lia |].
  unfold processBatches. destruct (Z.eqb_spec (BatchSize (config m)) 0) as [? | N];
    [reflexivity |].
  destruct workspaces as [|ws0 rest] eqn:Ew; [contradiction |]. rewrite <- Ew in *.
  replace (List.length workspaces) with (S (List.length rest)) by (rewrite Ew; reflexivity).
  cbn [processBatches_loop].
  destruct (Z.ltb_spec 0 (lenL workspaces)) as [_ | ?]; [| lia].
  unfold GoInt.add at 1 2. rewrite Z.add_0_l.
  rewrite wrap_id by (unfold GoInt.max_int; lia).
  destruct (Z.gtb_spec (BatchSize (config m)) (lenL workspaces)) as [? | _]; [lia |].
  destruct (Z.ltb_spec (BatchSize (config m)) 0) as [_ | ?]; [| lia].
  cbn [Z.ltb Z.compare orb]. reflexivity.
Qed.

End BadSettings.

(** ** Sample runs with unusual settings *)

Lemma edge_planned (batch conc retry : Z) (options : migrator.MigrationOptions) :
  migrator.Projects options = [] ->
  migrator.getWorkspacesToMigrate (EdgeSamples.engineWith batch conc retry)
    (migrator.Projects options)
    (fst (migrator.Now BatchSamples.runtime TaskSamples.world0))
  = (EdgeSamples.planWorld (EdgeSamples.engineWith batch conc retry), inr BatchSamples.seven).
Proof. intros ->. vm_compute. reflexivity. Qed.

Lemma Migrate_unknown_projects_witness :
  exists o,
    migrator.Migrate PlanSamples.planner BatchSamples.runtime EdgeSamples.unknown
      PlanSamples.seeded = migrator.Returned o
    /\ migrator.result o = None.
Proof.
  destruct (Migrate_unknown_projects (U := asciiOnly) PlanSamples.planner BatchSamples.runtime
              EdgeSamples.unknown PlanSamples.seeded eq_refl ltac:(discriminate))
    as (o & st & E & Hres & _).
  - intros n. unfold EdgeSamples.unknown. cbn [migrator.Projects].
    rewrite !elem_of_cons, elem_of_nil. intros [-> | [-> | []]]; eexists; reflexivity.
  - exists o. now split.
Defined.

Lemma Migrate_no_attempts_witness :
  exists o st,
    migrator.Migrate (EdgeSamples.engineWith 3 2 0) BatchSamples.runtime BatchSamples.real
      TaskSamples.world0 = migrator.Returned o
    /\ s3client.puts (migrator.s3 (migrator.after o)) = []
    /\ migrator.runStats o = Some st
    /\ migrator.Successful st = 6.
Proof.
  destruct (Migrate_no_attempts (U := asciiOnly) (EdgeSamples.engineWith 3 2 0)
              BatchSamples.runtime BatchSamples.real TaskSamples.world0
              (EdgeSamples.planWorld (EdgeSamples.engineWith 3 2 0)) BatchSamples.seven
              eq_refl ltac:(vm_compute; discriminate) eq_refl
              (edge_planned 3 2 0 BatchSamples.real eq_refl)
              sample_batch sample_len) as (M & _).
  assert (R : exists o, migrator.Migrate (EdgeSamples.engineWith 3 2 0) BatchSamples.runtime
                          BatchSamples.real TaskSamples.world0 = migrator.Returned o)
    by (vm_compute; eexists; reflexivity).
  destruct R as [o Eo]. rewrite Eo in M.
  destruct M as ((_ & P & _) & st & Hst & Hs & _).
  exists o, st. repeat split; assumption.
Defined.

Lemma migrateWorkspace_collision_witness :
  let dev := TaskSamples.ws "ws-dev" "app-dev" true in
  let prod := TaskSamples.ws "ws-prod" "app-prod" true in
  let r1 := migrator.migrateWorkspace EdgeSamples.twin dev false TaskSamples.world0 in
  let r2 := migrator.migrateWorkspace EdgeSamples.twin prod false (fst r1) in
  snd r1 = None /\ snd r2 = None
  /\ Stored EdgeSamples.twin prod (migrator.s3 (fst r2))
  /\ ~ Stored EdgeSamples.twin dev (migrator.s3 (fst r2)).
Proof.
  intros dev prod r1 r2.
  assert (N1 : snd r1 = None) by reflexivity.
  assert (N2 : snd r2 = None) by reflexivity.
  destruct (migrateWorkspace_collision (U := asciiOnly) EdgeSamples.twin dev prod _ _
              TaskSamples.world0 eq_refl eq_refl eq_refl eq_refl
              ltac:(vm_compute; split; discriminate) N1 N2) as [S2 S1].
  split; [exact N1 | split; [exact N2 | split; [exact S2 |]]].
  apply S1. discriminate.
Defined.


Lemma Migrate_zero_concurrency_witness :
  exists b,
    migrator.Migrate (EdgeSamples.engineWith 3 0 3) BatchSamples.runtime BatchSamples.real
      TaskSamples.world0 = migrator.Joining b
    /\ s3client.puts (migrator.s3 (migrator.world b)) = [].
Proof.
  destruct (Migrate_zero_concurrency (U := asciiOnly) (EdgeSamples.engineWith 3 0 3)
              BatchSamples.runtime BatchSamples.real TaskSamples.world0
              (EdgeSamples.planWorld (EdgeSamples.engineWith 3 0 3)) BatchSamples.seven
              eq_refl eq_refl (edge_planned 3 0 3 BatchSamples.real eq_refl)
              sample_batch sample_len ltac:(discriminate)) as (b & E & _ & _ & S & _).
  exists b. split; [exact E |]. rewrite S. reflexivity.
Defined.

Lemma Migrate_bad_batch_size_witness :
  migrator.Migrate (EdgeSamples.engineWith (-1) 2 3) BatchSamples.runtime BatchSamples.real
    TaskSamples.world0 = migrator.Panicked "slice bounds out of range".
Proof.
  exact (Migrate_bad_batch_size (U := asciiOnly) (EdgeSamples.engineWith (-1) 2 3)
           BatchSamples.runtime BatchSamples.real TaskSamples.world0
           (EdgeSamples.planWorld (EdgeSamples.engineWith (-1) 2 3)) BatchSamples.seven
           ltac:(vm_compute; split; discriminate) eq_refl
           (edge_planned (-1) 2 3 BatchSamples.real eq_refl) ltac:(discriminate)).
Defined.

(** ** From Terraform Cloud to the bucket *)

Section EndToEnd.
Import GoStr s3client migrator.
Context {U : Unicode}.



End EndToEnd.

Lemma ListWorkspaces_pages_witness :
  terraformClient.ListWorkspaces ClientSamples.cloud 5
  = Some (inr (map reported (ClientSamples.page0 ++ ClientSamples.page2)%list)).
Proof.
  apply (ListWorkspaces_pages ClientSamples.cloud [ClientSamples.page0; ClientSamples.page2]
           None 5); [| simpl; lia].
  eapply (walk_next ClientSamples.cloud 0 {| tfe.Items := ClientSamples.page0; tfe.NextPage := 2 |});
    [reflexivity | discriminate |].
  cbn [tfe.NextPage].
  exact (walk_last ClientSamples.cloud 2 {| tfe.Items := ClientSamples.page2; tfe.NextPage := 0 |}
           eq_refl eq_refl).
Defined.

Lemma GetWorkspaceState_data_witness :
  exists sd,
    terraformClient.GetWorkspaceState ClientSamples.cloud "ws-1" = inr sd
    /\ terraform.StateContent sd = "state at https://archivist/sv-ws-1"
    /\ metadataValue "serial" (terraform.Metadata sd) = Some (s3client.JInt 7).
Proof.
  eexists. split; [reflexivity |]. split; [reflexivity |].
  destruct (GetWorkspaceState_data ClientSamples.cloud "ws-1" _ eq_refl)
    as (ws & sv & _ & _ & _ & _ & _ & _ & _ & _ & _ & _ & _ & _ & H & _).
  exact H.
Defined.


(** ** The list of projects *)

Section CmdFacts.
Import GoStr GoStrings migrator cmd.
Context {U : Unicode} {US : UnicodeSpace}.

Lemma Split_from_plain (sep : ascii) (cur l : list ascii) :
  forallb (fun c => negb (Ascii.eqb c sep)) l = true ->
  Split_from sep cur l = [str (rev cur ++ l)].
Proof.
  revert cur. induction l as [|c l IH]; intros cur; cbn [Split_from forallb].
  - now rewrite app_nil_r.
  - rewrite andb_true_iff, negb_true_iff. intros [Hc Hl]. rewrite Hc, IH by assumption.
    cbn [rev]. now rewrite <- app_assoc.
Qed.

Lemma Split_from_sep (sep : ascii) (cur l r : list ascii) :
  forallb (fun c => negb (Ascii.eqb c sep)) l = true ->
  Split_from sep cur (l ++ sep :: r) = str (rev cur ++ l) :: Split_from sep [] r.
Proof.
  revert cur. induction l as [|c l IH]; intros cur; cbn [Split_from forallb app].
  - intros _. rewrite Ascii.eqb_refl. now rewrite app_nil_r.
  - rewrite andb_true_iff, negb_true_iff. intros [Hc Hl]. rewrite Hc, IH by assumption.
    cbn [rev]. now rewrite <- app_assoc.
Qed.

Lemma Split_from_length (sep : ascii) (cur l : list ascii) :
  length (Split_from sep cur l) = S (length (List.filter (fun c => Ascii.eqb c sep) l)).
Proof.
  revert cur. induction l as [|c l IH]; intros cur; cbn [Split_from List.filter]; [reflexivity |].
  destruct (Ascii.eqb c sep); cbn [length]; now rewrite IH.
Qed.

Lemma plainName_no_comma (n : string) :
  plainName n = true -> forallb (fun c => negb (Ascii.eqb c ","%char)) (bytes n) = true.
Proof. unfold plainName. rewrite !andb_true_iff. tauto. Qed.

Lemma Split_joinComma (names : list string) :
  names <> [] -> Forall (fun n => plainName n = true) names ->
  Split (joinComma names) ","%char = names.
Proof.
  unfold Split, joinComma. induction names as [|n names IH]; [contradiction |].
  intros _ F. apply Forall_cons in F as [Hn F]. apply plainName_no_comma in Hn.
  destruct names as [|n' names].
  - cbn [String.concat]. rewrite Split_from_plain by assumption. cbn [rev app].
    now rewrite str_bytes.
  - change (String.concat "," (n :: n' :: names))
      with (n ++ "," ++ String.concat "," (n' :: names))%string.
    rewrite bytes_app. change (bytes ("," ++ ?s)%string) with (","%char :: bytes s).
    rewrite (Split_from_sep ","%char [] (bytes n)) by assumption. cbn [rev app].
    rewrite str_bytes. f_equal. apply IH; [discriminate | exact F].
Qed.

Lemma trimScan_edge (c : ascii) (l : list ascii) :
  edgeByte c = true -> trimScan (c :: l) = inl (c :: l).
Proof.
  unfold edgeByte. rewrite andb_true_iff, negb_true_iff. intros [Ha Hs].
  cbn [trimScan]. now rewrite Ha, Hs.
Qed.

Lemma TrimSpace_plain (n : string) : plainName n = true -> TrimSpace n = n.
Proof.
  unfold plainName. rewrite !andb_true_iff. intros [[_ Hf] Hl]. unfold TrimSpace.
  destruct (bytes n) as [|c l] eqn:E; [discriminate |].
  rewrite trimScan_edge by assumption.
  destruct (rev (c :: l)) as [|d k] eqn:R; [discriminate |].
  rewrite trimScan_edge by assumption.
  rewrite <- R, rev_involutive, <- E. apply str_bytes.
Qed.

Lemma joinComma_not_empty (names : list string) :
  names <> [] -> Forall (fun n => plainName n = true) names -> joinComma names <> "".
Proof.
  intros Hne F. destruct names as [|n names]; [contradiction |].
  apply Forall_cons in F as [Hn _]. unfold joinComma.
  assert (Hb : bytes n <> []).
  { unfold plainName in Hn. rewrite !andb_true_iff in Hn. destruct Hn as [[_ Hf] _].
    destruct (bytes n); [discriminate | discriminate]. }
  destruct names as [|n' names]; cbn [String.concat]; intros E;
    apply (f_equal bytes) in E; rewrite ?bytes_app in E;
    destruct (bytes n); [contradiction | discriminate | contradiction | discriminate].
Qed.

(** X24.  The flag [--projects], there and back.  For a list of names that
    is not empty, each name without a comma and with a first and a last
    byte that are ASCII and not spaces, the list of projects that
    [runMigrate] reads from the names joined by commas is the list of the
    names. *)
Theorem projectList_round_trip (names : list string) :
  names <> [] -> Forall (fun n => plainName n = true) names ->
  projectList (joinComma names) = names.
Proof.
  intros Hne F. unfold projectList.
  destruct (String.eqb_spec (joinComma names) "") as [E | _];
    [now apply joinComma_not_empty in E |].
  cbn [negb]. rewrite Split_joinComma by assumption.
  induction F as [|n names Hn _ IH]; [reflexivity |]. cbn [map].
  rewrite TrimSpace_plain by assumption. f_equal.
  destruct names; [reflexivity | apply IH; discriminate].
Qed.

(** X25.  A flag [--projects] that is not empty.  The list of projects read
    from a flag that is not empty has one name more than the flag has
    commas, so it is never empty, and planning with it resolves these
    names instead of listing the organization, even when the flag holds
    only spaces or commas. *)
Theorem projectList_filters (m : Migrator) (projects : string) (w : World) :
  projects <> "" ->
  length (projectList projects) = S (commas projects)
  /\ snd (getWorkspacesToMigrate m (projectList projects) w)
     = inr (List.filter (toMigrate m (s3 w)) (resolved m (projectList projects))).
Proof.
  intros Hne.
  assert (L : length (projectList projects) = S (commas projects)).
  { unfold projectList. destruct (String.eqb_spec projects "") as [? | _]; [contradiction |].
    cbn [negb]. rewrite length_map. apply Split_from_length. }
  split; [exact L |].
  apply getWorkspacesToMigrate_found.
  assert (P : (0 <? lenL (projectList projects)) = true).
  { unfold lenL. rewrite L. apply Z.ltb_lt. lia. }
  now rewrite P.
Qed.

End CmdFacts.

Lemma projectList_round_trip_witness :
  cmd.projectList "billing-prod,web" = ["billing-prod"; "web"].
Proof.
  apply (projectList_round_trip (US := asciiSpaces) ["billing-prod"; "web"]);
    [discriminate |].
  repeat constructor.
Defined.

Lemma projectList_filters_witness :
  length (cmd.projectList " , ") = 2%nat
  /\ snd (migrator.getWorkspacesToMigrate PlanSamples.planner (cmd.projectList " , ")
            PlanSamples.seeded) = inr [].
Proof.
  destruct (projectList_filters (U := asciiOnly) (US := asciiSpaces) PlanSamples.planner " , "
              PlanSamples.seeded ltac:(discriminate)) as [L P].
  split; [exact L |]. rewrite P. reflexivity.
Defined.

(** ** The command does not panic *)

Section Safety.
Import GoStr GoStrings migrator cmd.
Context {U : Unicode} {US : UnicodeSpace}.

Lemma lenL_filter {A : Type} (f : A -> bool) (l : list A) : lenL (List.filter f l) <= lenL l.
Proof.
  unfold lenL. induction l as [|x l IH]; cbn [List.filter length]; [lia |].
  destruct (f x); cbn [length]; lia.
Qed.

Lemma lenL_resolved (m : Migrator) (names : list string) :
  lenL (resolved m names) <= lenL names.
Proof.
  unfold lenL. induction names as [|n names IH]; cbn [resolved flat_map length]; [lia |].
  fold (resolved m names). rewrite length_app.
  destruct (GetWorkspaceByName (tfClient m) n); cbn [length]; lia.
Qed.

(** With a positive batch size and a channel capacity that is not
    negative, [Migrate] does not panic. *)
Lemma Migrate_never_panics (m : Migrator) (rt : Runtime) (options : MigrationOptions)
    (w : World) :
  0 < BatchSize (config m) <= GoInt.max_int ->
  0 <= ConcurrentUploads (config m) ->
  lenL (Projects options) <= maxLen ->
  (forall l, terraform.ListWorkspaces (tfClient m) = inr l -> lenL l <= maxLen) ->
  match Migrate m rt options w with
  | Returned _ | Joining _ => True
  | Panicked _ | OutOfFuel => False
  end.
Proof.
  intros HB Hc Hp Hl.
  destruct (ValidateConnections m) as [e |] eqn:Hv.
  { unfold Migrate. now rewrite Hv. }
  destruct (getWorkspacesToMigrate m (Projects options) (fst (Now rt w)))
    as [w1 [err | workspaces]] eqn:G.
  { unfold Migrate. rewrite Hv. unfold Now in *. cbn [fst] in G. now rewrite G. }
  assert (Hn : lenL workspaces <= maxLen).
  { destruct (getWorkspacesToMigrate_inr m (Projects options) (fst (Now rt w)) workspaces)
      as [found Hf]; [now rewrite G |].
    pose proof (getWorkspacesToMigrate_found m (Projects options) (fst (Now rt w)) found Hf)
      as E.
    rewrite G in E. cbn [snd] in E. injection E as ->.
    pose proof (lenL_filter (toMigrate m (s3 w)) found) as L1.
    destruct (0 <? lenL (Projects options)).
    - injection Hf as <-. pose proof (lenL_resolved m (Projects options)). lia.
    - specialize (Hl found Hf). lia. }
  pose proof (Migrate_spec m rt options w workspaces w1 Hv G
                (fun _ _ => True) (fun _ => True) HB Hn
                (fun _ _ _ => I) (fun _ _ _ => I) (fun _ _ _ _ => I) I) as S.
  destruct (Migrate m rt options w); [exact I | lia | exact I | exact S].
Qed.

Lemma LoadConfig_valid (v : appconfig.Viper) (cfg : appconfig.Config) :
  appconfig.LoadConfig v = inr cfg ->
  appconfig.Unmarshal v = inr cfg
  /\ 0 < appconfig.BatchSize (appconfig.Migration cfg)
  /\ 0 < appconfig.ConcurrentUploads (appconfig.Migration cfg).
Proof.
  unfold appconfig.LoadConfig.
  assert (H : match appconfig.Unmarshal v with
              | inl err => inl (Wrap "erro ao deserializar configuração" err)
              | inr config =>
                  match appconfig.Validate config with
                  | Some err => inl err
                  | None => inr config
                  end
              end = inr cfg ->
              appconfig.Unmarshal v = inr cfg
              /\ 0 < appconfig.BatchSize (appconfig.Migration cfg)
              /\ 0 < appconfig.ConcurrentUploads (appconfig.Migration cfg)).
  { destruct (appconfig.Unmarshal v) as [e | c]; [discriminate |].
    unfold appconfig.Validate.
    destruct (String.eqb _ ""); [discriminate |].
    destruct (String.eqb _ ""); [discriminate |].
    destruct (String.eqb _ ""); [discriminate |].
    destruct (Z.leb_spec (appconfig.BatchSize (appconfig.Migration c)) 0); [discriminate |].
    destruct (Z.leb_spec (appconfig.ConcurrentUploads (appconfig.Migration c)) 0);
      [discriminate |].
    intros [= <-]. now repeat split. }
  destruct (appconfig.ReadInConfig v) as [[e | e] |]; [exact H | discriminate | exact H].
Qed.

(** X26.  The command does not panic.  Whatever the flags, the files, the
    clients, the clock and the schedules, [runMigrate] meets none of the
    panics of the engine (the division and the slice expression of
    [processBatches], the channel of [processBatch]): a
    configuration that [LoadConfig] returns has a positive batch size and
    a positive number of concurrent uploads, and the flag [--batch-size]
    replaces the batch size only when it is positive.  The hypotheses are
    the ranges of the Go types: batch sizes are values of [int], and
    lists have fewer than 2^62 elements. *)
Theorem runMigrate_never_panics (fl : Flags) (env : Env) (rt : Runtime) (w : World) :
  batchSize fl <= GoInt.max_int ->
  (forall cfg, appconfig.Unmarshal (viper env) = inr cfg ->
               appconfig.BatchSize (appconfig.Migration cfg) <= GoInt.max_int) ->
  lenL (projectList (projects fl)) <= maxLen ->
  (forall token org tf l,
      migratorSetup.terraform_NewClient (constructors env) token org = inr tf ->
      terraform.ListWorkspaces tf = inr l -> lenL l <= maxLen) ->
  match runMigrate fl env rt w with
  | Returned _ | Joining _ => True
  | Panicked _ | OutOfFuel => False
  end.
Proof.
  intros Hfl Hcfg Hpl Hlist. unfold runMigrate.
  destruct (appconfig.LoadConfig (viper env)) as [e | cfg] eqn:L; [exact I |].
  apply LoadConfig_valid in L as (Um & HB & HC). specialize (Hcfg cfg Um).
  cbv zeta.
  match goal with
  | |- context [migratorSetup.NewMigrator (constructors env) ?c] => set (cfg' := c)
  end.
  assert (HB' : 0 < appconfig.BatchSize (appconfig.Migration cfg') <= GoInt.max_int).
  { subst cfg'. destruct (Z.gtb_spec (batchSize fl) 0), (negb (String.eqb (logLevel fl) ""));
      cbn [appconfig.Migration appconfig.BatchSize]; lia. }
  assert (HC' : 0 < appconfig.ConcurrentUploads (appconfig.Migration cfg')).
  { subst cfg'. destruct (batchSize fl >? 0), (negb (String.eqb (logLevel fl) ""));
      cbn [appconfig.Migration appconfig.ConcurrentUploads]; lia. }
  clearbody cfg'.
  destruct (migratorSetup.NewMigrator (constructors env) cfg') as [e | m] eqn:N; [exact I |].
  unfold migratorSetup.NewMigrator in N.
  destruct (migratorSetup.terraform_NewClient _ _ _) as [e | tf] eqn:T; [discriminate |].
  destruct (migratorSetup.s3client_NewClient _ _) as [e | s3c]; [discriminate |].
  injection N as <-.
  match goal with
  | |- context [Migrate ?m rt ?o w] =>
      pose proof (Migrate_never_panics m rt o w) as P
  end.
  cbn [config tfClient appconfig.migration config.BatchSize config.ConcurrentUploads
       Projects] in P.
  specialize (P HB' ltac:(lia) Hpl (fun l => Hlist _ _ tf l T)).
  destruct (Migrate _ rt _ w) as [o | | |]; try exact P.
  destruct (result o); exact I.
Qed.

End Safety.

(** ** The numbers of the listing *)

Section Listing.
Import GoStr migrator cmd.
Context {U : Unicode}.

Lemma countWorkspaces_from (l : list Workspace) (a b : Z) :
  0 <= a -> 0 <= b -> a + b + lenL l <= GoInt.max_int ->
  fold_left
    (fun '(withState, withoutState) ws =>
       if HasState ws then (GoInt.add withState 1, withoutState)
       else (withState, GoInt.add withoutState 1))
    l (a, b)
  = (a + countZ HasState l, b + countZ (fun ws => negb (HasState ws)) l).
Proof.
  revert a b. unfold lenL.
  induction l as [|ws l IH]; intros a b Ha Hb Hr; cbn [fold_left countZ].
  - now rewrite !Z.add_0_r.
  - cbn [length] in Hr. destruct (HasState ws); cbn [negb Z.b2z];
      rewrite add_id by (unfold GoInt.min_int, GoInt.max_int in *; lia);
      rewrite IH by lia; f_equal; lia.
Qed.

Lemma plan_at_most_with_state (m : Migrator) (b : s3client.S3) (l : list Workspace) :
  lenL (List.filter (toMigrate m b) l) <= countZ HasState l.
Proof.
  unfold lenL, toMigrate. induction l as [|ws l IH]; cbn [List.filter countZ length]; [lia |].
  destruct (HasState ws); cbn [andb Z.b2z]; [| lia].
  destruct (negb _); cbn [length]; lia.
Qed.

(** X27.  The numbers of [list].  Over the workspaces that
    [Migrator.ListWorkspaces] returns, the counting loop of [runList] ends
    with the number of workspaces that have a state and the number of
    those that have none, which add up to the number of workspaces; and a
    migration of the whole organization plans at most as many workspaces
    as [list] reports with a state. *)
Theorem countWorkspaces_counts (m : Migrator) (all : list Workspace) :
  migratorSetup.ListWorkspaces m = inr all ->
  lenL all <= GoInt.max_int ->
  fst (countWorkspaces all) = countZ HasState all
  /\ snd (countWorkspaces all) = countZ (fun ws => negb (HasState ws)) all
  /\ fst (countWorkspaces all) + snd (countWorkspaces all) = lenL all
  /\ forall w, exists plan,
       snd (getWorkspacesToMigrate m [] w) = inr plan
       /\ lenL plan <= fst (countWorkspaces all).
Proof.
  intros L Hn. unfold countWorkspaces.
  rewrite (countWorkspaces_from all 0 0) by lia. cbn [fst snd]. rewrite !Z.add_0_l.
  split; [reflexivity | split; [reflexivity | split]].
  - unfold lenL. clear. induction all as [|ws l IH]; cbn [countZ length]; [reflexivity |].
    destruct (HasState ws); cbn [negb Z.b2z]; lia.
  - intros w. unfold migratorSetup.ListWorkspaces in L.
    destruct (ValidateConnections m); [discriminate |].
    exists (List.filter (toMigrate m (s3 w)) all).
    split; [now apply getWorkspacesToMigrate_found | apply plan_at_most_with_state].
Qed.

End Listing.

Lemma countWorkspaces_counts_witness :
  cmd.countWorkspaces PlanSamples.inventory = (2, 1)
  /\ exists plan,
       snd (migrator.getWorkspacesToMigrate PlanSamples.planner [] PlanSamples.seeded)
       = inr plan
       /\ migrator.lenL plan <= 2.
Proof.
  split; [reflexivity |].
  destruct (countWorkspaces_counts (U := asciiOnly) PlanSamples.planner PlanSamples.inventory
              eq_refl ltac:(vm_compute; discriminate)) as (_ & _ & _ & P).
  exact (P PlanSamples.seeded).
Defined.

Lemma runMigrate_never_panics_witness :
  cmd.batchSize SafetySamples.flags <= GoInt.max_int
  /\ match cmd.runMigrate SafetySamples.flags SafetySamples.env BatchSamples.runtime
             TaskSamples.world0 with
     | migrator.Returned _ | migrator.Joining _ => True
     | migrator.Panicked _ | migrator.OutOfFuel => False
     end.
Proof.
  assert (H : cmd.batchSize SafetySamples.flags <= GoInt.max_int)
    by (vm_compute; discriminate).
  split; [exact H |].
  apply (runMigrate_never_panics (U := asciiOnly) (US := asciiSpaces)
           SafetySamples.flags SafetySamples.env BatchSamples.runtime TaskSamples.world0 H).
  - intros cfg [= <-]. vm_compute. discriminate.
  - vm_compute. discriminate.
  - intros token org tf l [= <-] [= <-]. vm_compute. discriminate.
Defined.

Lemma ListWorkspaces_endless_witness :
  terraformClient.ListWorkspaces
    {| terraformClient.client := LoopingSamples.api;
       terraformClient.organization := "acme" |} 1000 = None.
Proof.
  apply ListWorkspaces_endless. intros o. eexists. split; [reflexivity | discriminate].
Defined.

(** ** The configurations that are loaded *)

Section ConfigFacts.

(** X23.  The configurations that are loaded.  [LoadConfig] returns a
    configuration exactly when reading the file did not fail for another
    reason than a missing file, [Unmarshal] gave that configuration, its
    token, organization and bucket are not empty, and its batch size and
    its number of concurrent uploads are positive.  Nothing is asked of
    the number of retry attempts. *)
Theorem LoadConfig_accepts (v : appconfig.Viper) (cfg : appconfig.Config) :
  appconfig.LoadConfig v = inr cfg <->
  (forall e, appconfig.ReadInConfig v <> Some (inr e))
  /\ appconfig.Unmarshal v = inr cfg
  /\ appconfig.Token (appconfig.TerraformCloud cfg) <> ""
  /\ appconfig.Organization (appconfig.TerraformCloud cfg) <> ""
  /\ appconfig.Bucket (appconfig.AWS cfg) <> ""
  /\ 0 < appconfig.BatchSize (appconfig.Migration cfg)
  /\ 0 < appconfig.ConcurrentUploads (appconfig.Migration cfg).
Proof.
  unfold appconfig.LoadConfig, appconfig.Validate. split.
  - intros H.
    assert (R : forall e, appconfig.ReadInConfig v <> Some (inr e)).
    { intros e E. rewrite E in H. discriminate. }
    split; [exact R |].
    destruct (appconfig.ReadInConfig v) as [[e | e] |]; [| now contradiction (R e) |];
      (destruct (appconfig.Unmarshal v) as [e' | c]; [discriminate |]);
      (destruct (String.eqb_spec (appconfig.Token (appconfig.TerraformCloud c)) "");
       [discriminate |]);
      (destruct (String.eqb_spec (appconfig.Organization (appconfig.TerraformCloud c)) "");
       [discriminate |]);
      (destruct (String.eqb_spec (appconfig.Bucket (appconfig.AWS c)) ""); [discriminate |]);
      (destruct (Z.leb_spec (appconfig.BatchSize (appconfig.Migration c)) 0);
       [discriminate |]);
      (destruct (Z.leb_spec (appconfig.ConcurrentUploads (appconfig.Migration c)) 0);
       [discriminate |]);
      injection H as <-; now repeat split.
  - intros (R & Um & Ht & Ho & Hb & HB & HC). rewrite Um.
    destruct (String.eqb_spec (appconfig.Token (appconfig.TerraformCloud cfg)) "");
      [contradiction |].
    destruct (String.eqb_spec (appconfig.Organization (appconfig.TerraformCloud cfg)) "");
      [contradiction |].
    destruct (String.eqb_spec (appconfig.Bucket (appconfig.AWS cfg)) ""); [contradiction |].
    destruct (Z.leb_spec (appconfig.BatchSize (appconfig.Migration cfg)) 0); [lia |].
    destruct (Z.leb_spec (appconfig.ConcurrentUploads (appconfig.Migration cfg)) 0); [lia |].
    destruct (appconfig.ReadInConfig v) as [[e | e] |]; [reflexivity | | reflexivity].
    now contradiction (R e).
Qed.

End ConfigFacts.

(** ** The requests of a run *)

Section Requests.
Import GoStr s3client migrator.
Context {U : Unicode}.

Lemma UploadState_puts (c : s3client.Client) (organization workspaceName stateContent : string)
    (metadata : list (string * jsonValue)) (b : S3) :
  exists new,
    puts (fst (UploadState c organization workspaceName stateContent metadata b))
    = (puts b ++ new)%list
    /\ Forall (fun p =>
                 put_Bucket p = bucket c
                 /\ put_ContentType p = "application/json"
                 /\ (put_Key p = generateStateKey c organization workspaceName
                                   "terraform.tfstate"
                     \/ put_Key p = generateStateKey c organization workspaceName
                                      "metadata.json")) new.
Proof.
  unfold UploadState, uploadFile, PutObject.
  destruct (putFault (sdk c) (putCount b)); cbn.
  { eexists. split; [reflexivity |]. repeat constructor. }
  destruct (MarshalIndent (sdk c) metadata) as [e | json]; cbn.
  { eexists. split; [reflexivity |]. repeat constructor. }
  destruct (putFault (sdk c) (S (putCount b))); cbn;
    (eexists; split; [rewrite <- app_assoc; reflexivity |]);
    (constructor; [now repeat split; left | constructor; [| constructor]]);
    cbn; repeat split; now right.
Qed.

(** X10.  The requests of a run.  When a run returns, for every schedule,
    the [PutObject] requests that the bucket has received are those it
    had received before, followed by requests that are each addressed to
    the configured bucket, with content type application/json, for the
    state key or the metadata key of a planned workspace.  The run
    returns under the sequential schedule. *)
Theorem Migrate_requests (m : Migrator) (rt : Runtime) (options : MigrationOptions)
    (w w1 : World) (workspaces : list Workspace) :
  ValidateConnections m = None ->
  getWorkspacesToMigrate m (Projects options) (fst (Now rt w)) = (w1, inr workspaces) ->
  0 < BatchSize (config m) <= GoInt.max_int ->
  lenL workspaces <= maxLen ->
  (forall o, Migrate m rt options w = Returned o ->
     exists new,
       puts (s3 (after o)) = (puts (s3 w) ++ new)%list
       /\ Forall (plannedRequest m workspaces) new)
  /\ (1 <= ConcurrentUploads (config m) ->
      (forall j, schedule rt j = sequential (List.length workspaces)) ->
      exists o, Migrate m rt options w = Returned o).
Proof.
  intros Hv Hp HB Hn. split.
  2:{ intros Hcap Hseq.
      exact (Migrate_returns m rt options w workspaces w1 Hv Hp
               (fun _ _ => True) (fun _ => True) HB Hn
               (fun _ _ _ => I) (fun _ _ _ => I) (fun _ _ _ _ => I) I Hcap Hseq). }
  intros o Ho.
  pose proof (getWorkspacesToMigrate_frame m (Projects options) (fst (Now rt w))) as Fr.
  rewrite Hp in Fr. cbn [fst] in Fr. destruct Fr as ((_ & P1 & _) & _).
  change (puts (s3 w1) = puts (s3 w)) in P1.
  set (WI := fun w' : World =>
               exists new, puts (s3 w') = (puts (s3 w) ++ new)%list
                           /\ Forall (plannedRequest m workspaces) new).
  assert (HWt : forall ws w0, ws ∈ workspaces -> WI w0 ->
                  WI (fst (migrateWorkspace m ws (DryRun options) w0))).
  { intros ws w0 Hin Hw0.
    apply (migrateWorkspace_bucket
             (fun b => exists new, puts b = (puts (s3 w) ++ new)%list
                                   /\ Forall (plannedRequest m workspaces) new)
             (fun _ => True) m ws (DryRun options) w0); [| auto | exact Hw0].
    intros sd b _ (new & E & F).
    destruct (UploadState_puts (s3Client m) (Organization (config m))
                (removeEnvironmentSuffix (Name ws)) (StateContent sd)
                (terraform.Metadata sd) b) as (more & E' & F').
    exists (new ++ more)%list. rewrite E', E, app_assoc. split; [reflexivity |].
    apply Forall_app. split; [exact F |].
    eapply Forall_impl; [exact F' |]. intros p (Hb & Hc & Hk).
    split; [exact Hb | split; [exact Hc |]]. exists ws. split; [exact Hin | exact Hk]. }
  assert (HWs : WI w1).
  { exists []. rewrite P1, app_nil_r. split; [reflexivity | constructor]. }
  destruct (Migrate_joint m rt options w workspaces w1 (fun _ _ _ => True) WI Hv Hp HB Hn
              (fun _ _ _ _ => I) (fun _ _ _ _ _ _ _ => I) (fun _ _ _ _ _ _ => I)
              HWt (fun _ _ _ H => H) HWs o Ho)
    as [[E ->] | (Hpos & st2 & w2 & outs & -> & _ & _ & _ & Hw2)].
  - cbn [emptyPlan after emit s3]. exact HWs.
  - rewrite finish_s3. exact Hw2.
Qed.

End Requests.

Lemma Migrate_requests_witness :
  exists o new,
    CleanRun.run = migrator.Returned o
    /\ s3client.puts (migrator.s3 (migrator.after o)) = new
    /\ length new = 4%nat
    /\ Forall (plannedRequest PlanSamples.planner CleanRun.planned) new.
Proof.
  destruct (Migrate_requests (U := asciiOnly) PlanSamples.planner BatchSamples.runtime
              BatchSamples.real TaskSamples.world0 CleanRun.planWorld CleanRun.planned
              eq_refl clean_planned clean_batch clean_len) as (R & _).
  assert (E : exists o, CleanRun.run = migrator.Returned o
                        /\ length (s3client.puts (migrator.s3 (migrator.after o))) = 4%nat)
    by (vm_compute; eexists; split; reflexivity).
  destruct E as (o & Eo & L). destruct (R o Eo) as (new & Hnew & F).
  exists o, new. cbn [TaskSamples.world0 migrator.s3 s3client.emptyS3 s3client.puts app] in Hnew.
  rewrite Hnew in L. now repeat split.
Defined.

Lemma LoadConfig_accepts_witness :
  appconfig.LoadConfig (cmd.viper SafetySamples.env) = inr SafetySamples.loaded.
Proof.
  apply LoadConfig_accepts. repeat split; try discriminate; reflexivity.
Defined.

(** ** No interleaving wedges a batch *)

Section DeadlockFree.
Import GoStr migrator.
Context {U : Unicode}.
Variable m : Migrator.
Variable dryRun : bool.

(** A goroutine that holds no slot of [sem]: not yet admitted, or done. *)
Definition quiet (t : Workspace * pc) : bool := negb (inFlight t).

Lemma quiet_no_flight (ts : list (Workspace * pc)) :
  Forall (fun t => quiet t = true) ts -> countZ inFlight ts = 0.
Proof.
  induction 1 as [|t ts Ht _ IH]; [reflexivity |]. cbn [countZ].
  unfold quiet in Ht. apply negb_true_iff in Ht. rewrite Ht, IH. reflexivity.
Qed.

Ltac run_steps done rest ws :=
  repeat match goal with
  | |- context [step m dryRun _ ?x] =>
      lazymatch x with
      | context [step] => fail
      | _ => rewrite (step_middle m dryRun x done rest ws _ eq_refl);
             cbn [world semLen stats tasks]
      end
  | |- context [migrateWorkspace m ws dryRun ?w0] =>
      destruct (migrateWorkspace m ws dryRun w0) as [? ?]
  end.

(** Four turns in a row take a goroutine to a state in which it holds no
    slot; one that is not admitted stays where it is. *)
Lemma four_turns (b : BatchState) (done rest : list (Workspace * pc)) (ws : Workspace)
    (p : pc) :
  tasks b = (done ++ (ws, p) :: rest)%list ->
  let k := List.length done in
  exists p',
    tasks (runSchedule m dryRun [k; k; k; k] b) = (done ++ (ws, p') :: rest)%list
    /\ quiet (ws, p') = true.
Proof.
  intros Ht k. subst k. unfold runSchedule. cbn [fold_left].
  destruct p as [| | e | e | e].
  - destruct (semLen b <? ConcurrentUploads (config m)) eqn:E.
    + rewrite (step_middle m dryRun b done rest ws Spawned Ht), E.
      run_steps done rest ws. eexists. split; [reflexivity | reflexivity].
    + repeat (rewrite (step_middle m dryRun b done rest ws Spawned Ht), E).
      exists Spawned. split; [exact Ht | reflexivity].
  - rewrite (step_middle m dryRun b done rest ws Holding Ht).
    destruct (migrateWorkspace m ws dryRun (world b)) as [w' e].
    run_steps done rest ws. eexists. split; [reflexivity | reflexivity].
  - rewrite (step_middle m dryRun b done rest ws (Migrated e) Ht).
    run_steps done rest ws. eexists. split; [reflexivity | reflexivity].
  - rewrite (step_middle m dryRun b done rest ws (Recorded e) Ht).
    run_steps done rest ws. eexists. split; [reflexivity | reflexivity].
  - rewrite !(step_middle m dryRun b done rest ws (Finished e) Ht).
    exists (Finished e). split; [exact Ht | reflexivity].
Qed.

(** After one round in which every goroutine gets four turns, no
    goroutine holds a slot. *)
Lemma round_settles (rest done : list (Workspace * pc)) (b : BatchState) :
  tasks b = (done ++ rest)%list ->
  Forall (fun t => quiet t = true) done ->
  Forall (fun t => quiet t = true)
    (tasks (runSchedule m dryRun
              (flat_map (fun i => [i; i; i; i]) (seq (length done) (length rest))) b)).
Proof.
  revert done b. induction rest as [|[ws p] rest IH]; intros done b Ht Hd.
  - cbn [length seq flat_map runSchedule fold_left]. now rewrite Ht, app_nil_r.
  - cbn [length seq flat_map].
    change (flat_map (fun i => [i; i; i; i]) (length done :: seq (S (length done)) (length rest)))
      with ([length done; length done; length done; length done]
              ++ flat_map (fun i => [i; i; i; i]) (seq (S (length done)) (length rest)))%list.
    rewrite runSchedule_app.
    destruct (four_turns b done rest ws p Ht) as (p' & Ht' & Hq).
    replace (S (length done)) with (length (done ++ [(ws, p')])%list)
      by (rewrite length_app; simpl; lia).
    apply IH.
    + rewrite Ht', <- app_assoc. reflexivity.
    + apply Forall_app. split; [exact Hd | now constructor].
Qed.

(** From there, a second round takes every goroutine to its end. *)
Lemma round_finishes (rest done : list (Workspace * pc)) (b : BatchState) :
  1 <= ConcurrentUploads (config m) -> semLen b = 0 ->
  tasks b = (done ++ rest)%list ->
  forallb isFinished done = true ->
  Forall (fun t => quiet t = true) rest ->
  forallb isFinished
    (tasks (runSchedule m dryRun
              (flat_map (fun i => [i; i; i; i]) (seq (length done) (length rest))) b)) = true.
Proof.
  intros Hcap. revert done b. induction rest as [|[ws p] rest IH]; intros done b Hsem Ht Hd Hq.
  - cbn [length seq flat_map runSchedule fold_left]. now rewrite Ht, app_nil_r.
  - cbn [length seq flat_map].
    change (flat_map (fun i => [i; i; i; i]) (length done :: seq (S (length done)) (length rest)))
      with ([length done; length done; length done; length done]
              ++ flat_map (fun i => [i; i; i; i]) (seq (S (length done)) (length rest)))%list.
    rewrite runSchedule_app.
    apply Forall_cons in Hq as [Hp Hq].
    assert (Hnext : exists e,
               semLen (runSchedule m dryRun
                         [length done; length done; length done; length done] b) = 0
               /\ tasks (runSchedule m dryRun
                           [length done; length done; length done; length done] b)
                  = (done ++ (ws, Finished e) :: rest)%list).
    { destruct p as [| | e | e | e]; try discriminate Hp.
      - destruct (four_steps m dryRun b done rest ws Hcap Hsem Ht) as [S0 [e Ht']]. eauto.
      - exists e. unfold runSchedule. cbn [fold_left].
        rewrite !(step_middle m dryRun b done rest ws (Finished e) Ht). now split. }
    destruct Hnext as (e & S0 & Ht').
    replace (S (length done)) with (length (done ++ [(ws, Finished e)])%list)
      by (rewrite length_app; simpl; lia).
    apply IH; [exact S0 | | | exact Hq].
    + rewrite Ht', <- app_assoc. reflexivity.
    + rewrite forallb_app, Hd. reflexivity.
Qed.

Lemma sequential_split (n : nat) (b : BatchState) :
  (length (tasks b) <= n)%nat ->
  runSchedule m dryRun (sequential n) b
  = runSchedule m dryRun
      (flat_map (fun i => [i; i; i; i]) (seq 0 (length (tasks b)))) b.
Proof.
  intros Hn. unfold sequential.
  replace n with (length (tasks b) + (n - length (tasks b)))%nat at 1 by lia.
  rewrite seq_app, flat_map_app, runSchedule_app.
  apply runSchedule_beyond. rewrite length_tasks_run.
  apply Forall_forall. intros i Hi. apply list_elem_of_In, in_flat_map in Hi.
  destruct Hi as (j & Hj & Hi). apply in_seq in Hj. simpl in Hi. intuition lia.
Qed.

(** Two sequential rounds end a batch from every state that a schedule
    can reach. *)
Lemma two_rounds_finish (n : nat) (batch : list Workspace) (st : MigrationStats) (w : World)
    (sched : list nat) :
  1 <= ConcurrentUploads (config m) -> (length batch <= n)%nat ->
  forallb isFinished
    (tasks (runSchedule m dryRun (sched ++ sequential n ++ sequential n)
              (spawn batch st w))) = true.
Proof.
  intros Hcap Hn. rewrite !runSchedule_app.
  set (b0 := runSchedule m dryRun sched (spawn batch st w)).
  assert (L0 : length (tasks b0) = length batch).
  { subst b0. rewrite length_tasks_run. unfold spawn. cbn [tasks]. apply length_map. }
  pose proof (runSchedule_sem m dryRun sched _ (spawn_sem m batch st w)) as S0. fold b0 in S0.
  rewrite (sequential_split n b0) by lia.
  set (b1 := runSchedule m dryRun _ b0).
  assert (Q1 : Forall (fun t => quiet t = true) (tasks b1)).
  { subst b1. apply (round_settles (tasks b0) [] b0); [reflexivity | constructor]. }
  assert (L1 : length (tasks b1) = length batch).
  { subst b1. now rewrite length_tasks_run. }
  assert (S1 : semLen b1 = 0).
  { pose proof (runSchedule_sem m dryRun
                  (flat_map (fun i => [i; i; i; i]) (seq 0 (length (tasks b0)))) b0 S0)
      as [E _].
    fold b1 in E. rewrite E. now apply quiet_no_flight. }
  rewrite (sequential_split n b1) by lia.
  apply (round_finishes (tasks b1) [] b1); auto.
Qed.

(** X17.  No interleaving wedges a batch.  With room for at least one
    upload, from the state that any schedule has led to, two rounds in
    which every goroutine gets four turns end the batch: [processBatch]
    returns. *)
Theorem processBatch_deadlock_free (batch : list Workspace) (options : MigrationOptions)
    (st : MigrationStats) (w : World) (sched : list nat) :
  DryRun options = dryRun ->
  1 <= ConcurrentUploads (config m) ->
  exists st' w',
    processBatch m batch options st w
      (sched ++ sequential (length batch) ++ sequential (length batch))
    = Returned (st', w').
Proof.
  intros Hd Hcap. unfold processBatch. rewrite Hd.
  destruct (Z.ltb_spec (ConcurrentUploads (config m)) 0) as [? | _]; [lia |].
  rewrite two_rounds_finish by (assumption || lia). eauto.
Qed.

End DeadlockFree.

(** ** The run returns *)

Section Termination.
Import GoStr migrator.
Context {U : Unicode}.

(** X18.  The run returns.  A run that passed validation and planning,
    with a positive batch size and room for at least one upload, returns
    whenever the schedule of every batch ends with two rounds in which
    every goroutine gets four turns, whatever came before them. *)
Theorem Migrate_terminates (m : Migrator) (rt : Runtime) (options : MigrationOptions)
    (w w1 : World) (workspaces : list Workspace) :
  ValidateConnections m = None ->
  getWorkspacesToMigrate m (Projects options) (fst (Now rt w)) = (w1, inr workspaces) ->
  0 < BatchSize (config m) <= GoInt.max_int ->
  lenL workspaces <= maxLen ->
  1 <= ConcurrentUploads (config m) ->
  (forall j, exists pre,
      schedule rt j = (pre ++ sequential (length workspaces)
                           ++ sequential (length workspaces))%list) ->
  exists o, Migrate m rt options w = Returned o.
Proof.
  intros Hv Hp HB Hn Hcap Hfair.
  pose proof (Migrate_spec m rt options w workspaces w1 Hv Hp
                (fun _ _ => True) (fun _ => True) HB Hn
                (fun _ _ _ => I) (fun _ _ _ => I) (fun _ _ _ _ => I) I) as S.
  destruct (Migrate m rt options w) as [o | msg | b |].
  - now exists o.
  - lia.
  - exfalso. destruct S as [_ S].
    destruct S as (_ & _ & _ & _ & _ & _ & _ & _ & _ & (j & batch & st1 & w1' & Hl & ->) & Hnf).
    destruct (Hfair j) as [pre Hs]. rewrite Hs in Hnf.
    rewrite two_rounds_finish in Hnf by assumption. discriminate.
  - contradiction.
Qed.

End Termination.

Lemma fair_planned :
  migrator.getWorkspacesToMigrate BatchSamples.engine (migrator.Projects BatchSamples.real)
    (fst (migrator.Now FairSamples.runtime TaskSamples.world0))
  = (RunWitness.planWorld, inr BatchSamples.seven).
Proof. vm_compute. reflexivity. Qed.

Lemma Migrate_terminates_witness :
  exists o,
    migrator.Migrate BatchSamples.engine FairSamples.runtime BatchSamples.real
      TaskSamples.world0 = migrator.Returned o.
Proof.
  apply (Migrate_terminates (U := asciiOnly) BatchSamples.engine FairSamples.runtime
           BatchSamples.real TaskSamples.world0 RunWitness.planWorld BatchSamples.seven
           sample_validated fair_planned sample_batch sample_len).
  - vm_compute. discriminate.
  - intros j. exists [2; 0; 1; 2; 0; 0; 1; 2]%nat. reflexivity.
Defined.

Lemma processBatch_deadlock_free_witness :
  exists st' w',
    migrator.processBatch BatchSamples.engine BatchSamples.seven BatchSamples.real
      BatchSamples.fresh TaskSamples.world0
      ([6; 6; 0; 1; 5; 0; 6]%nat ++ migrator.sequential 7 ++ migrator.sequential 7)
    = migrator.Returned (st', w').
Proof.
  apply (processBatch_deadlock_free (U := asciiOnly) BatchSamples.engine false
           BatchSamples.seven BatchSamples.real BatchSamples.fresh TaskSamples.world0
           [6; 6; 0; 1; 5; 0; 6]%nat eq_refl).
  vm_compute. discriminate.
Defined.

(** ** A bucket that takes every request *)

Section Healthy.
Import GoStr s3client migrator.
Context {U : Unicode}.

Lemma UploadState_healthy (c : s3client.Client) (organization workspaceName stateContent : string)
    (metadata : list (string * jsonValue)) (b : S3) :
  (forall n, putFault (sdk c) n = None) ->
  (exists json, MarshalIndent (sdk c) metadata = inr json) ->
  snd (UploadState c organization workspaceName stateContent metadata b) = None.
Proof.
  intros Hf [json Hj]. unfold UploadState, uploadFile, PutObject.
  rewrite Hf. cbn. rewrite Hj. cbn. rewrite Hf. reflexivity.
Qed.

(** With a bucket that takes every request, a real task succeeds exactly
    when the state can be fetched. *)
Lemma migrateWorkspace_healthy (m : Migrator) (ws : Workspace) (w : World) :
  1 <= RetryAttempts (config m) ->
  (forall n, putFault (sdk (s3Client m)) n = None) ->
  (forall md, exists json, MarshalIndent (sdk (s3Client m)) md = inr json) ->
  isNil (snd (migrateWorkspace m ws false w)) = fetchOk m ws.
Proof.
  intros HR Hf Hj. unfold migrateWorkspace, fetchOk.
  destruct (GetWorkspaceState (tfClient m) (ID ws)) as [err | sd]; [reflexivity |].
  destruct (Z.to_nat (RetryAttempts (config m))) as [|fuel] eqn:E; [lia |].
  cbn [uploadLoop]. destruct (Z.leb_spec 1 (RetryAttempts (config m))) as [_ | ?]; [| lia].
  pose proof (UploadState_healthy (s3Client m) (Organization (config m))
                (removeEnvironmentSuffix (Name ws)) (StateContent sd) (terraform.Metadata sd)
                (s3 (emit (CallGetWorkspaceState (ID ws) true) w)) Hf (Hj _)) as Ok.
  destruct (UploadState _ _ _ _ _ _) as [s3' r]. cbn [snd] in Ok. subst r. reflexivity.
Qed.

Lemma countZ_zero {A : Type} (p : A -> bool) (l : list A) :
  countZ p l = 0 <-> forall x, x ∈ l -> p x = false.
Proof.
  induction l as [|y l IH]; cbn [countZ].
  - split; [intros _ x Hx; now apply elem_of_nil in Hx | reflexivity].
  - pose proof (countZ_bounds p l) as [H0 _]. split.
    + intros E x Hx. apply elem_of_cons in Hx as [-> | Hx].
      * destruct (p y); [cbn [Z.b2z] in E; lia | reflexivity].
      * apply IH; [destruct (p y); cbn [Z.b2z] in E; lia | exact Hx].
    + intros H. rewrite (H y) by left. cbn [Z.b2z].
      rewrite (proj2 IH); [reflexivity |]. intros x Hx. apply H. now right.
Qed.

(** X11.  A bucket that takes every request.  In a real run with at least
    one upload attempt, when no [PutObject] fails and the metadata can be
    serialized, the task of a workspace succeeds exactly when its state
    can be fetched: when the run returns, for every schedule, [Successful]
    is the number of planned workspaces whose fetch succeeds, [Failed] the
    number of the others, and the run returns nil exactly when every
    planned state can be fetched.  The run returns under the sequential
    schedule. *)
Theorem Migrate_healthy (m : Migrator) (rt : Runtime) (options : MigrationOptions)
    (w w1 : World) (workspaces : list Workspace) :
  DryRun options = false ->
  ValidateConnections m = None ->
  getWorkspacesToMigrate m (Projects options) (fst (Now rt w)) = (w1, inr workspaces) ->
  0 < BatchSize (config m) <= GoInt.max_int ->
  lenL workspaces <= maxLen ->
  1 <= RetryAttempts (config m) <= maxRetry ->
  (forall n, putFault (sdk (s3Client m)) n = None) ->
  (forall md, exists json, MarshalIndent (sdk (s3Client m)) md = inr json) ->
  (forall o, Migrate m rt options w = Returned o ->
     exists st,
       runStats o = Some st
       /\ Successful st = countZ (fetchOk m) workspaces
       /\ Failed st = countZ (fun ws => negb (fetchOk m ws)) workspaces
       /\ (result o = None <-> forall ws, ws ∈ workspaces -> fetchOk m ws = true))
  /\ (1 <= ConcurrentUploads (config m) ->
      (forall j, schedule rt j = sequential (List.length workspaces)) ->
      exists o, Migrate m rt options w = Returned o).
Proof.
  intros Hd Hv Hp HB Hn HR Hf Hj. split.
  2:{ intros Hcap Hseq.
      exact (Migrate_returns m rt options w workspaces w1 Hv Hp
               (fun _ _ => True) (fun _ => True) HB Hn
               (fun _ _ _ => I) (fun _ _ _ => I) (fun _ _ _ _ => I) I Hcap Hseq). }
  intros o Ho.
  assert (HQ : forall ws w', ws ∈ workspaces ->
                 isNil (snd (migrateWorkspace m ws (DryRun options) w')) = fetchOk m ws).
  { intros ws w' _. rewrite Hd. apply migrateWorkspace_healthy; [lia | exact Hf | exact Hj]. }
  pose proof (Migrate_spec m rt options w workspaces w1 Hv Hp
                (fun ws e => isNil e = fetchOk m ws) (fun _ => True) HB Hn
                HQ (fun _ _ _ => I) (fun _ _ _ _ => I) I) as S.
  rewrite Ho in S. destruct S as [[E ->] | (Hpos & st2 & w2 & outs & -> & A & _)].
  - assert (workspaces = []) as ->
        by (destruct workspaces; [reflexivity | unfold lenL in E; simpl in E; lia]).
    exists (planStats rt w []). cbn [emptyPlan runStats result planStats Successful Failed countZ].
    repeat split; try reflexivity. intros _ ws Hin. now apply elem_of_nil in Hin.
  - destruct A as (F & S1 & E1 & _). apply dry_counts in F as [F1 F2].
    cbn [planStats Successful Failed] in S1, E1.
    exists (withEnd (now rt (clockReads w2)) st2).
    cbn [finish runStats result withEnd Successful Failed].
    split; [reflexivity | split; [lia | split; [lia |]]].
    pose proof (countZ_bounds (fun ws => negb (fetchOk m ws)) workspaces) as [H0 _].
    destruct (Z.gtb_spec (Failed st2) 0) as [G | G].
    + split; [discriminate |]. intros All. exfalso.
      assert (Z0 : countZ (fun ws => negb (fetchOk m ws)) workspaces = 0).
      { apply countZ_zero. intros ws Hin. now rewrite (All ws Hin). }
      lia.
    + split; [| reflexivity]. intros _ ws Hin.
      assert (Z0 : countZ (fun ws => negb (fetchOk m ws)) workspaces = 0) by lia.
      apply negb_false_iff. revert ws Hin. now apply countZ_zero.
Qed.

End Healthy.

Lemma Migrate_healthy_witness :
  exists o st,
    RunSamples.run BatchSamples.real = migrator.Returned o
    /\ migrator.runStats o = Some st
    /\ migrator.Successful st = 6 /\ migrator.Failed st = 1.
Proof.
  destruct (Migrate_healthy (U := asciiOnly) BatchSamples.engine BatchSamples.runtime
              BatchSamples.real TaskSamples.world0 RunWitness.planWorld BatchSamples.seven
              eq_refl sample_validated (sample_planned BatchSamples.real eq_refl)
              sample_batch sample_len ltac:(vm_compute; split; discriminate)
              (fun _ => eq_refl) (fun _ => ex_intro _ _ eq_refl)) as (M & _).
  destruct (sample_returns BatchSamples.real eq_refl) as [o Eo].
  destruct (M o Eo) as (st & Hst & Hs & Hf & _).
  exists o, st. repeat split; assumption.
Defined.
